(** * TODO Creeper: the scan-aggregate-reconcile pipeline

    A shallow embedding of the action's entry file (the version with issue
    reconciliation and marker stripping): [run], [scanForTodos],
    [scanFileForTodos], [processTodosForIssues], [findExistingIssue] and
    [createIssueForTodo], followed by the properties of the pipeline.

    Strings.  A JavaScript string is modelled by [string], a sequence of
    8-bit units.  The model is exact on ASCII text, where UTF-16 code units,
    UTF-8 bytes and characters coincide; units of 128 and above are carried
    through unchanged and are neither white space nor letters.  The literal
    log messages of the source are kept byte for byte.

    Effects.  Every call that leaves the process (a repository fetch, an
    issue search, an issue creation) and every call to the host ([info],
    [warning], [setOutput], [setFailed]) appends one [event] to a trace that
    is threaded through the code; a [try]/[catch] of the source is a match on
    the answer of the call that may throw.  The walker is given over a
    client that answers a fetch by its path and, in [Transient], over a
    service whose answer to a fetch may change from one request to the
    next. *)

From Stdlib Require Import String Ascii List Bool Arith ZArith Lia Sorted.
From Stdlib Require Import DecimalString DecimalNat.
Import ListNotations.
Open Scope string_scope.
Open Scope list_scope.
Open Scope nat_scope.

(** Concatenation of strings, the [+] and the template literals of the
    source. *)
Infix "+++" := String.append (right associativity, at level 60).

(** ** String primitives of the host language *)

Module Js.

(** [WhiteSpace] and [LineTerminator] of the language, below 128: TAB, LF,
    VT, FF, CR and SP.  On ASCII text this is the class [\s] of a regular
    expression and the class removed by [trim].  The classes of the
    language also hold characters outside ASCII (U+00A0, U+FEFF, U+2028,
    U+3000 and others), which this model does not take for white space: on
    a text with such a character [\s] and [trim] of the language take more
    than [matchHere] and [trim] do here, and a statement that says what the
    code does not match or does not remove is made for ASCII text. *)
Definition isWhiteSpace (c : ascii) : bool :=
  let n := nat_of_ascii c in
  ((9 <=? n) && (n <=? 13)) || (n =? 32).

Definition isEmpty (s : string) : bool :=
  match s with EmptyString => true | String _ _ => false end.

Fixpoint trimStart (s : string) : string :=
  match s with
  | EmptyString => EmptyString
  | String c r => if isWhiteSpace c then trimStart r else s
  end.

Fixpoint trimEnd (s : string) : string :=
  match s with
  | EmptyString => EmptyString
  | String c r =>
      let r' := trimEnd r in
      if isWhiteSpace c && isEmpty r' then EmptyString else String c r'
  end.

(** [s.trim()] *)
Definition trim (s : string) : string := trimEnd (trimStart s).

(** [s.startsWith(p)] *)
Definition startsWith (s p : string) : bool := String.prefix p s.

(** [s.includes(sub)]: [sub] occurs in [s] at some position. *)
Fixpoint includes (s sub : string) : bool :=
  startsWith s sub ||
  match s with
  | EmptyString => false
  | String _ r => includes r sub
  end.

Definition lowerChar (c : ascii) : ascii :=
  let n := nat_of_ascii c in
  if (65 <=? n) && (n <=? 90) then ascii_of_nat (n + 32) else c.

(** [s.toLowerCase()] *)
Fixpoint toLowerCase (s : string) : string :=
  match s with
  | EmptyString => EmptyString
  | String c r => String (lowerChar c) (toLowerCase r)
  end.

(** [s.split(sep)] for a one-character separator: never the empty list,
    [''.split(',')] is [['']]. *)
Fixpoint split (sep : ascii) (s : string) : list string :=
  match s with
  | EmptyString => [EmptyString]
  | String c r =>
      if Ascii.eqb c sep then EmptyString :: split sep r
      else match split sep r with
           | h :: t => String c h :: t
           | [] => [String c EmptyString]
           end
  end.

(** [s.substring(0, n)] *)
Definition substring0 (n : nat) (s : string) : string := String.substring 0 n s.

(** [n.toString()] for a non-negative integer. *)
Definition natToString (n : nat) : string :=
  NilZero.string_of_uint (Nat.to_uint n).

(** Truthiness of a string that may be absent ([undefined] or [null]). *)
Definition truthy (s : option string) : bool :=
  match s with
  | Some t => negb (isEmpty t)
  | None => false
  end.

End Js.

(** ** Regular expressions of the marker patterns

    The twelve patterns are all of one shape: literal characters and one
    [\s*].  [parseSource] reads the text between the slashes of a literal,
    [matchHere] matches at the start of the subject with backtracking over
    [\s*], and [test] is the unanchored search of [RegExp.prototype.test]
    under the [i] flag. *)

Module Regex.

Inductive atom : Type :=
| Lit (c : ascii)
| WsStar.

Fixpoint parseSource (src : string) : list atom :=
  match src with
  | EmptyString => []
  | String c r =>
      if Ascii.eqb c "\" then
        match r with
        | String "s" (String "*" r') => WsStar :: parseSource r'
        | String d r' => Lit d :: parseSource r'
        | EmptyString => []
        end
      else Lit c :: parseSource r
  end.

(** Comparison of two characters under the [i] flag. *)
Definition eqbIgnoreCase (a b : ascii) : bool :=
  Ascii.eqb (Js.lowerChar a) (Js.lowerChar b).

Fixpoint matchHere (p : list atom) : string -> bool :=
  match p with
  | [] => fun _ => true
  | Lit c :: r =>
      fun s =>
        match s with
        | String d s' => eqbIgnoreCase c d && matchHere r s'
        | EmptyString => false
        end
  | WsStar :: r =>
      fix star (s : string) : bool :=
        matchHere r s ||
        match s with
        | String d s' => Js.isWhiteSpace d && star s'
        | EmptyString => false
        end
  end.

Fixpoint search (p : list atom) (s : string) : bool :=
  matchHere p s ||
  match s with
  | String _ s' => search p s'
  | EmptyString => false
  end.

(** A regular expression literal [/source/i]. *)
Record regexp : Type := mkRegexp { source : string }.

Definition test (re : regexp) (s : string) : bool :=
  search (parseSource (source re)) s.

End Regex.

(** ** Findings *)

(** The object pushed by the scanner: [{file, line, content, type}]. *)
Record todo : Type := mkTodo {
  file : string;
  line : nat;
  content : string;
  type : string
}.

(** The array [todoPatterns] of [scanFileForTodos], in its order. *)
Definition todoPatterns : list Regex.regexp :=
  map Regex.mkRegexp
    [ "\/\/\s*TODO";  "\/\*\s*TODO";  "#\s*TODO";  "<!--\s*TODO";
      "\/\/\s*FIXME"; "\/\*\s*FIXME"; "#\s*FIXME"; "<!--\s*FIXME";
      "\/\/\s*HACK";  "\/\*\s*HACK";  "#\s*HACK";  "<!--\s*HACK" ].

(** The [type] expression of the pushed object. *)
Definition patternType (re : Regex.regexp) : string :=
  if Js.includes (Regex.source re) "TODO" then "TODO"
  else if Js.includes (Regex.source re) "FIXME" then "FIXME"
  else "HACK".

(** The [for ... of todoPatterns] loop with its [break]: the findings pushed
    for one line. *)
Fixpoint scanLinePatterns (patterns : list Regex.regexp)
    (filePath : string) (lineNumber : nat) (ln : string) : list todo :=
  match patterns with
  | [] => []
  | pattern :: rest =>
      if Regex.test pattern ln then
        [ mkTodo filePath lineNumber (Js.trim ln) (patternType pattern) ]
      else scanLinePatterns rest filePath lineNumber ln
  end.

(** The callback of [lines.forEach((line, index) => ...)]. *)
Definition scanLine (filePath : string) (index : nat) (ln : string) : list todo :=
  let lineNumber := index + 1 in
  scanLinePatterns todoPatterns filePath lineNumber ln.

(** [lines.forEach] from position [index] on. *)
Fixpoint scanLines (filePath : string) (index : nat) (lines : list string)
  : list todo :=
  match lines with
  | [] => []
  | ln :: rest => scanLine filePath index ln ++ scanLines filePath (S index) rest
  end.

(** ** The outside world *)

(** An entry of a directory listing of the repository API. *)
Module Item.
Record t : Type := mk { name : string; path : string; type : string }.
End Item.

(** The object the repository API answers for a file path; [content] is
    the base64 text and may be absent. *)
Module FileContent.
Record t : Type := mk { type : string; content : option string }.
End FileContent.

(** What [octokit.rest.repos.getContent] gives for a path: [data] is an
    array for a directory, an object for anything else, or the call
    rejects. *)
Inductive contentResponse : Type :=
| Listing (items : list Item.t)
| FileData (f : FileContent.t)
| ContentError (message : string).

(** A tracked issue as the search returns it; [body] may be [null]. *)
Module Issue.
Record t : Type := mk { number : nat; title : string; body : option string }.
End Issue.

Inductive searchResponse : Type :=
| SearchOk (items : list Issue.t)
| SearchError (message : string).

(** The argument of [octokit.rest.issues.create]; [assignees] is set only
    when there is one. *)
Module IssueData.
Record t : Type := mk {
  owner : string;
  repo : string;
  title : string;
  body : string;
  labels : list string;
  assignees : option (list string)
}.
End IssueData.

Inductive createResponse : Type :=
| Created (issue : Issue.t)
| CreateError (message : string).

(** One observable step of a run.  [GetContent] stands for a call of
    [octokit.rest.repos.getContent] with the owner, repository and [ref] of
    the context, which are the same in every call. *)
Inductive event : Type :=
| GetContent (path : string)
| SearchIssues (q : string)
| CreateIssue (d : IssueData.t)
| Info (message : string)
| Warning (message : string)
| SetOutput (name value : string)
| SetFailed (message : string).

(** The trace of a run, the latest event first. *)
Definition trace : Type := list event.

(** The API client.  The commit of the context pins the tree, so a fetch
    that is answered depends on the path alone; the issue tracker changes
    as the run creates issues, so its answers may depend on everything done
    so far.  A fetch that is rejected at one time and answered at another
    is the subject of [Transient] below. *)
Record octokit : Type := mkOctokit {
  getContent : string -> contentResponse;
  searchIssues : trace -> string -> searchResponse;
  createIssue : trace -> IssueData.t -> createResponse
}.

(** [github.context], the part the code reads.  A number that is absent is
    [None]. *)
Module User.
Record t : Type := mk { login : option string }.
End User.

Module PullRequest.
Record t : Type := mk { number : option nat; user : option User.t }.
End PullRequest.

Module IssueRef.
Record t : Type := mk { number : option nat }.
End IssueRef.

Module Payload.
Record t : Type := mk {
  pull_request : option PullRequest.t;
  number : option nat;
  issue : option IssueRef.t;
  sender : option User.t
}.
End Payload.

Module Context.
Record t : Type := mk {
  owner : string;
  repo : string;
  sha : string;
  ref : string;
  eventName : string;
  payload : Payload.t
}.
End Context.

(** What the code takes from the platform and its libraries:
    [path.extname], [Buffer.from(s, 'base64').toString('utf-8')],
    [JSON.stringify] on the findings, and [core.getInput], which gives the
    trimmed value the host supplies and [''] when there is none. *)
Record runtime : Type := mkRuntime {
  extname : string -> string;
  base64ToUtf8 : string -> string;
  JSON_stringify : list todo -> string;
  getInput : string -> string
}.

(** ** Effects: a state monad over the trace *)

Definition St (A : Type) : Type := trace -> A * trace.

Definition ret {A : Type} (a : A) : St A := fun tr => (a, tr).

Definition bind {A B : Type} (c : St A) (k : A -> St B) : St B :=
  fun tr => let (a, tr') := c tr in k a tr'.

Notation "x <- c ;; k" := (bind c (fun x => k))
  (at level 61, c at next level, right associativity).
Notation "c ;;; k" := (bind c (fun _ => k))
  (at level 61, right associativity).

Definition emit (e : event) : St unit := fun tr => (tt, e :: tr).

Definition info (message : string) : St unit := emit (Info message).
Definition warning (message : string) : St unit := emit (Warning message).
Definition setOutput (name value : string) : St unit := emit (SetOutput name value).
Definition setFailed (message : string) : St unit := emit (SetFailed message).

Definition callGetContent (o : octokit) (path : string) : St contentResponse :=
  fun tr => (getContent o path, GetContent path :: tr).

Definition callSearch (o : octokit) (q : string) : St searchResponse :=
  fun tr => (searchIssues o tr q, SearchIssues q :: tr).

Definition callCreate (o : octokit) (d : IssueData.t) : St createResponse :=
  fun tr => (createIssue o tr d, CreateIssue d :: tr).

(** ** The file scanner and the tree walker *)

Definition codeExtensions : list string :=
  [ ".js"; ".jsx"; ".ts"; ".tsx"; ".py"; ".java"; ".cpp"; ".c"; ".cs"; ".php";
    ".rb"; ".go"; ".rs"; ".swift"; ".kt"; ".scala"; ".clj"; ".hs"; ".ml"; ".fs";
    ".vb"; ".sql"; ".sh"; ".bash"; ".zsh"; ".fish"; ".ps1"; ".bat"; ".cmd";
    ".yml"; ".yaml"; ".json"; ".xml"; ".html"; ".css"; ".scss"; ".sass";
    ".less"; ".vue"; ".svelte"; ".md"; ".txt" ].

(** [arr.includes(s)] on an array of strings. *)
Definition arrayIncludes (arr : list string) (s : string) : bool :=
  existsb (String.eqb s) arr.

(** The message of the [TypeError] of a [for ... of] over a value that is
    not iterable. *)
Definition notIterable : string := "contents is not iterable".

(** The answer of the walker: the findings and the trace, or [None] when
    the fuel of the model is used up. *)
Definition scanResult : Type := option (list todo * trace).

Section Scan.

Variable rt : runtime.
Variable o : octokit.

Definition scanFileForTodos (f : Item.t) : St (list todo) :=
  let fileExtension := Js.toLowerCase (extname rt (Item.name f)) in
  if negb (arrayIncludes codeExtensions fileExtension) then ret []
  else
    r <- callGetContent o (Item.path f) ;;
    match r with
    | ContentError message =>
        warning ("Failed to scan file " +++ Item.path f +++ ": " +++ message) ;;;
        ret []
    | Listing _ => ret []
    | FileData fileContent =>
        if String.eqb (FileContent.type fileContent) "file"
           && Js.truthy (FileContent.content fileContent)
        then
          let content :=
            base64ToUtf8 rt
              (match FileContent.content fileContent with
               | Some c => c
               | None => EmptyString
               end) in
          let lines := Js.split (ascii_of_nat 10) content in
          ret (scanLines (Item.path f) 0 lines)
        else ret []
    end.

(** The [itemPath] of the walker. *)
Definition joinPath (currentPath name : string) : string :=
  if Js.isEmpty currentPath then name else currentPath +++ "/" +++ name.

(** [excludePatterns.some(pattern => itemPath.includes(pattern))] *)
Definition excluded (excludePatterns : list string) (itemPath : string) : bool :=
  existsb (fun pattern => Js.includes itemPath pattern) excludePatterns.

(** The [for (const item of contents)] loop of [scanForTodos]; [recur] is
    the recursive call, which gives [None] when the fuel of the model is
    used up. *)
Fixpoint scanItems
    (recur : list Item.t -> string -> trace -> scanResult)
    (excludePatterns : list string) (currentPath : string)
    (contents : list Item.t) (todos : list todo) (tr : trace)
  : scanResult :=
  match contents with
  | [] => Some (todos, tr)
  | item :: rest =>
      let itemPath := joinPath currentPath (Item.name item) in
      if excluded excludePatterns itemPath then
        scanItems recur excludePatterns currentPath rest todos tr
      else if String.eqb (Item.type item) "dir" then
        let (r, tr1) := callGetContent o itemPath tr in
        match r with
        | Listing dirContents =>
            match recur dirContents itemPath tr1 with
            | Some (subTodos, tr2) =>
                scanItems recur excludePatterns currentPath rest
                  (todos ++ subTodos) tr2
            | None => None
            end
        | FileData _ =>
            let (_, tr2) :=
              warning ("Failed to scan directory " +++ itemPath +++ ": "
                       +++ notIterable) tr1 in
            scanItems recur excludePatterns currentPath rest todos tr2
        | ContentError message =>
            let (_, tr2) :=
              warning ("Failed to scan directory " +++ itemPath +++ ": "
                       +++ message) tr1 in
            scanItems recur excludePatterns currentPath rest todos tr2
        end
      else if String.eqb (Item.type item) "file" then
        let (fileTodos, tr1) := scanFileForTodos item tr in
        scanItems recur excludePatterns currentPath rest (todos ++ fileTodos) tr1
      else scanItems recur excludePatterns currentPath rest todos tr
  end.

(** [scanForTodos(contents, octokit, context, excludePatterns, currentPath)].
    The recursion follows the answers of the API, so the model counts the
    nesting it may still enter: [None] means the fuel did not suffice. *)
Fixpoint scanForTodos (fuel : nat) (contents : list Item.t)
    (excludePatterns : list string) (currentPath : string) (tr : trace)
  : scanResult :=
  match fuel with
  | O => None
  | S fuel' =>
      scanItems
        (fun dirContents itemPath => scanForTodos fuel' dirContents excludePatterns itemPath)
        excludePatterns currentPath contents [] tr
  end.

End Scan.

(** ** The walker over a service that may reject a request

    [octokit.rest.repos.getContent] is a request to a service: whatever the
    tree, the same request may be answered at one time and rejected at
    another (a rate limit, a network failure).  Here the answer of a fetch
    is a function of the trace so far and of the path, and the walker is
    the one above, call for call.  A service that answers by the path alone
    is the [getContent] of an [octokit]. *)

Module Transient.

Section Scan.

Variable rt : runtime.
Variable fetch : trace -> string -> contentResponse.

Definition callGetContent (path : string) : St contentResponse :=
  fun tr => (fetch tr path, GetContent path :: tr).

Definition scanFileForTodos (f : Item.t) : St (list todo) :=
  let fileExtension := Js.toLowerCase (extname rt (Item.name f)) in
  if negb (arrayIncludes codeExtensions fileExtension) then ret []
  else
    r <- callGetContent (Item.path f) ;;
    match r with
    | ContentError message =>
        warning ("Failed to scan file " +++ Item.path f +++ ": " +++ message) ;;;
        ret []
    | Listing _ => ret []
    | FileData fileContent =>
        if String.eqb (FileContent.type fileContent) "file"
           && Js.truthy (FileContent.content fileContent)
        then
          let content :=
            base64ToUtf8 rt
              (match FileContent.content fileContent with
               | Some c => c
               | None => EmptyString
               end) in
          let lines := Js.split (ascii_of_nat 10) content in
          ret (scanLines (Item.path f) 0 lines)
        else ret []
    end.

Fixpoint scanItems
    (recur : list Item.t -> string -> trace -> scanResult)
    (excludePatterns : list string) (currentPath : string)
    (contents : list Item.t) (todos : list todo) (tr : trace)
  : scanResult :=
  match contents with
  | [] => Some (todos, tr)
  | item :: rest =>
      let itemPath := joinPath currentPath (Item.name item) in
      if excluded excludePatterns itemPath then
        scanItems recur excludePatterns currentPath rest todos tr
      else if String.eqb (Item.type item) "dir" then
        let (r, tr1) := callGetContent itemPath tr in
        match r with
        | Listing dirContents =>
            match recur dirContents itemPath tr1 with
            | Some (subTodos, tr2) =>
                scanItems recur excludePatterns currentPath rest
                  (todos ++ subTodos) tr2
            | None => None
            end
        | FileData _ =>
            let (_, tr2) :=
              warning ("Failed to scan directory " +++ itemPath +++ ": "
                       +++ notIterable) tr1 in
            scanItems recur excludePatterns currentPath rest todos tr2
        | ContentError message =>
            let (_, tr2) :=
              warning ("Failed to scan directory " +++ itemPath +++ ": "
                       +++ message) tr1 in
            scanItems recur excludePatterns currentPath rest todos tr2
        end
      else if String.eqb (Item.type item) "file" then
        let (fileTodos, tr1) := scanFileForTodos item tr in
        scanItems recur excludePatterns currentPath rest (todos ++ fileTodos) tr1
      else scanItems recur excludePatterns currentPath rest todos tr
  end.

Fixpoint scanForTodos (fuel : nat) (contents : list Item.t)
    (excludePatterns : list string) (currentPath : string) (tr : trace)
  : scanResult :=
  match fuel with
  | O => None
  | S fuel' =>
      scanItems
        (fun dirContents itemPath => scanForTodos fuel' dirContents excludePatterns itemPath)
        excludePatterns currentPath contents [] tr
  end.

End Scan.

End Transient.

(** ** Inputs *)

(** The value of a digit or letter as a digit of [parseInt]. *)
Definition digitValue (c : ascii) : option nat :=
  let n := nat_of_ascii c in
  if (48 <=? n) && (n <=? 57) then Some (n - 48)
  else if (97 <=? n) && (n <=? 122) then Some (n - 87)
  else if (65 <=? n) && (n <=? 90) then Some (n - 55)
  else None.

(** The longest run of digits of the radix at the start of [s]; [acc] is
    [None] until a digit was read. *)
Fixpoint parseDigits (radix : nat) (s : string) (acc : option Z) : option Z :=
  match s with
  | EmptyString => acc
  | String c r =>
      match digitValue c with
      | Some d =>
          if d <? radix then
            parseDigits radix r
              (Some (Z.of_nat radix
                     * match acc with Some a => a | None => 0%Z end
                     + Z.of_nat d)%Z)
          else acc
      | None => acc
      end
  end.

(** [parseInt(s)] without a radix: leading white space, a sign, [0x] for
    radix 16, then digits; [None] is [NaN].  The result is the integer that
    was read.  The language keeps it as a double, which is that integer
    when its magnitude is at most 2^53 and the nearest double beyond: the
    sign, being zero and the order with a number below 2^53, such as a
    count of findings, are those of the integer, its decimal text is not.
    A statement on the value of a number that was read is made within
    2^53. *)
Definition parseInt (s : string) : option Z :=
  let s1 := Js.trimStart s in
  let '(negative, s2) :=
    match s1 with
    | String "-" r => (true, r)
    | String "+" r => (false, r)
    | _ => (false, s1)
    end in
  let '(radix, s3) :=
    match s2 with
    | String "0" (String "x" r) => (16, r)
    | String "0" (String "X" r) => (16, r)
    | _ => (10, s2)
    end in
  match parseDigits radix s3 None with
  | Some v => Some (if negative then (- v)%Z else v)
  | None => None
  end.

(** [n || d] on a number that may be [NaN]: [NaN] and [0] are falsy. *)
Definition numberOr (n : option Z) (d : Z) : Z :=
  match n with
  | Some 0%Z => d
  | Some z => z
  | None => d
  end.

(** [z.toString()] for an integer. *)
Definition intToString (z : Z) : string := NilZero.string_of_int (Z.to_int z).

(** The threshold of [run]. *)
Definition thresholdOf (rt : runtime) : Z :=
  numberOr (parseInt (getInput rt "threshold")) 10.

(** The exclusion patterns of [run]. *)
Definition excludePatternsOf (rt : runtime) : list string :=
  filter (fun pattern => 0 <? String.length pattern)
    (map Js.trim (Js.split "," (getInput rt "exclude-patterns"))).

(** ** The issue reconciler *)

Definition dquote : string := String (ascii_of_nat 34) EmptyString.

Definition newline : string := String (ascii_of_nat 10) EmptyString.

(** Truthiness of a number that may be absent. *)
Definition truthyNumber (n : option nat) : bool :=
  match n with
  | Some (S _) => true
  | _ => false
  end.

(** [a || b] on numbers and on strings that may be absent. *)
Definition orNumber (a b : option nat) : option nat :=
  if truthyNumber a then a else b.

Definition orString (a b : option string) : option string :=
  if Js.truthy a then a else b.

(** [context.payload.pull_request?.number || context.payload.number ||
    context.payload.issue?.number] *)
Definition prNumberOf (context : Context.t) : option nat :=
  let p := Context.payload context in
  orNumber
    (orNumber
       (match Payload.pull_request p with
        | Some pr => PullRequest.number pr
        | None => None
        end)
       (Payload.number p))
    (match Payload.issue p with
     | Some i => IssueRef.number i
     | None => None
     end).

(** [context.payload.pull_request?.user?.login ||
    context.payload.sender?.login] *)
Definition prAuthorOf (context : Context.t) : option string :=
  let p := Context.payload context in
  orString
    (match Payload.pull_request p with
     | Some pr =>
         match PullRequest.user pr with
         | Some u => User.login u
         | None => None
         end
     | None => None
     end)
    (match Payload.sender p with
     | Some u => User.login u
     | None => None
     end).

(** The test of the first loop of [findExistingIssue]. *)
Definition matchesContentSearch (t : todo) (issue : Issue.t) : bool :=
  match Issue.body issue with
  | Some body =>
      negb (Js.isEmpty body) &&
      (Js.includes body (file t)
       || Js.includes body (Js.trim (content t))
       || Js.includes (Js.toLowerCase (Issue.title issue)) "todo"
       || Js.includes (Js.toLowerCase (Issue.title issue)) "fixme"
       || Js.includes (Js.toLowerCase (Issue.title issue)) "hack")
  | None => false
  end.

(** The test of the second loop of [findExistingIssue]. *)
Definition matchesFileSearch (t : todo) (issue : Issue.t) : bool :=
  match Issue.body issue with
  | Some body => negb (Js.isEmpty body) && Js.includes body (Js.trim (content t))
  | None => false
  end.

Definition searchQueryOf (context : Context.t) (quoted : string) : string :=
  "repo:" +++ Context.owner context +++ "/" +++ Context.repo context +++ " "
  +++ dquote +++ quoted +++ dquote +++ " is:issue".

Definition findExistingIssue (o : octokit) (context : Context.t) (t : todo)
  : St (option Issue.t) :=
  let searchQuery := searchQueryOf context (Js.trim (content t)) in
  searchResults <- callSearch o searchQuery ;;
  match searchResults with
  | SearchError message =>
      warning ("Failed to search for existing issues: " +++ message) ;;;
      ret None
  | SearchOk items =>
      match find (matchesContentSearch t) items with
      | Some issue => ret (Some issue)
      | None =>
          let fileSearchQuery := searchQueryOf context (file t) in
          fileSearchResults <- callSearch o fileSearchQuery ;;
          match fileSearchResults with
          | SearchError message =>
              warning ("Failed to search for existing issues: " +++ message) ;;;
              ret None
          | SearchOk fileItems => ret (find (matchesFileSearch t) fileItems)
          end
      end
  end.

(** [s.replace(/^opener\s*/, '')] *)
Definition stripLeading (opener s : string) : string :=
  if Js.startsWith s opener then
    Js.trimStart (String.substring (String.length opener) (String.length s) s)
  else s.

(** [s.endsWith(suffix)] *)
Definition endsWith (s suffix : string) : bool :=
  (String.length suffix <=? String.length s)
  && String.eqb
       (String.substring (String.length s - String.length suffix)
          (String.length suffix) s)
       suffix.

(** [s.replace(/\s*closer$/, '')]: the match is the last [closer] together
    with the white space before it. *)
Definition stripTrailing (closer s : string) : string :=
  if endsWith s closer then
    Js.trimEnd (Js.substring0 (String.length s - String.length closer) s)
  else s.

(** [s.replace(/\s+/g, ' ')]; [inRun] tells that the previous character
    was white space. *)
Fixpoint collapseFrom (inRun : bool) (s : string) : string :=
  match s with
  | EmptyString => EmptyString
  | String c r =>
      if Js.isWhiteSpace c then
        if inRun then collapseFrom true r else String " " (collapseFrom true r)
      else String c (collapseFrom false r)
  end.

Definition collapseWhiteSpace (s : string) : string := collapseFrom false s.

(** The [cleanContent] of [createIssueForTodo]. *)
Definition cleanContentOf (t : todo) : string :=
  let c0 := Js.trim (content t) in
  let c1 := stripLeading "//" c0 in
  let c2 := stripLeading "#" c1 in
  let c3 := stripLeading "/*" c2 in
  let c4 := stripLeading "<!--" c3 in
  let c5 := stripTrailing "*/" c4 in
  let c6 := stripTrailing "-->" c5 in
  Js.trim (collapseWhiteSpace c6).

(** [/^(TODO|FIXME|HACK):\s*/i.test(s)] *)
Definition todoPrefixes (s : string) : bool :=
  Regex.matchHere (Regex.parseSource "TODO:") s
  || Regex.matchHere (Regex.parseSource "FIXME:") s
  || Regex.matchHere (Regex.parseSource "HACK:") s.

(** The [title] of [createIssueForTodo], from the cleaned content. *)
Definition titleOf (cleanContent : string) : string :=
  if todoPrefixes cleanContent then
    Js.substring0 50 cleanContent
    +++ (if 50 <? String.length cleanContent then "..." else "")
  else
    "TODO: " +++ Js.substring0 50 cleanContent
    +++ (if 50 <? String.length cleanContent then "..." else "").

(** [s.replace(pattern, replacement)] with a string pattern: the first
    occurrence only. *)
Fixpoint replaceFirst (pattern replacement s : string) : string :=
  if Js.startsWith s pattern then
    replacement +++ String.substring (String.length pattern) (String.length s) s
  else
    match s with
    | EmptyString => EmptyString
    | String c r => String c (replaceFirst pattern replacement r)
    end.

(** [contextInfo] and [assignees] of [createIssueForTodo]. *)
Definition contextInfoOf (context : Context.t) : string :=
  match prNumberOf context with
  | Some (S n) =>
      "This TODO was automatically detected by the TODO Creeper action in pull request #"
      +++ Js.natToString (S n) +++ "."
  | _ =>
      if String.eqb (Context.eventName context) "push" then
        "This TODO was automatically detected by the TODO Creeper action in commit "
        +++ Js.substring0 7 (Context.sha context) +++ " on branch "
        +++ replaceFirst "refs/heads/" "" (Context.ref context) +++ "."
      else "This TODO was automatically detected by the TODO Creeper action."
  end.

Definition assigneesOf (context : Context.t) : list string :=
  if truthyNumber (prNumberOf context) then
    match prAuthorOf context with
    | Some prAuthor => if Js.isEmpty prAuthor then [] else [prAuthor]
    | None => []
    end
  else [].

Definition issueBodyOf (context : Context.t) (t : todo) : string :=
  "## TODO Item" +++ newline +++ newline
  +++ "**File:** `" +++ file t +++ "`" +++ newline
  +++ "**Line:** " +++ Js.natToString (line t) +++ newline
  +++ "**Type:** " +++ type t +++ newline +++ newline
  +++ "**Content:**" +++ newline
  +++ "```" +++ newline
  +++ Js.trim (content t) +++ newline
  +++ "```" +++ newline +++ newline
  +++ "**Context:**" +++ newline
  +++ contextInfoOf context +++ newline +++ newline
  +++ "**Action Required:**" +++ newline
  +++ "Please review this TODO and either:" +++ newline
  +++ "1. Address the TODO item" +++ newline
  +++ "2. Create a proper issue with more details" +++ newline
  +++ "3. Remove the TODO if it's no longer needed" +++ newline +++ newline
  +++ "---" +++ newline
  +++ "*This issue was automatically created by [TODO Creeper](https://github.com/Gustrb/todo-creeper)*".

Definition createIssueForTodo (o : octokit) (context : Context.t) (t : todo)
    (labels : list string) : St createResponse :=
  let cleanContent := cleanContentOf t in
  let title := titleOf cleanContent in
  let assignees := assigneesOf context in
  let issueData :=
    IssueData.mk (Context.owner context) (Context.repo context) title
      (issueBodyOf context t) labels
      (if 0 <? List.length assignees then Some assignees else None) in
  callCreate o issueData.

Definition todoPlace (t : todo) : string :=
  file t +++ ":" +++ Js.natToString (line t).

(** The [for (const todo of todos)] loop of [processTodosForIssues] with
    its two counters. *)
Fixpoint processLoop (o : octokit) (context : Context.t) (labels : list string)
    (todos : list todo) (created linked : nat) : St (nat * nat) :=
  match todos with
  | [] => ret (created, linked)
  | t :: rest =>
      info ("🔍 Processing TODO: " +++ todoPlace t +++ " - " +++ Js.trim (content t)) ;;;
      existingIssue <- findExistingIssue o context t ;;
      match existingIssue with
      | Some issue =>
          info ("🔗 TODO in " +++ todoPlace t +++ " already has issue #"
                +++ Js.natToString (Issue.number issue)) ;;;
          processLoop o context labels rest created (linked + 1)
      | None =>
          info ("📝 Creating new issue for TODO in " +++ todoPlace t) ;;;
          r <- createIssueForTodo o context t labels ;;
          match r with
          | Created issue =>
              info ("✅ Created issue #" +++ Js.natToString (Issue.number issue)
                    +++ " for TODO in " +++ todoPlace t) ;;;
              processLoop o context labels rest (created + 1) linked
          | CreateError message =>
              warning ("Failed to process TODO in " +++ todoPlace t +++ ": "
                       +++ message) ;;;
              processLoop o context labels rest created linked
          end
      end
  end.

Definition processTodosForIssues (o : octokit) (context : Context.t)
    (todos : list todo) (issueLabels : string) : St (nat * nat) :=
  let labels := map Js.trim (Js.split "," issueLabels) in
  info ("🔍 Processing " +++ Js.natToString (List.length todos)
        +++ " TODOs for issue creation...") ;;;
  r <- processLoop o context labels todos 0 0 ;;
  info ("📊 Processed " +++ Js.natToString (List.length todos) +++ " TODOs: "
        +++ Js.natToString (fst r) +++ " created, "
        +++ Js.natToString (snd r) +++ " linked") ;;;
  ret r.

(** ** The run *)

Definition boolToString (b : bool) : string := if b then "true" else "false".

(** [new Set(todos.map(todo => todo.file)).size] *)
Definition todoFilesOf (todos : list todo) : nat :=
  List.length (nodup string_dec (map file todos)).

(** [todos.forEach((todo, index) => core.info(...))] from position [index]. *)
Fixpoint logDetails (index : nat) (todos : list todo) : St unit :=
  match todos with
  | [] => ret tt
  | t :: rest =>
      info (Js.natToString (index + 1) +++ ". " +++ todoPlace t +++ " - "
            +++ Js.trim (content t)) ;;;
      logDetails (S index) rest
  end.

(** The test of [run] for a pull-request context. *)
Definition prContext (context : Context.t) : bool :=
  truthyNumber (prNumberOf context)
  || String.eqb (Context.eventName context) "pull_request".

Section Run.

Variable rt : runtime.
Variable o : octokit.
Variable context : Context.t.

(** [run] from the statement after the scan to its end. *)
Definition runAfterScan (threshold : Z) (createIssues : bool)
    (issueLabels : string) (todos : list todo) : St unit :=
  let todoCount := List.length todos in
  let todoFiles := todoFilesOf todos in
  setOutput "todo-count" (Js.natToString todoCount) ;;;
  setOutput "todo-files" (Js.natToString todoFiles) ;;;
  setOutput "todo-details" (JSON_stringify rt todos) ;;;
  info ("📊 Found " +++ Js.natToString todoCount +++ " TODOs across "
        +++ Js.natToString todoFiles +++ " files") ;;;
  (if 0 <? todoCount then
     info (newline +++ "📝 TODO Details:") ;;;
     logDetails 0 todos
   else ret tt) ;;;
  info ("🔍 Event type: " +++ Context.eventName context) ;;;
  info ("🔍 Create issues enabled: " +++ boolToString createIssues) ;;;
  info ("🔍 Issue labels: " +++ issueLabels) ;;;
  counts <-
    (if createIssues then
       let prNumber := prNumberOf context in
       info ("🔍 PR number detected: "
             +++ match prNumber with
                 | Some (S n) => Js.natToString (S n)
                 | _ => "none"
                 end) ;;;
       if prContext context then
         info (newline +++ "🔗 Processing TODOs for issue creation...") ;;;
         result <- processTodosForIssues o context todos issueLabels ;;
         info ("📊 Issues created: " +++ Js.natToString (fst result)
               +++ ", Issues linked: " +++ Js.natToString (snd result)) ;;;
         ret result
       else
         warning "⚠️ Issue creation is enabled but no PR context detected. This usually means the action is running on a push event or manual trigger." ;;;
         info "💡 To create issues, run this action on a pull_request event or ensure it has access to PR context." ;;;
         ret (0, 0)
     else
       info "ℹ️ Issue creation is disabled" ;;;
       ret (0, 0)) ;;
  let issuesCreated := fst counts in
  let issuesLinked := snd counts in
  setOutput "issues-created" (Js.natToString issuesCreated) ;;;
  setOutput "issues-linked" (Js.natToString issuesLinked) ;;;
  info ("📤 Setting outputs - issues-created: " +++ Js.natToString issuesCreated
        +++ ", issues-linked: " +++ Js.natToString issuesLinked) ;;;
  if (threshold <? Z.of_nat todoCount)%Z then
    setFailed ("❌ Too many TODOs found: " +++ Js.natToString todoCount
               +++ " (threshold: " +++ intToString threshold +++ ")")
  else
    info ("✅ TODO count (" +++ Js.natToString todoCount
          +++ ") is within threshold (" +++ intToString threshold +++ ")").

(** [run()].  A required input that is missing, a rejected fetch of the
    root and a root that is not a listing all end in the [catch] of [run];
    [None] means the fuel of the walk did not suffice.  [getInput] is the
    trimmed value, so a token of white space alone is the empty token here:
    the code fails on it as well and before any fetch, in [getOctokit]
    and not in [getInput], and the text of its message differs from the one
    below. *)
Definition run (fuel : nat) (tr0 : trace) : option trace :=
  if Js.isEmpty (getInput rt "token") then
    Some (snd (setFailed ("Action failed: "
                          +++ "Input required and not supplied: token") tr0))
  else
    let threshold := thresholdOf rt in
    let excludePatterns := excludePatternsOf rt in
    let createIssues := String.eqb (getInput rt "create-issues") "true" in
    let issueLabels :=
      if Js.isEmpty (getInput rt "issue-labels") then "todo,enhancement"
      else getInput rt "issue-labels" in
    let (_, tr1) := info "🔍 Starting TODO scan..." tr0 in
    let (r, tr2) := callGetContent o "" tr1 in
    match r with
    | ContentError message =>
        Some (snd (setFailed ("Action failed: " +++ message) tr2))
    | FileData _ =>
        Some (snd (setFailed ("Action failed: " +++ notIterable) tr2))
    | Listing contents =>
        match scanForTodos rt o fuel contents excludePatterns "" tr2 with
        | Some (todos, tr3) =>
            Some (snd (runAfterScan threshold createIssues issueLabels todos tr3))
        | None => None
        end
    end.

End Run.

(** The run was reported as failed: [setFailed] was called. *)
Definition failed (tr : trace) : bool :=
  existsb (fun e => match e with SetFailed _ => true | _ => false end) tr.

(** The value last set for an output, if any. *)
Fixpoint outputOf (name : string) (tr : trace) : option string :=
  match tr with
  | [] => None
  | SetOutput n v :: rest => if String.eqb n name then Some v else outputOf name rest
  | _ :: rest => outputOf name rest
  end.

(** The calls of the trace that went to the issue tracker. *)
Definition isTrackerCall (e : event) : bool :=
  match e with
  | SearchIssues _ | CreateIssue _ => true
  | _ => false
  end.

Definition isFetch (e : event) : bool :=
  match e with
  | GetContent _ => true
  | _ => false
  end.

(** ** The first issue synthesis

    [createIssueForTodo] as the first entry file with issue creation and the
    test script have it: the comment markers stay in the title, the context
    sentence always names the pull request, and the author of the pull
    request is always the assignee.  The test script returns the issue
    data; the entry file passes the same data to [octokit.rest.issues.create].
    [None] is the [TypeError] of reading a property of [undefined], which
    happens before any call. *)

Module Legacy.

(** The object [{title, body, labels, assignees}]; a login that is absent
    is an [undefined] entry of [assignees]. *)
Record issueData : Type := mkIssueData {
  title : string;
  body : string;
  labels : list string;
  assignees : list (option string)
}.

(** [`${n}`] for a number that may be [undefined]. *)
Definition numberToString (n : option nat) : string :=
  match n with
  | Some k => Js.natToString k
  | None => "undefined"
  end.

Definition titleOf (t : todo) : string :=
  "TODO: " +++ Js.substring0 50 (Js.trim (content t))
  +++ (if 50 <? String.length (content t) then "..." else "").

Definition bodyOf (t : todo) (prNumber : option nat) : string :=
  "## TODO Item" +++ newline +++ newline
  +++ "**File:** `" +++ file t +++ "`" +++ newline
  +++ "**Line:** " +++ Js.natToString (line t) +++ newline
  +++ "**Type:** " +++ type t +++ newline +++ newline
  +++ "**Content:**" +++ newline
  +++ "```" +++ newline
  +++ Js.trim (content t) +++ newline
  +++ "```" +++ newline +++ newline
  +++ "**Context:**" +++ newline
  +++ "This TODO was automatically detected by the TODO Creeper action in pull request #"
  +++ numberToString prNumber +++ "." +++ newline +++ newline
  +++ "**Action Required:**" +++ newline
  +++ "Please review this TODO and either:" +++ newline
  +++ "1. Address the TODO item" +++ newline
  +++ "2. Create a proper issue with more details" +++ newline
  +++ "3. Remove the TODO if it's no longer needed" +++ newline +++ newline
  +++ "---" +++ newline
  +++ "*This issue was automatically created by [TODO Creeper](https://github.com/Gustrb/todo-creeper)*".

Definition createIssueForTodo (t : todo) (context : Context.t) (labels : list string)
  : option issueData :=
  let title := titleOf t in
  match Payload.pull_request (Context.payload context) with
  | None => None
  | Some pr =>
      let body := bodyOf t (PullRequest.number pr) in
      match PullRequest.user pr with
      | None => None
      | Some user => Some (mkIssueData title body labels [User.login user])
      end
  end.

End Legacy.

(** ** A concrete platform and repository

    [posixExtname] follows the loop of [path.posix.extname]; the sample
    repository holds its file contents in clear, so its decoder is the
    identity. *)

Module Posix.

Record scanState : Type := mkScanState {
  startDot : option nat;
  startPart : nat;
  endAt : option nat;
  matchedSlash : bool;
  preDotState : Z
}.

(** The loop [for (let i = path.length - 1; i >= 0; --i)], entered with
    [n = i + 1]. *)
Fixpoint extnameLoop (n : nat) (path : string) (st : scanState) : scanState :=
  match n with
  | O => st
  | S i =>
      match String.get i path with
      | None => st
      | Some code =>
          if Ascii.eqb code "/" then
            if negb (matchedSlash st) then
              mkScanState (startDot st) (i + 1) (endAt st) (matchedSlash st)
                (preDotState st)
            else extnameLoop i path st
          else
            let st1 :=
              match endAt st with
              | None =>
                  mkScanState (startDot st) (startPart st) (Some (i + 1)) false
                    (preDotState st)
              | Some _ => st
              end in
            let st2 :=
              if Ascii.eqb code "." then
                match startDot st1 with
                | None =>
                    mkScanState (Some i) (startPart st1) (endAt st1)
                      (matchedSlash st1) (preDotState st1)
                | Some _ =>
                    mkScanState (startDot st1) (startPart st1) (endAt st1)
                      (matchedSlash st1) 1%Z
                end
              else
                match startDot st1 with
                | Some _ =>
                    mkScanState (startDot st1) (startPart st1) (endAt st1)
                      (matchedSlash st1) (-1)%Z
                | None => st1
                end in
            extnameLoop i path st2
      end
  end.

Definition extname (path : string) : string :=
  let st :=
    extnameLoop (String.length path) path (mkScanState None 0 None true 0%Z) in
  match startDot st, endAt st with
  | Some sd, Some e =>
      if (preDotState st =? 0)%Z
         || ((preDotState st =? 1)%Z && (sd =? e - 1) && (sd =? startPart st + 1))
      then EmptyString
      else String.substring sd (e - sd) path
  | _, _ => EmptyString
  end.

End Posix.

Module Sample.

Definition inputs (threshold createIssues : string) (name : string) : string :=
  if String.eqb name "token" then "ghs_token"
  else if String.eqb name "threshold" then threshold
  else if String.eqb name "exclude-patterns" then "node_modules,dist,build,.git"
  else if String.eqb name "create-issues" then createIssues
  else if String.eqb name "issue-labels" then "todo,enhancement"
  else "".

Definition platform (threshold createIssues : string) : runtime :=
  mkRuntime Posix.extname (fun s => s) (fun _ => "[...]")
    (inputs threshold createIssues).

Definition rootListing : list Item.t :=
  [ Item.mk "src" "src" "dir";
    Item.mk "node_modules" "node_modules" "dir";
    Item.mk "logo.png" "logo.png" "file" ].

Definition aJs : string :=
  "const a = 1;" +++ newline +++ newline +++ "// TODO: fix" +++ newline.

(** [src/a.js] has [// TODO: fix] on line 3 and [node_modules/b.js] has
    [// TODO: ignored]. *)
Definition tree (path : string) : contentResponse :=
  if String.eqb path "" then Listing rootListing
  else if String.eqb path "src" then Listing [ Item.mk "a.js" "src/a.js" "file" ]
  else if String.eqb path "src/a.js" then
    FileData (FileContent.mk "file" (Some aJs))
  else if String.eqb path "node_modules" then
    Listing [ Item.mk "b.js" "node_modules/b.js" "file" ]
  else if String.eqb path "node_modules/b.js" then
    FileData (FileContent.mk "file" (Some "// TODO: ignored"))
  else if String.eqb path "logo.png" then
    FileData (FileContent.mk "file" (Some "// TODO: not text"))
  else ContentError "Not Found".

(** An issue tracker with one issue whose title names a marker and whose
    body is [null], and one whose body quotes the finding. *)
Definition titleOnly : Issue.t := Issue.mk 7 "TODO list" None.

Definition quoting : Issue.t :=
  Issue.mk 9 "Parser cleanup" (Some "see `// TODO: fix` in the parser").

Definition tracker (items : list Issue.t) : octokit :=
  mkOctokit tree (fun _ _ => SearchOk items)
    (fun _ d => Created (Issue.mk 100 (IssueData.title d) (Some (IssueData.body d)))).

Definition pushContext : Context.t :=
  Context.mk "Gustrb" "todo-creeper" "0123456789abcdef" "refs/heads/main" "push"
    (Payload.mk None None None (Some (User.mk (Some "dev")))).

Definition prEventContext : Context.t :=
  Context.mk "Gustrb" "todo-creeper" "0123456789abcdef" "refs/pull/12/merge"
    "pull_request"
    (Payload.mk (Some (PullRequest.mk (Some 12) (Some (User.mk (Some "dev")))))
       (Some 12) None (Some (User.mk (Some "dev")))).

Definition finding : todo := mkTodo "src/a.js" 3 "// TODO: fix" "TODO".

(** A finding with a marker and no colon after it. *)
Definition unprefixed : todo :=
  mkTodo "src/parser.js" 7 "// TODO refactor the parser module before release" "TODO".

End Sample.

(** ** Vocabulary of the statements *)

(** Every character of [s] satisfies [P]. *)
Fixpoint allChars (P : ascii -> bool) (s : string) : bool :=
  match s with
  | EmptyString => true
  | String c r => P c && allChars P r
  end.


(** The walk of [contents] under [currentPath] enters listings nested at
    most [d] deep: every directory it would enter is a listing of depth
    below [d], a failure, or excluded. *)
Fixpoint depthWithin (o : octokit) (excludePatterns : list string) (d : nat)
    (currentPath : string) (contents : list Item.t) : bool :=
  forallb
    (fun item =>
       let itemPath := joinPath currentPath (Item.name item) in
       if excluded excludePatterns itemPath then true
       else if String.eqb (Item.type item) "dir" then
         match getContent o itemPath with
         | Listing dirContents =>
             match d with
             | O => false
             | S d' => depthWithin o excludePatterns d' itemPath dirContents
             end
         | _ => true
         end
       else true)
    contents.

(** The [path] of a listed entry is its name joined to the path of the
    listing, as the repository API gives it. *)
Definition pathAgrees (currentPath : string) (item : Item.t) : Prop :=
  Item.path item = joinPath currentPath (Item.name item).

Definition pathsAgree (o : octokit) : Prop :=
  forall p l item, getContent o p = Listing l -> In item l -> pathAgrees p item.

(** The answer of a walk from the trace [tr], from its answer on the empty
    trace. *)
Definition framed (r : scanResult) (todos : list todo) (tr : trace) : scanResult :=
  match r with
  | Some (ts, new) => Some (todos ++ ts, new ++ tr)
  | None => None
  end.

(** The answer [r] of a walk started with the findings [todos] on the
    trace [tr] adds findings that satisfy [PT] and events that satisfy
    [PE]. *)
Definition preserved (PT : todo -> Prop) (PE : event -> Prop)
    (todos : list todo) (tr : trace) (r : list todo * trace) : Prop :=
  exists ts new,
    fst r = todos ++ ts /\ Forall PT ts /\ snd r = new ++ tr /\ Forall PE new.

Definition isFailure (e : event) : bool :=
  match e with
  | SetFailed _ => true
  | _ => false
  end.

(** The failures a computation adds to the trace, whatever the trace. *)
Definition addsFailures {A : Type} (c : St A) (F : list event) : Prop :=
  forall tr, filter isFailure (snd (c tr)) = F ++ filter isFailure tr.

(** The events of a walk: fetches and warnings. *)
Definition isWalkEvent (e : event) : Prop :=
  match e with
  | GetContent _ | Warning _ => True
  | _ => False
  end.

(** The diagnostic of a run that may not create issues. *)
Definition noPrContextWarning : string :=
  "⚠️ Issue creation is enabled but no PR context detected. This usually means the action is running on a push event or manual trigger.".

(** The trace on which [run] starts the walk of the root listing. *)
Definition traceAtScan : trace := [GetContent ""; Info "🔍 Starting TODO scan..."].

(** The first message of [processTodosForIssues] for a finding, and its
    message for a finding that has an issue. *)
Definition processingMessage (t : todo) : string :=
  "🔍 Processing TODO: " +++ todoPlace t +++ " - " +++ Js.trim (content t).

Definition linkedMessage (t : todo) (issue : Issue.t) : string :=
  "🔗 TODO in " +++ todoPlace t +++ " already has issue #"
  +++ Js.natToString (Issue.number issue).

(** The acceptance test of the content search in the words of the
    specification: the body contains the file path or the raw text, or the
    title contains one of the three words; a body that is absent contains
    nothing. *)
Definition acceptsAsSpecified (t : todo) (issue : Issue.t) : bool :=
  let body := match Issue.body issue with Some b => b | None => "" end in
  Js.includes body (file t)
  || Js.includes body (Js.trim (content t))
  || Js.includes (Js.toLowerCase (Issue.title issue)) "todo"
  || Js.includes (Js.toLowerCase (Issue.title issue)) "fixme"
  || Js.includes (Js.toLowerCase (Issue.title issue)) "hack".

(** The cleaned text with its marker prefix, the text the specification
    truncates: the cleaned text when it begins with a marker and a colon,
    and the cleaned text after [TODO: ] otherwise. *)
Definition prefixedText (cleanContent : string) : string :=
  if todoPrefixes cleanContent then cleanContent else "TODO: " +++ cleanContent.

(** The title in the words of the specification: the prefixed text, cut to
    its first 50 characters and followed by an ellipsis when it is longer. *)
Definition titleAsSpecified (cleanContent : string) : string :=
  let p := prefixedText cleanContent in
  if String.length p <=? 50 then p else Js.substring0 50 p +++ "...".

(** A finding or a fetch is allowed by the exclusion patterns. *)
Definition allowedTodo (excludePatterns : list string) (t : todo) : Prop :=
  excluded excludePatterns (file t) = false.

Definition allowedEvent (excludePatterns : list string) (e : event) : Prop :=
  match e with
  | GetContent q => excluded excludePatterns q = false
  | Warning _ => True
  | _ => False
  end.

(** The atoms of a run of literal characters. *)
Fixpoint litsOf (s : string) : list Regex.atom :=
  match s with
  | EmptyString => []
  | String c r => Regex.Lit c :: litsOf r
  end.

(** Two strings are the same up to the case of their letters. *)
Definition sameIgnoringCase (a b : string) : Prop :=
  Js.toLowerCase a = Js.toLowerCase b.

(** The events a walk adds, the latest first: fetches, each warning coming
    right after a fetch. *)
Inductive walkTrace : trace -> Prop :=
| walkTrace_nil : walkTrace []
| walkTrace_fetch (p : string) (tr : trace) :
    walkTrace tr -> walkTrace (GetContent p :: tr)
| walkTrace_warning (m p : string) (tr : trace) :
    walkTrace tr -> walkTrace (Warning m :: GetContent p :: tr).

Definition isWarning (e : event) : bool :=
  match e with
  | Warning _ => true
  | _ => false
  end.

Definition isOutput (e : event) : bool :=
  match e with
  | SetOutput _ _ => true
  | _ => false
  end.


(** White space of [s] is single spaces only: no tab or line break, no two
    spaces in a row; [prevSpace] tells that a space comes right before. *)
Fixpoint singleSpaced (prevSpace : bool) (s : string) : bool :=
  match s with
  | EmptyString => true
  | String c r =>
      if Js.isWhiteSpace c then
        Ascii.eqb c " " && negb prevSpace && singleSpaced true r
      else singleSpaced false r
  end.

Definition isSearchCall (e : event) : bool :=
  match e with
  | SearchIssues _ => true
  | _ => false
  end.

Definition isCreateCall (e : event) : bool :=
  match e with
  | CreateIssue _ => true
  | _ => false
  end.

(** The [issueData] that [createIssueForTodo] submits for a finding. *)
Definition issueDataOf (context : Context.t) (labels : list string) (t : todo)
  : IssueData.t :=
  IssueData.mk (Context.owner context) (Context.repo context)
    (titleOf (cleanContentOf t)) (issueBodyOf context t) labels
    (if 0 <? List.length (assigneesOf context) then Some (assigneesOf context)
     else None).

(** The events of the reconciler for the findings [todos]: messages,
    searches, and creations of the issue of one of the findings. *)
Definition isReconcilerEvent (context : Context.t) (labels : list string)
    (todos : list todo) (e : event) : Prop :=
  match e with
  | Info _ | Warning _ | SearchIssues _ => True
  | CreateIssue d => exists t, In t todos /\ d = issueDataOf context labels t
  | _ => False
  end.

(** A context of an event on an issue: the payload has the issue and its
    number, and no pull request. *)
Definition issueEventContext : Context.t :=
  Context.mk "Gustrb" "todo-creeper" "0123456789abcdef" "refs/heads/main" "issues"
    (Payload.mk None None (Some (IssueRef.mk (Some 5))) (Some (User.mk (Some "dev")))).

(** An issue whose title names a marker and whose body does not mention
    the finding of the sample repository. *)
Definition housekeeping : Issue.t :=
  Issue.mk 3 "Clean up the TODO list" (Some "Housekeeping for the backlog.").

(** The body of the issue contains the trimmed raw text of the finding:
    the issues of which the specification has the first one accepted. *)
Definition quotesRawText (t : todo) (issue : Issue.t) : bool :=
  match Issue.body issue with
  | Some body => Js.includes body (Js.trim (content t))
  | None => false
  end.

(** The service answers a fetch by its path alone: the same request gets
    the same answer whenever it is made. *)
Definition answersByPath (fetch : trace -> string -> contentResponse) : Prop :=
  forall tr tr' path, fetch tr path = fetch tr' path.

(** The client whose fetches are those of the service at the start. *)
Definition snapshotOf (fetch : trace -> string -> contentResponse) : octokit :=
  mkOctokit (fetch []) (fun _ _ => SearchOk []) (fun _ _ => CreateError "").

Definition isFetchOf (path : string) (e : event) : bool :=
  match e with
  | GetContent p => String.eqb p path
  | _ => false
  end.

(** The sample repository behind a service that rejects the first request
    for [src] and answers every later one. *)
Definition rejectsFirst (tr : trace) (path : string) : contentResponse :=
  if String.eqb path "src" && negb (existsb (isFetchOf "src") tr)
  then ContentError "API rate limit exceeded"
  else Sample.tree path.

(** The trace a walk leaves, and the empty trace when the fuel is used
    up. *)
Definition traceOf (r : scanResult) : trace :=
  match r with
  | Some (_, tr) => tr
  | None => []
  end.

Definition isAscii (c : ascii) : bool := nat_of_ascii c <? 128.

(** The source text of an opener inside a pattern: [/] and [*] are
    escaped. *)
Fixpoint escapeSource (s : string) : string :=
  match s with
  | EmptyString => EmptyString
  | String c r =>
      if Ascii.eqb c "/" || Ascii.eqb c "*"
      then String "\" (String c (escapeSource r))
      else String c (escapeSource r)
  end.

(** The pattern of an opener and a keyword. *)
Definition markerPattern (opener keyword : string) : Regex.regexp :=
  Regex.mkRegexp (escapeSource opener +++ "\s*" +++ keyword).

(** The three numbers of the payload that [run] takes for the number of
    a pull request. *)
Definition payloadNumbers (context : Context.t) : list (option nat) :=
  let p := Context.payload context in
  [ match Payload.pull_request p with
    | Some pr => PullRequest.number pr
    | None => None
    end;
    Payload.number p;
    match Payload.issue p with
    | Some i => IssueRef.number i
    | None => None
    end ].

(** Nothing that [run] takes for the identity of a pull request: none of
    the three numbers is a number other than 0, and the event is not
    [pull_request]. *)
Definition noPrIdentity (context : Context.t) : Prop :=
  Forall (fun n => truthyNumber n = false) (payloadNumbers context)
  /\ Context.eventName context <> "pull_request".

(** * Properties *)

Example posix_extname_samples :
  map Posix.extname
    [ "index.html"; "index.coffee.md"; "index."; "index"; ".index"; ".index.md";
      ".."; "a/b.d/c"; "dir.x/" ]
  = [ ".html"; ".md"; "."; ""; ""; ".md"; ""; ""; ".x" ].
Proof. reflexivity. Qed.

Example scanLine_samples :
  scanLine "src/a.js" 2 "  // TODO: fix  " = [mkTodo "src/a.js" 3 "// TODO: fix" "TODO"]
  /\ scanLine "a.py" 0 "x = 1 #   hack around // fixme"
     = [mkTodo "a.py" 1 "x = 1 #   hack around // fixme" "FIXME"]
  /\ scanLine "a.py" 0 "todo later" = [].
Proof. repeat split; reflexivity. Qed.

Example scan_sample :
  option_map fst
    (scanForTodos (Sample.platform "10" "false") (Sample.tracker []) 3
       Sample.rootListing ["node_modules"; "dist"; "build"; ".git"] "" [])
  = Some [Sample.finding].
Proof. vm_compute. reflexivity. Qed.

Example run_sample :
  option_map (fun tr => (outputOf "todo-count" tr, outputOf "todo-files" tr, failed tr))
    (run (Sample.platform "10" "false") (Sample.tracker []) Sample.pushContext 3 [])
  = Some (Some "1", Some "1", false).
Proof. vm_compute. reflexivity. Qed.

(** ** Strings *)

Lemma isEmpty_true (s : string) : Js.isEmpty s = true <-> s = "".
Proof. destruct s; simpl; split; congruence. Qed.

Lemma length_pos_nonempty (s : string) : (0 <? String.length s) = true <-> s <> "".
Proof.
  destruct s; simpl; split; intro H; try congruence; try reflexivity.
  now elim H.
Qed.

Lemma startsWith_empty (s : string) : Js.startsWith s "" = true.
Proof. destruct s; reflexivity. Qed.

(** The empty string occurs in every string: an empty exclusion pattern
    would exclude every path. *)
Lemma includes_empty (s : string) : Js.includes s "" = true.
Proof. destruct s; simpl; rewrite ?startsWith_empty; reflexivity. Qed.

Lemma trimStart_all_ws (s : string) :
  allChars Js.isWhiteSpace s = true -> Js.trimStart s = "".
Proof.
  induction s as [|c r IH]; simpl; [reflexivity|].
  intro H. apply andb_prop in H as [Hc Hr]. rewrite Hc. auto.
Qed.

Lemma trim_all_ws (s : string) :
  allChars Js.isWhiteSpace s = true -> Js.trim s = "".
Proof. intro H. unfold Js.trim. rewrite trimStart_all_ws by assumption. reflexivity. Qed.

Lemma split_nonempty (sep : ascii) (s : string) : Js.split sep s <> [].
Proof.
  induction s as [|c r IH]; simpl; [discriminate|].
  destruct (Ascii.eqb c sep); [discriminate|].
  destruct (Js.split sep r); discriminate.
Qed.

Lemma split_separators_and_ws (sep : ascii) (s : string) :
  allChars (fun c => Ascii.eqb c sep || Js.isWhiteSpace c) s = true ->
  Forall (fun entry => allChars Js.isWhiteSpace entry = true) (Js.split sep s).
Proof.
  induction s as [|c r IH]; simpl; intro H.
  - constructor; [reflexivity | constructor].
  - apply andb_prop in H as [Hc Hr]. specialize (IH Hr).
    destruct (Ascii.eqb c sep) eqn:E.
    + constructor; [reflexivity | assumption].
    + simpl in Hc. destruct (Js.split sep r) as [|h t] eqn:Es.
      * now elim (split_nonempty sep r).
      * inversion IH; subst. constructor; [|assumption].
        simpl. rewrite Hc. assumption.
Qed.

(** ** The pattern matcher *)

Lemma scanLinePatterns_find (patterns : list Regex.regexp)
    (filePath : string) (lineNumber : nat) (ln : string) :
  scanLinePatterns patterns filePath lineNumber ln =
  match find (fun p => Regex.test p ln) patterns with
  | Some p => [ mkTodo filePath lineNumber (Js.trim ln) (patternType p) ]
  | None => []
  end.
Proof.
  induction patterns as [|p ps IH]; simpl; [reflexivity|].
  destruct (Regex.test p ln); [reflexivity | exact IH].
Qed.

Lemma find_existsb {A : Type} (f : A -> bool) (l : list A) :
  existsb f l = true -> exists a, find f l = Some a.
Proof.
  induction l as [|x xs IH]; simpl; [discriminate|].
  destruct (f x); [eauto | exact IH].
Qed.

Lemma find_none_existsb {A : Type} (f : A -> bool) (l : list A) :
  existsb f l = false -> find f l = None.
Proof.
  induction l as [|x xs IH]; simpl; [reflexivity|].
  destruct (f x); [discriminate | exact IH].
Qed.





(** What the matcher decides: a pattern made of an opener, [\s*] and a
    keyword is found in a line exactly when the line holds the opener, a
    run of white space and the keyword one after the other, the letters in
    either case. *)
Lemma matchHere_lits (lits : string) (rest : list Regex.atom) :
  forall s,
    Regex.matchHere (litsOf lits ++ rest) s = true <->
    exists m s',
      s = m +++ s' /\ sameIgnoringCase m lits /\ Regex.matchHere rest s' = true.
Proof.
  unfold sameIgnoringCase.
  induction lits as [|c l IH]; intro s; cbn [litsOf app].
  - split.
    + intro H. exists "", s. auto.
    + intros (m & s' & -> & Hm & H). destruct m; [exact H | discriminate].
  - cbn [Regex.matchHere]. destruct s as [|d s].
    + split; [discriminate|].
      intros (m & s' & E & Hm & _). destruct m; simpl in *; discriminate.
    + rewrite andb_true_iff, IH. unfold Regex.eqbIgnoreCase. rewrite Ascii.eqb_eq.
      split.
      * intros (Hc & m & s' & -> & Hm & H). exists (String d m), s'.
        simpl. rewrite Hm, Hc. auto.
      * intros (m & s' & E & Hm & H). destruct m as [|d' m]; [discriminate|].
        simpl in E, Hm. inversion E; subst. inversion Hm.
        split; [congruence|]. exists m, s'. auto.
Qed.

Lemma matchHere_wsStar (rest : list Regex.atom) :
  forall s,
    Regex.matchHere (Regex.WsStar :: rest) s = true <->
    exists w s',
      s = w +++ s' /\ allChars Js.isWhiteSpace w = true
      /\ Regex.matchHere rest s' = true.
Proof.
  induction s as [|d s IH].
  - cbn [Regex.matchHere]. rewrite orb_false_r. split.
    + intro H. exists "", "". auto.
    + intros (w & s' & E & _ & H). destruct w; [|discriminate].
      simpl in E. subst s'. exact H.
  - change (Regex.matchHere (Regex.WsStar :: rest) (String d s))
      with (Regex.matchHere rest (String d s)
            || (Js.isWhiteSpace d && Regex.matchHere (Regex.WsStar :: rest) s)).
    rewrite orb_true_iff, andb_true_iff, IH. split.
    + intros [H | (Hd & w & s' & -> & Hw & H)].
      * exists "", (String d s). auto.
      * exists (String d w), s'. simpl. rewrite Hd, Hw. auto.
    + intros (w & s' & E & Hw & H). destruct w as [|d' w].
      * simpl in E. subst s'. left. exact H.
      * simpl in E, Hw. inversion E; subst.
        apply andb_prop in Hw as [Hd Hw]. right. split; [exact Hd|].
        exists w, s'. auto.
Qed.

Lemma search_somewhere (p : list Regex.atom) :
  forall s,
    Regex.search p s = true <->
    exists before s', s = before +++ s' /\ Regex.matchHere p s' = true.
Proof.
  induction s as [|d s IH].
  - cbn [Regex.search]. rewrite orb_false_r. split.
    + intro H. exists "", "". auto.
    + intros (b & s' & E & H). destruct b; [|discriminate].
      simpl in E. subst s'. exact H.
  - cbn [Regex.search]. rewrite orb_true_iff, IH. split.
    + intros [H | (b & s' & -> & H)].
      * exists "", (String d s). auto.
      * exists (String d b), s'. auto.
    + intros (b & s' & E & H). destruct b as [|d' b].
      * simpl in E. subst s'. left. exact H.
      * simpl in E. inversion E; subst. right. exists b, s'. auto.
Qed.

Lemma marker_pattern_search (opener keyword ln : string) :
  Regex.search (litsOf opener ++ Regex.WsStar :: litsOf keyword) ln = true <->
  exists before o' w k' after,
    ln = before +++ o' +++ w +++ k' +++ after
    /\ sameIgnoringCase o' opener
    /\ allChars Js.isWhiteSpace w = true
    /\ sameIgnoringCase k' keyword.
Proof.
  rewrite search_somewhere. split.
  - intros (before & s1 & -> & H).
    apply matchHere_lits in H as (o' & s2 & -> & Ho & H).
    apply matchHere_wsStar in H as (w & s3 & -> & Hw & H).
    rewrite <- (app_nil_r (litsOf keyword)) in H.
    apply matchHere_lits in H as (k' & after & -> & Hk & _).
    exists before, o', w, k', after. auto.
  - intros (before & o' & w & k' & after & -> & Ho & Hw & Hk).
    exists before, (o' +++ w +++ k' +++ after). split; [reflexivity|].
    apply matchHere_lits. exists o', (w +++ k' +++ after).
    split; [reflexivity|]. split; [exact Ho|].
    apply matchHere_wsStar. exists w, (k' +++ after).
    split; [reflexivity|]. split; [exact Hw|].
    rewrite <- (app_nil_r (litsOf keyword)).
    apply matchHere_lits. exists k', after. auto.
Qed.

(** The twelve patterns are the four openers before [\s*] and each of the
    three keywords. *)
Lemma todoPatterns_shape :
  map (fun p => Regex.parseSource (Regex.source p)) todoPatterns =
  flat_map
    (fun keyword =>
       map (fun opener => litsOf opener ++ Regex.WsStar :: litsOf keyword)
         ["//"; "/*"; "#"; "<!--"])
    ["TODO"; "FIXME"; "HACK"].
Proof. reflexivity. Qed.

(** ** Exclusion patterns *)

Lemma excludePatterns_spec (rt : runtime) (pattern : string) :
  In pattern (excludePatternsOf rt) <->
  pattern <> ""
  /\ exists entry,
       In entry (Js.split "," (getInput rt "exclude-patterns"))
       /\ pattern = Js.trim entry.
Proof.
  unfold excludePatternsOf. rewrite filter_In, in_map_iff, length_pos_nonempty.
  split.
  - intros [(e & He & Hin) Hne]. split; [assumption|]. exists e. auto.
  - intros [Hne (e & Hin & He)]. split; [|assumption]. exists e. auto.
Qed.

(** C10.  The exclusion patterns are the trimmed, non-empty entries of the
    comma-separated input: the empty string is never a pattern, a path is
    excluded only through a non-empty pattern it contains, and an input of
    commas and white space alone gives no pattern and excludes no path. *)
Theorem exclude_patterns_never_empty (rt : runtime) :
  (forall pattern,
     In pattern (excludePatternsOf rt) <->
     pattern <> ""
     /\ exists entry,
          In entry (Js.split "," (getInput rt "exclude-patterns"))
          /\ pattern = Js.trim entry)
  /\ ~ In "" (excludePatternsOf rt)
  /\ (forall path,
        excluded (excludePatternsOf rt) path = true ->
        exists pattern,
          In pattern (excludePatternsOf rt) /\ pattern <> ""
          /\ Js.includes path pattern = true)
  /\ (allChars (fun c => Ascii.eqb c "," || Js.isWhiteSpace c)
        (getInput rt "exclude-patterns") = true ->
      excludePatternsOf rt = []
      /\ forall path, excluded (excludePatternsOf rt) path = false).
Proof.
  split; [exact (excludePatterns_spec rt)|]. split.
  { intro H. apply excludePatterns_spec in H as [H _]. now elim H. }
  split.
  { intros path H. unfold excluded in H. apply existsb_exists in H as (p & Hin & Hp).
    exists p. split; [assumption|]. split; [|assumption].
    apply excludePatterns_spec in Hin as [Hne _]. exact Hne. }
  intro H.
  assert (E : excludePatternsOf rt = []).
  { unfold excludePatternsOf.
    apply split_separators_and_ws in H.
    induction H as [|e es He _ IH]; simpl; [reflexivity|].
    rewrite (trim_all_ws e He). simpl. exact IH. }
  split; [exact E|]. intro path. rewrite E. reflexivity.
Qed.

(** The statement at the input [" , ,, "] and at ["dist,,build,"]. *)
Lemma exclude_patterns_never_empty_witness :
  excludePatternsOf (mkRuntime Posix.extname (fun s => s) (fun _ => "") (fun _ => " , ,, ")) = []
  /\ excludePatternsOf (mkRuntime Posix.extname (fun s => s) (fun _ => "") (fun _ => "dist,,build,"))
     = ["dist"; "build"].
Proof.
  split; [|reflexivity].
  exact (proj1 (proj2 (proj2 (proj2
    (exclude_patterns_never_empty
       (mkRuntime Posix.extname (fun s => s) (fun _ => "") (fun _ => " , ,, ")))))
    eq_refl)).
Defined.

(** ** The file scanner *)

Section ScanProperties.

Variable rt : runtime.
Variable o : octokit.

(** The events of a scan do not depend on what came before: the client
    answers a fetch by the path alone. *)
Lemma scanFileForTodos_frame (f : Item.t) (tr : trace) :
  scanFileForTodos rt o f tr =
  (fst (scanFileForTodos rt o f []), snd (scanFileForTodos rt o f []) ++ tr).
Proof.
  unfold scanFileForTodos.
  destruct (negb (arrayIncludes codeExtensions _)); [reflexivity|].
  unfold bind, callGetContent, warning, emit, ret.
  destruct (getContent o (Item.path f)) as [l|fc|m]; try reflexivity.
  destruct (String.eqb (FileContent.type fc) "file" && _); reflexivity.
Qed.

(** What a file scan adds to the trace: nothing, one fetch of the file's
    path, or that fetch and a warning. *)
Lemma scanFileForTodos_events (f : Item.t) :
  let new := snd (scanFileForTodos rt o f []) in
  new = []
  \/ new = [GetContent (Item.path f)]
  \/ exists m, new = [Warning m; GetContent (Item.path f)].
Proof.
  unfold scanFileForTodos.
  destruct (negb (arrayIncludes codeExtensions _)); [left; reflexivity|].
  unfold bind, callGetContent, warning, emit, ret. right.
  destruct (getContent o (Item.path f)) as [l|fc|m]; simpl.
  - left; reflexivity.
  - destruct (String.eqb (FileContent.type fc) "file" && _); left; reflexivity.
  - right. eexists. reflexivity.
Qed.

Lemma scanLines_file (filePath : string) (lines : list string) (index : nat) (t : todo) :
  In t (scanLines filePath index lines) -> file t = filePath.
Proof.
  revert index. induction lines as [|ln rest IH]; simpl; intros index H; [contradiction|].
  apply in_app_or in H as [H|H]; [|eauto].
  unfold scanLine in H. rewrite scanLinePatterns_find in H.
  destruct (find _ todoPatterns); simpl in H; [|contradiction].
  destruct H as [<-|[]]. reflexivity.
Qed.

Lemma scanFileForTodos_file (f : Item.t) (tr : trace) (t : todo) :
  In t (fst (scanFileForTodos rt o f tr)) -> file t = Item.path f.
Proof.
  unfold scanFileForTodos.
  destruct (negb (arrayIncludes codeExtensions _)); [simpl; contradiction|].
  unfold bind, callGetContent, warning, emit, ret.
  destruct (getContent o (Item.path f)) as [l|fc|m]; simpl; try contradiction.
  destruct (String.eqb (FileContent.type fc) "file" && _); simpl; [|contradiction].
  apply scanLines_file.
Qed.

(** C7.  A file whose lower-cased extension is not in the list of code
    extensions is not fetched: the scan of the file returns no finding and
    leaves the trace as it was, whatever the repository holds at its
    path. *)
Theorem scanFileForTodos_extension_gate (f : Item.t) (tr : trace) :
  arrayIncludes codeExtensions (Js.toLowerCase (extname rt (Item.name f))) = false ->
  scanFileForTodos rt o f tr = ([], tr).
Proof.
  intro H. unfold scanFileForTodos. rewrite H. reflexivity.
Qed.

End ScanProperties.

(** The statement at [logo.png] of the sample repository, whose content
    would match a pattern if it were read. *)
Lemma scanFileForTodos_extension_gate_witness :
  scanFileForTodos (Sample.platform "10" "false") (Sample.tracker [])
    (Item.mk "logo.png" "logo.png" "file") [Info "before"]
  = ([], [Info "before"])
  /\ scanLine "logo.png" 0 "// TODO: not text" <> [].
Proof.
  split; [|discriminate].
  apply (scanFileForTodos_extension_gate (Sample.platform "10" "false")
           (Sample.tracker []) (Item.mk "logo.png" "logo.png" "file")).
  reflexivity.
Defined.

(** ** The tree walker *)

Section WalkProperties.

Variable rt : runtime.
Variable o : octokit.
Variable excludePatterns : list string.

Lemma scanItems_frame
    (recur : list Item.t -> string -> trace -> scanResult) (currentPath : string) :
  (forall c p tr, recur c p tr = framed (recur c p []) [] tr) ->
  forall contents todos tr,
    scanItems rt o recur excludePatterns currentPath contents todos tr =
    framed (scanItems rt o recur excludePatterns currentPath contents [] []) todos tr.
Proof.
  intros Hrec. induction contents as [|item rest IH]; intros todos tr.
  - simpl. rewrite app_nil_r. reflexivity.
  - cbn [scanItems].
    destruct (excluded excludePatterns _); [apply IH|].
    destruct (String.eqb (Item.type item) "dir").
    + unfold callGetContent, warning, emit.
      destruct (getContent o _) as [l|fc|m].
      * rewrite (Hrec l _ (_ :: tr)), (Hrec l _ [_]).
        destruct (recur l _ []) as [[sub new]|]; simpl; [|reflexivity].
        rewrite (IH (todos ++ sub) (_ ++ _ :: tr)), (IH ([] ++ sub) (_ ++ [_])).
        destruct (scanItems _ _ _ _ _ rest [] []) as [[ts new']|]; simpl; [|reflexivity].
        rewrite <- !app_assoc. reflexivity.
      * rewrite (IH todos (_ :: _ :: tr)), (IH [] [_; _]).
        destruct (scanItems _ _ _ _ _ rest [] []) as [[ts new']|]; simpl; [|reflexivity].
        rewrite <- !app_assoc. reflexivity.
      * rewrite (IH todos (_ :: _ :: tr)), (IH [] [_; _]).
        destruct (scanItems _ _ _ _ _ rest [] []) as [[ts new']|]; simpl; [|reflexivity].
        rewrite <- !app_assoc. reflexivity.
    + destruct (String.eqb (Item.type item) "file"); [|apply IH].
      rewrite (scanFileForTodos_frame rt o item tr).
      destruct (scanFileForTodos rt o item []) as [ft new0]. simpl.
      rewrite (IH (todos ++ ft) (_ ++ tr)), (IH ft new0).
      destruct (scanItems _ _ _ _ _ rest [] []) as [[ts new']|]; simpl; [|reflexivity].
      rewrite <- !app_assoc. reflexivity.
Qed.

Lemma scanForTodos_frame (fuel : nat) :
  forall contents currentPath tr,
    scanForTodos rt o fuel contents excludePatterns currentPath tr =
    framed (scanForTodos rt o fuel contents excludePatterns currentPath []) [] tr.
Proof.
  induction fuel as [|fuel IH]; intros contents currentPath tr; [reflexivity|].
  cbn [scanForTodos].
  apply (scanItems_frame
           (fun c p => scanForTodos rt o fuel c excludePatterns p) currentPath).
  intros c p tr0. apply IH.
Qed.

(** More fuel does not change an answer. *)
Lemma scanItems_mono
    (recur1 recur2 : list Item.t -> string -> trace -> scanResult)
    (currentPath : string) :
  (forall c p tr r, recur1 c p tr = Some r -> recur2 c p tr = Some r) ->
  forall contents todos tr r,
    scanItems rt o recur1 excludePatterns currentPath contents todos tr = Some r ->
    scanItems rt o recur2 excludePatterns currentPath contents todos tr = Some r.
Proof.
  intros Hrec. induction contents as [|item rest IH]; intros todos tr r; [trivial|].
  cbn [scanItems].
  destruct (excluded excludePatterns _); [apply IH|].
  destruct (String.eqb (Item.type item) "dir").
  - unfold callGetContent, warning, emit.
    destruct (getContent o _) as [l|fc|m]; try apply IH.
    destruct (recur1 l _ _) as [[sub tr2]|] eqn:E; [|discriminate].
    rewrite (Hrec _ _ _ _ E). apply IH.
  - destruct (String.eqb (Item.type item) "file"); [|apply IH].
    destruct (scanFileForTodos rt o item tr). apply IH.
Qed.

Lemma scanForTodos_more_fuel (fuel : nat) :
  forall contents currentPath tr r,
    scanForTodos rt o fuel contents excludePatterns currentPath tr = Some r ->
    scanForTodos rt o (S fuel) contents excludePatterns currentPath tr = Some r.
Proof.
  induction fuel as [|fuel IH]; intros contents currentPath tr r; [discriminate|].
  intro H. cbn [scanForTodos] in *.
  revert H. apply scanItems_mono. intros c p tr0 r0. apply IH.
Qed.

Lemma scanForTodos_fuel_le (fuel fuel' : nat) contents currentPath tr r :
  fuel <= fuel' ->
  scanForTodos rt o fuel contents excludePatterns currentPath tr = Some r ->
  scanForTodos rt o fuel' contents excludePatterns currentPath tr = Some r.
Proof.
  induction 1 as [|fuel' _ IH]; [trivial|].
  intro H. apply scanForTodos_more_fuel. auto.
Qed.

(** A walk of bounded depth returns. *)
Lemma scanItems_total
    (recur : list Item.t -> string -> trace -> scanResult) (currentPath : string) :
  forall contents,
    (forall item l,
        In item contents ->
        excluded excludePatterns (joinPath currentPath (Item.name item)) = false ->
        String.eqb (Item.type item) "dir" = true ->
        getContent o (joinPath currentPath (Item.name item)) = Listing l ->
        forall tr, recur l (joinPath currentPath (Item.name item)) tr <> None) ->
    forall todos tr,
      scanItems rt o recur excludePatterns currentPath contents todos tr <> None.
Proof.
  induction contents as [|item rest IH]; intros Hrec todos tr; [discriminate|].
  assert (IH' := IH (fun i l Hi => Hrec i l (or_intror Hi))).
  cbn [scanItems].
  destruct (excluded excludePatterns _) eqn:Ex; [apply IH'|].
  destruct (String.eqb (Item.type item) "dir") eqn:Ed.
  - unfold callGetContent, warning, emit.
    destruct (getContent o _) as [l|fc|m] eqn:Eg; try apply IH'.
    destruct (recur l _ _) as [[sub tr2]|] eqn:E; [apply IH'|].
    exfalso. exact (Hrec item l (or_introl eq_refl) Ex Ed Eg _ E).
  - destruct (String.eqb (Item.type item) "file"); [|apply IH'].
    destruct (scanFileForTodos rt o item tr). apply IH'.
Qed.

Lemma scanForTodos_total (d : nat) :
  forall contents currentPath tr,
    depthWithin o excludePatterns d currentPath contents = true ->
    scanForTodos rt o (S d) contents excludePatterns currentPath tr <> None.
Proof.
  induction d as [|d IH]; intros contents currentPath tr H;
    cbn [scanForTodos]; apply scanItems_total;
    intros item l Hin Ex Ed Eg tr0;
    cbn [depthWithin] in H; rewrite forallb_forall in H;
    specialize (H item Hin); cbv zeta in H; rewrite Ex, Ed, Eg in H.
  - discriminate.
  - fold depthWithin in H. apply IH. exact H.
Qed.

End WalkProperties.

(** ** Order and determinism of the scan *)

Lemma scanLines_line_above (filePath : string) (lines : list string) :
  forall index t, In t (scanLines filePath index lines) -> index < line t.
Proof.
  induction lines as [|ln rest IH]; simpl; intros index t H; [contradiction|].
  apply in_app_or in H as [H|H].
  - unfold scanLine in H. rewrite scanLinePatterns_find in H.
    destruct (find _ todoPatterns); simpl in H; [|contradiction].
    destruct H as [<-|[]]. simpl. lia.
  - apply IH in H. lia.
Qed.

(** Within a file the findings come in the order of the lines. *)
Lemma scanLines_increasing (filePath : string) (lines : list string) :
  forall index, StronglySorted lt (map line (scanLines filePath index lines)).
Proof.
  induction lines as [|ln rest IH]; simpl; intro index; [constructor|].
  unfold scanLine. rewrite scanLinePatterns_find.
  destruct (find _ todoPatterns); simpl; [|apply IH].
  constructor; [apply IH|].
  rewrite Forall_forall. intros n Hn. apply in_map_iff in Hn as (t & <- & Ht).
  apply scanLines_line_above in Ht. lia.
Qed.

Lemma scanFileForTodos_increasing (rt : runtime) (o : octokit) (f : Item.t) (tr : trace) :
  StronglySorted lt (map line (fst (scanFileForTodos rt o f tr))).
Proof.
  unfold scanFileForTodos.
  destruct (negb (arrayIncludes codeExtensions _)); [constructor|].
  unfold bind, callGetContent, warning, emit, ret.
  destruct (getContent o (Item.path f)) as [l|fc|m]; simpl; try constructor.
  destruct (String.eqb (FileContent.type fc) "file" && _); simpl; [|constructor].
  apply scanLines_increasing.
Qed.

Section Determinism.

Variable rt : runtime.
Variable o : octokit.
Variable excludePatterns : list string.

Lemma scanItems_app
    (recur : list Item.t -> string -> trace -> scanResult) (currentPath : string)
    (l1 l2 : list Item.t) :
  forall todos tr,
    scanItems rt o recur excludePatterns currentPath (l1 ++ l2) todos tr =
    match scanItems rt o recur excludePatterns currentPath l1 todos tr with
    | Some (t1, tr1) => scanItems rt o recur excludePatterns currentPath l2 t1 tr1
    | None => None
    end.
Proof.
  induction l1 as [|item rest IH]; intros todos tr; [reflexivity|].
  cbn [app scanItems].
  destruct (excluded excludePatterns _); [apply IH|].
  destruct (String.eqb (Item.type item) "dir").
  - unfold callGetContent, warning, emit.
    destruct (getContent o _) as [l|fc|m]; try apply IH.
    destruct (recur l _ _) as [[sub tr2]|]; [apply IH | reflexivity].
  - destruct (String.eqb (Item.type item) "file"); [|apply IH].
    destruct (scanFileForTodos rt o item tr). apply IH.
Qed.

(** The findings of a listing are those of its entries, in the order of
    the listing. *)
Lemma scanForTodos_app (fuel : nat) (l1 l2 : list Item.t) (currentPath : string)
    (tr : trace) :
  scanForTodos rt o fuel (l1 ++ l2) excludePatterns currentPath tr =
  match scanForTodos rt o fuel l1 excludePatterns currentPath tr with
  | Some (t1, tr1) =>
      match scanForTodos rt o fuel l2 excludePatterns currentPath tr1 with
      | Some (t2, tr2) => Some (t1 ++ t2, tr2)
      | None => None
      end
  | None => None
  end.
Proof.
  destruct fuel as [|fuel]; [reflexivity|].
  cbn [scanForTodos]. rewrite scanItems_app.
  destruct (scanItems _ _ _ _ _ l1 [] tr) as [[t1 tr1]|]; [|reflexivity].
  assert (F : forall c p tr0,
             scanForTodos rt o fuel c excludePatterns p tr0 =
             framed (scanForTodos rt o fuel c excludePatterns p []) [] tr0)
    by (intros; apply scanForTodos_frame).
  rewrite (scanItems_frame rt o excludePatterns
             (fun c p => scanForTodos rt o fuel c excludePatterns p)
             currentPath F l2 t1 tr1).
  rewrite (scanItems_frame rt o excludePatterns
             (fun c p => scanForTodos rt o fuel c excludePatterns p)
             currentPath F l2 [] tr1).
  destruct (scanItems _ _ _ _ _ l2 [] []) as [[t2 new]|]; reflexivity.
Qed.

Lemma scanForTodos_from_empty (fuel : nat) contents currentPath tr todos tr' :
  scanForTodos rt o fuel contents excludePatterns currentPath tr = Some (todos, tr') ->
  exists new,
    scanForTodos rt o fuel contents excludePatterns currentPath [] = Some (todos, new)
    /\ tr' = new ++ tr.
Proof.
  rewrite scanForTodos_frame.
  destruct (scanForTodos rt o fuel contents excludePatterns currentPath [])
    as [[ts new]|]; simpl; [|discriminate].
  intro H. inversion H; subst. exists new. auto.
Qed.

(** For a client that answers by the path, the findings of a walk do not
    depend on the trace it starts on nor on the fuel, a walk of bounded
    depth returns, the findings of a listing are those of its entries in
    the order of the listing, and those of one file come in the order of
    its lines. *)
Lemma scanForTodos_function_of_tree (contents : list Item.t) (currentPath : string) :
  (forall fuel1 fuel2 tr1 tr2 todos1 todos2 tr1' tr2',
      scanForTodos rt o fuel1 contents excludePatterns currentPath tr1
        = Some (todos1, tr1') ->
      scanForTodos rt o fuel2 contents excludePatterns currentPath tr2
        = Some (todos2, tr2') ->
      todos1 = todos2)
  /\ (forall d,
        depthWithin o excludePatterns d currentPath contents = true ->
        exists todos,
          forall fuel tr,
            d < fuel ->
            exists tr',
              scanForTodos rt o fuel contents excludePatterns currentPath tr
              = Some (todos, tr'))
  /\ (forall fuel l1 l2 tr,
        contents = l1 ++ l2 ->
        scanForTodos rt o fuel contents excludePatterns currentPath tr =
        match scanForTodos rt o fuel l1 excludePatterns currentPath tr with
        | Some (t1, tr1) =>
            match scanForTodos rt o fuel l2 excludePatterns currentPath tr1 with
            | Some (t2, tr2) => Some (t1 ++ t2, tr2)
            | None => None
            end
        | None => None
        end)
  /\ (forall f tr,
        In f contents ->
        StronglySorted lt (map line (fst (scanFileForTodos rt o f tr)))).
Proof.
  assert (D : forall fuel1 fuel2 tr1 tr2 todos1 todos2 tr1' tr2',
             scanForTodos rt o fuel1 contents excludePatterns currentPath tr1
               = Some (todos1, tr1') ->
             scanForTodos rt o fuel2 contents excludePatterns currentPath tr2
               = Some (todos2, tr2') ->
             todos1 = todos2).
  { intros fuel1 fuel2 tr1 tr2 todos1 todos2 tr1' tr2' H1 H2.
    apply scanForTodos_from_empty in H1 as (n1 & H1 & _).
    apply scanForTodos_from_empty in H2 as (n2 & H2 & _).
    apply (scanForTodos_fuel_le rt o excludePatterns fuel1 (Nat.max fuel1 fuel2))
      in H1; [|lia].
    apply (scanForTodos_fuel_le rt o excludePatterns fuel2 (Nat.max fuel1 fuel2))
      in H2; [|lia].
    congruence. }
  split; [exact D|]. split.
  { intros d Hd.
    destruct (scanForTodos rt o (S d) contents excludePatterns currentPath [])
      as [[todos new]|] eqn:E.
    - exists todos. intros fuel tr Hf.
      apply (scanForTodos_fuel_le rt o excludePatterns (S d) fuel) in E; [|lia].
      rewrite scanForTodos_frame, E. simpl. eauto.
    - exfalso. exact (scanForTodos_total rt o excludePatterns d _ _ [] Hd E). }
  split.
  { intros fuel l1 l2 tr ->. apply scanForTodos_app. }
  intros f tr _. apply scanFileForTodos_increasing.
Qed.

End Determinism.

(** ** Two runs of the scan *)

Section Repeatable.

Variable rt : runtime.
Variable fetch : trace -> string -> contentResponse.
Hypothesis stable : answersByPath fetch.

Lemma transient_scanFileForTodos (f : Item.t) (tr : trace) :
  Transient.scanFileForTodos rt fetch f tr
  = scanFileForTodos rt (snapshotOf fetch) f tr.
Proof.
  unfold Transient.scanFileForTodos, scanFileForTodos.
  destruct (negb (arrayIncludes codeExtensions _)); [reflexivity|].
  unfold bind, Transient.callGetContent, callGetContent.
  cbn [getContent snapshotOf]. rewrite (stable tr [] (Item.path f)). reflexivity.
Qed.

Lemma transient_scanItems
    (recur1 recur2 : list Item.t -> string -> trace -> scanResult)
    (excludePatterns : list string) (currentPath : string) :
  (forall c p tr, recur1 c p tr = recur2 c p tr) ->
  forall contents todos tr,
    Transient.scanItems rt fetch recur1 excludePatterns currentPath contents todos tr
    = scanItems rt (snapshotOf fetch) recur2 excludePatterns currentPath contents
        todos tr.
Proof.
  intros Hrec. induction contents as [|item rest IH]; intros todos tr; [reflexivity|].
  cbn [Transient.scanItems scanItems].
  destruct (excluded excludePatterns _); [apply IH|].
  destruct (String.eqb (Item.type item) "dir").
  - unfold Transient.callGetContent, callGetContent, warning, emit.
    cbn [getContent snapshotOf].
    rewrite (stable tr [] (joinPath currentPath (Item.name item))).
    destruct (fetch [] _) as [l|fc|m]; try apply IH.
    rewrite Hrec. destruct (recur2 l _ _) as [[sub tr2]|]; [apply IH | reflexivity].
  - destruct (String.eqb (Item.type item) "file"); [|apply IH].
    rewrite transient_scanFileForTodos.
    destruct (scanFileForTodos rt (snapshotOf fetch) item tr). apply IH.
Qed.

(** Over a service that answers by the path alone, the walk is the walk of
    the sections above. *)
Lemma transient_scanForTodos (excludePatterns : list string) (fuel : nat) :
  forall contents currentPath tr,
    Transient.scanForTodos rt fetch fuel contents excludePatterns currentPath tr
    = scanForTodos rt (snapshotOf fetch) fuel contents excludePatterns currentPath tr.
Proof.
  induction fuel as [|fuel IH]; intros contents currentPath tr; [reflexivity|].
  cbn [Transient.scanForTodos scanForTodos].
  apply transient_scanItems. intros c p tr0. apply IH.
Qed.

End Repeatable.

(** Over the same tree, a request that is rejected in the first run and
    answered in the second changes the findings: the first walk of the
    sample repository is warned on [src] and finds nothing, the second,
    started where the first ended, finds the marker of [src/a.js]. *)
Lemma rejected_fetch_changes_findings_counterexample :
  option_map fst
    (Transient.scanForTodos (Sample.platform "10" "false") rejectsFirst 3
       Sample.rootListing ["node_modules"] "" [])
  = Some []
  /\ option_map fst
       (Transient.scanForTodos (Sample.platform "10" "false") rejectsFirst 3
          Sample.rootListing ["node_modules"] ""
          (traceOf (Transient.scanForTodos (Sample.platform "10" "false")
                      rejectsFirst 3 Sample.rootListing ["node_modules"] "" [])))
     = Some [Sample.finding]
  /\ traceOf (Transient.scanForTodos (Sample.platform "10" "false") rejectsFirst 3
                Sample.rootListing ["node_modules"] "" [])
     = [ Warning "Failed to scan directory src: API rate limit exceeded";
         GetContent "src" ].
Proof. vm_compute. repeat split; reflexivity. Qed.

(** C8, amended.  When the service answers every fetch by its path alone,
    so that a request gets the same answer in both runs, two scans of the
    same listing under the same exclusion patterns, the second started at
    any later moment, return the same findings in the same order; on a
    tree of bounded depth the scan does return; the findings of a listing
    are those of its entries in the order of the listing, and those of one
    file come in the order of its lines. *)
Theorem scan_repeatable (rt : runtime) (fetch : trace -> string -> contentResponse)
    (excludePatterns : list string) (contents : list Item.t) (currentPath : string) :
  answersByPath fetch ->
  (forall fuel1 fuel2 tr1 tr2 todos1 todos2 tr1' tr2',
      Transient.scanForTodos rt fetch fuel1 contents excludePatterns currentPath tr1
        = Some (todos1, tr1') ->
      Transient.scanForTodos rt fetch fuel2 contents excludePatterns currentPath tr2
        = Some (todos2, tr2') ->
      todos1 = todos2)
  /\ (forall d,
        depthWithin (snapshotOf fetch) excludePatterns d currentPath contents = true ->
        exists todos,
          forall fuel tr,
            d < fuel ->
            exists tr',
              Transient.scanForTodos rt fetch fuel contents excludePatterns
                currentPath tr
              = Some (todos, tr'))
  /\ (forall fuel l1 l2 tr,
        contents = l1 ++ l2 ->
        Transient.scanForTodos rt fetch fuel contents excludePatterns currentPath tr =
        match Transient.scanForTodos rt fetch fuel l1 excludePatterns currentPath tr with
        | Some (t1, tr1) =>
            match Transient.scanForTodos rt fetch fuel l2 excludePatterns
                    currentPath tr1 with
            | Some (t2, tr2) => Some (t1 ++ t2, tr2)
            | None => None
            end
        | None => None
        end)
  /\ (forall f tr,
        In f contents ->
        StronglySorted lt (map line (fst (Transient.scanFileForTodos rt fetch f tr)))).
Proof.
  intro stable.
  destruct (scanForTodos_function_of_tree rt (snapshotOf fetch) excludePatterns
              contents currentPath) as (D & T & A & O).
  split; [|split; [|split]].
  - intros fuel1 fuel2 tr1 tr2 todos1 todos2 tr1' tr2'.
    rewrite !(transient_scanForTodos rt fetch stable). apply D.
  - intros d Hd. destruct (T d Hd) as [todos H]. exists todos.
    intros fuel tr Hf. rewrite (transient_scanForTodos rt fetch stable).
    apply H. exact Hf.
  - intros fuel l1 l2 tr E.
    rewrite !(transient_scanForTodos rt fetch stable).
    rewrite (A fuel l1 l2 tr E).
    destruct (scanForTodos rt (snapshotOf fetch) fuel l1 excludePatterns currentPath tr)
      as [[t1 tr1]|]; [|reflexivity].
    rewrite (transient_scanForTodos rt fetch stable). reflexivity.
  - intros f tr Hin. rewrite (transient_scanFileForTodos rt fetch stable).
    apply O. exact Hin.
Qed.

(** The statement at the sample repository behind a service that always
    answers: a second scan, started on the trace the first one left and
    with other fuel, finds the same. *)
Lemma scan_repeatable_witness :
  exists tr1 tr2,
    Transient.scanForTodos (Sample.platform "10" "false") (fun _ => Sample.tree) 3
      Sample.rootListing ["node_modules"] "" [] = Some ([Sample.finding], tr1)
    /\ Transient.scanForTodos (Sample.platform "10" "false") (fun _ => Sample.tree) 5
         Sample.rootListing ["node_modules"] "" tr1 = Some ([Sample.finding], tr2).
Proof.
  assert (S : answersByPath (fun _ : trace => Sample.tree))
    by (intros tr tr' path; reflexivity).
  destruct (proj1 (proj2 (scan_repeatable (Sample.platform "10" "false")
                            (fun _ => Sample.tree) ["node_modules"]
                            Sample.rootListing "" S)) 1 eq_refl)
    as [todos H].
  destruct (H 3 [] ltac:(lia)) as [tr1 H1].
  destruct (H 5 tr1 ltac:(lia)) as [tr2 H2].
  exists tr1, tr2.
  assert (E : todos = [Sample.finding]).
  { apply (proj1 (scan_repeatable (Sample.platform "10" "false")
                    (fun _ => Sample.tree) ["node_modules"] Sample.rootListing "" S)
             3 3 [] [] todos [Sample.finding] tr1
             (traceOf (Transient.scanForTodos (Sample.platform "10" "false")
                         (fun _ => Sample.tree) 3 Sample.rootListing
                         ["node_modules"] "" [])) H1).
    vm_compute. reflexivity. }
  rewrite <- E. split; assumption.
Defined.

(** ** Exclusion in the walk *)

Lemma prefix_app (p s t : string) :
  String.prefix p s = true -> String.prefix p (s +++ t) = true.
Proof.
  revert s. induction p as [|c p IH]; intros s H;
    [destruct (s +++ t); reflexivity|].
  destruct s as [|d s]; simpl in *; [discriminate|].
  destruct (Ascii.ascii_dec c d); [auto | discriminate].
Qed.

Lemma prefix_of_empty (p : string) : String.prefix p "" = true -> p = "".
Proof. destruct p; simpl; [reflexivity | discriminate]. Qed.

Lemma includes_app (s t sub : string) :
  Js.includes s sub = true -> Js.includes (s +++ t) sub = true.
Proof.
  induction s as [|c s IH]; simpl; intro H.
  - rewrite orb_false_r in H. apply prefix_of_empty in H. subst.
    apply includes_empty.
  - apply orb_prop in H as [H|H].
    + apply (prefix_app sub (String c s) t) in H.
      unfold Js.startsWith. simpl in H. rewrite H. reflexivity.
    + rewrite (IH H). apply orb_true_r.
Qed.

(** Exclusion is inherited: a path below an excluded path is excluded. *)
Lemma excluded_inherited (excludePatterns : list string) (p name : string) :
  excluded excludePatterns p = true ->
  excluded excludePatterns (joinPath p name) = true.
Proof.
  unfold excluded. rewrite !existsb_exists.
  intros (pat & Hin & Hp). exists pat. split; [assumption|].
  unfold joinPath. destruct p as [|c p]; simpl Js.isEmpty; cbv iota.
  - simpl in Hp. rewrite orb_false_r in Hp. apply prefix_of_empty in Hp. subst.
    apply includes_empty.
  - apply includes_app. exact Hp.
Qed.

Section WalkInvariant.

Variable rt : runtime.
Variable o : octokit.
Variable excludePatterns : list string.

(** [PT] holds of the findings and [PE] of the events a walk adds, when
    they hold of what each entry that is not excluded may add. *)
Variable PT : todo -> Prop.
Variable PE : event -> Prop.
Variable entryOk : string -> Item.t -> Prop.

Hypothesis PE_warning : forall m, PE (Warning m).
Hypothesis PE_dir :
  forall currentPath item,
    excluded excludePatterns (joinPath currentPath (Item.name item)) = false ->
    PE (GetContent (joinPath currentPath (Item.name item))).
Hypothesis PE_file :
  forall currentPath item,
    entryOk currentPath item ->
    excluded excludePatterns (joinPath currentPath (Item.name item)) = false ->
    PE (GetContent (Item.path item)).
Hypothesis PT_file :
  forall currentPath item t,
    entryOk currentPath item ->
    excluded excludePatterns (joinPath currentPath (Item.name item)) = false ->
    file t = Item.path item -> PT t.
Hypothesis entryOk_listed :
  forall p l item, getContent o p = Listing l -> In item l -> entryOk p item.

Lemma scanItems_invariant
    (recur : list Item.t -> string -> trace -> scanResult) (currentPath : string) :
  (forall l p tr r,
      getContent o p = Listing l -> recur l p tr = Some r -> preserved PT PE [] tr r) ->
  forall contents,
    Forall (entryOk currentPath) contents ->
    forall todos tr r,
      scanItems rt o recur excludePatterns currentPath contents todos tr = Some r ->
      preserved PT PE todos tr r.
Proof.
  intros Hrec. induction contents as [|item rest IH]; intros Hok todos tr r H.
  - inversion H; subst. exists [], []. rewrite app_nil_r. simpl. auto.
  - inversion Hok as [|? ? Hitem Hrest]; subst. specialize (IH Hrest).
    cbn [scanItems] in H.
    destruct (excluded excludePatterns _) eqn:Ex; [eauto|].
    destruct (String.eqb (Item.type item) "dir").
    + unfold callGetContent, warning, emit in H.
      destruct (getContent o _) as [l|fc|m] eqn:Eg.
      * destruct (recur l _ _) as [[sub tr2]|] eqn:E; [|discriminate].
        apply Hrec in E; [|assumption].
        destruct E as (ts0 & new0 & E1 & F1 & E2 & F2). simpl in E1, E2. subst.
        apply IH in H as (ts & new & H1 & G1 & H2 & G2).
        exists (ts0 ++ ts), (new ++ new0 ++ [GetContent (joinPath currentPath (Item.name item))]).
        rewrite H1, H2, <- !app_assoc. repeat split.
        -- apply Forall_app; auto.
        -- rewrite !Forall_app. repeat split; auto.
      * apply IH in H as (ts & new & H1 & G1 & H2 & G2).
        exists ts, (new ++ [Warning ("Failed to scan directory "
                     +++ joinPath currentPath (Item.name item) +++ ": " +++ notIterable);
                            GetContent (joinPath currentPath (Item.name item))]).
        rewrite H1, H2, <- !app_assoc. repeat split; auto.
        rewrite Forall_app. split; auto.
      * apply IH in H as (ts & new & H1 & G1 & H2 & G2).
        exists ts, (new ++ [Warning ("Failed to scan directory "
                     +++ joinPath currentPath (Item.name item) +++ ": " +++ m);
                            GetContent (joinPath currentPath (Item.name item))]).
        rewrite H1, H2, <- !app_assoc. repeat split; auto.
        rewrite Forall_app. split; auto.
    + destruct (String.eqb (Item.type item) "file"); [|eauto].
      rewrite (scanFileForTodos_frame rt o item tr) in H.
      apply IH in H as (ts & new & H1 & G1 & H2 & G2).
      exists (fst (scanFileForTodos rt o item []) ++ ts),
             (new ++ snd (scanFileForTodos rt o item [])).
      rewrite H1, H2, <- !app_assoc. repeat split.
      * apply Forall_app. split; [|assumption].
        rewrite Forall_forall. intros t Ht.
        apply scanFileForTodos_file in Ht. eauto.
      * apply Forall_app. split; [assumption|].
        destruct (scanFileForTodos_events rt o item) as [E|[E|[m E]]];
          cbv zeta in E; rewrite E; repeat constructor; eauto.
Qed.

Lemma scanForTodos_invariant (fuel : nat) :
  forall contents currentPath tr r,
    Forall (entryOk currentPath) contents ->
    scanForTodos rt o fuel contents excludePatterns currentPath tr = Some r ->
    preserved PT PE [] tr r.
Proof.
  induction fuel as [|fuel IH]; intros contents currentPath tr r Hok H;
    [discriminate|].
  cbn [scanForTodos] in H. revert H.
  apply scanItems_invariant; [|assumption].
  intros l p tr0 r0 Hl H0. apply (IH l p tr0 r0); [|assumption].
  rewrite Forall_forall. intros item Hin. exact (entryOk_listed p l item Hl Hin).
Qed.

End WalkInvariant.

Section Exclusion.

Variable rt : runtime.
Variable o : octokit.
Variable excludePatterns : list string.

(** An excluded entry of a listing is passed over as if it were absent. *)
Lemma scanItems_skips_excluded
    (recur : list Item.t -> string -> trace -> scanResult) (currentPath : string)
    (pre : list Item.t) (item : Item.t) (post : list Item.t) todos tr :
  excluded excludePatterns (joinPath currentPath (Item.name item)) = true ->
  scanItems rt o recur excludePatterns currentPath (pre ++ item :: post) todos tr =
  scanItems rt o recur excludePatterns currentPath (pre ++ post) todos tr.
Proof.
  intro Ex. rewrite !scanItems_app.
  destruct (scanItems _ _ _ _ _ pre todos tr) as [[t1 tr1]|]; [|reflexivity].
  cbn [scanItems]. rewrite Ex. reflexivity.
Qed.

Lemma scanForTodos_allowed (fuel : nat) contents currentPath tr r :
  pathsAgree o ->
  Forall (pathAgrees currentPath) contents ->
  scanForTodos rt o fuel contents excludePatterns currentPath tr = Some r ->
  preserved (allowedTodo excludePatterns) (allowedEvent excludePatterns) [] tr r.
Proof.
  intros Hagree Hroot.
  apply (scanForTodos_invariant rt o excludePatterns (allowedTodo excludePatterns)
           (allowedEvent excludePatterns) pathAgrees); try assumption.
  - intro m. exact I.
  - intros cp item Ex. exact Ex.
  - intros cp item Hi Ex. unfold allowedEvent. rewrite Hi. exact Ex.
  - intros cp item t Hi Ex Hf. unfold allowedTodo. rewrite Hf, Hi. exact Ex.
Qed.

(** C3.  An entry whose joined path contains an exclusion pattern is
    passed over: the scan of the listing is the scan of the listing without
    it, in findings and in trace, whatever lies below the entry.  In a tree
    whose entries carry their joined path, no finding is of an excluded
    path or of a path below one, and no such path is fetched. *)
Theorem excluded_paths_yield_nothing :
  (forall fuel currentPath pre item post tr,
      excluded excludePatterns (joinPath currentPath (Item.name item)) = true ->
      scanForTodos rt o fuel (pre ++ item :: post) excludePatterns currentPath tr =
      scanForTodos rt o fuel (pre ++ post) excludePatterns currentPath tr)
  /\ (pathsAgree o ->
      forall fuel currentPath contents tr todos tr',
        Forall (pathAgrees currentPath) contents ->
        scanForTodos rt o fuel contents excludePatterns currentPath tr
          = Some (todos, tr') ->
        exists new,
          tr' = new ++ tr
          /\ forall p,
               excluded excludePatterns p = true ->
               (forall t, In t todos ->
                          file t <> p /\ forall rest, file t <> joinPath p rest)
               /\ ~ In (GetContent p) new
               /\ forall rest, ~ In (GetContent (joinPath p rest)) new).
Proof.
  split.
  { intros fuel currentPath pre item post tr Ex.
    destruct fuel as [|fuel]; [reflexivity|].
    cbn [scanForTodos]. apply scanItems_skips_excluded. exact Ex. }
  intros Hagree fuel currentPath contents tr todos tr' Hroot H.
  apply scanForTodos_allowed in H; try assumption.
  destruct H as (ts & new & H1 & F1 & H2 & F2). simpl in H1, H2. subst.
  exists new. split; [reflexivity|].
  rewrite Forall_forall in F1, F2.
  intros p Ex. split; [|split].
  - intros t Ht. specialize (F1 t Ht). unfold allowedTodo in F1. split.
    + intro E. rewrite E in F1. congruence.
    + intros rest E. rewrite E, (excluded_inherited _ _ rest Ex) in F1. discriminate.
  - intro Hin. specialize (F2 _ Hin). simpl in F2. congruence.
  - intros rest Hin. specialize (F2 _ Hin). simpl in F2.
    rewrite (excluded_inherited _ _ rest Ex) in F2. discriminate.
Qed.

End Exclusion.

Lemma sample_pathsAgree (items : list Issue.t) : pathsAgree (Sample.tracker items).
Proof.
  intros p l item H Hin. simpl in H. unfold Sample.tree in H.
  repeat match type of H with
         | context [String.eqb p ?s] =>
             destruct (String.eqb_spec p s);
               [ subst; try discriminate; inversion H; subst; simpl in Hin;
                 repeat (destruct Hin as [<-|Hin]; [reflexivity|]);
                 contradiction
               | ]
         end.
  discriminate.
Qed.

(** The statement at the sample repository, where [node_modules] is
    excluded: nothing is found in [node_modules/b.js] and [node_modules] is
    not listed. *)
Lemma excluded_paths_yield_nothing_witness :
  exists todos tr',
    scanForTodos (Sample.platform "10" "false") (Sample.tracker []) 3
      Sample.rootListing ["node_modules"] "" [] = Some (todos, tr')
    /\ (forall t, In t todos -> file t <> "node_modules/b.js")
    /\ ~ In (GetContent "node_modules") tr'.
Proof.
  destruct (scanForTodos (Sample.platform "10" "false") (Sample.tracker []) 3
              Sample.rootListing ["node_modules"] "" []) as [[todos tr']|] eqn:E;
    [|vm_compute in E; discriminate].
  exists todos, tr'. split; [reflexivity|].
  destruct (proj2 (excluded_paths_yield_nothing (Sample.platform "10" "false")
                     (Sample.tracker []) ["node_modules"])
              (sample_pathsAgree []) 3 "" Sample.rootListing [] todos tr')
    as (new & Hn & H).
  - repeat constructor.
  - exact E.
  - rewrite app_nil_r in Hn. subst new.
    destruct (H "node_modules" eq_refl) as (Ht & Hf & _).
    split; [|exact Hf].
    intros t Hin. exact (proj2 (Ht t Hin) "b.js").
Defined.

(** ** The threshold gate *)

Lemma failed_filter (tr : trace) :
  failed tr = negb (Nat.eqb (List.length (filter isFailure tr)) 0).
Proof.
  unfold failed. induction tr as [|e tr IH]; [reflexivity|].
  simpl. destruct e; simpl; auto.
Qed.

Lemma addsFailures_bind {A B : Type} (c : St A) (k : A -> St B) (F : list event) :
  addsFailures c [] -> (forall a, addsFailures (k a) F) -> addsFailures (bind c k) F.
Proof.
  intros Hc Hk tr. unfold bind. specialize (Hc tr).
  destruct (c tr) as [a tr1]. simpl in Hc. rewrite Hk, Hc. reflexivity.
Qed.

Lemma addsFailures_ret {A : Type} (a : A) : addsFailures (ret a) [].
Proof. intro tr. reflexivity. Qed.

Lemma addsFailures_info (m : string) : addsFailures (info m) [].
Proof. intro tr. reflexivity. Qed.

Lemma addsFailures_warning (m : string) : addsFailures (warning m) [].
Proof. intro tr. reflexivity. Qed.

Lemma addsFailures_setOutput (n v : string) : addsFailures (setOutput n v) [].
Proof. intro tr. reflexivity. Qed.

Lemma addsFailures_setFailed (m : string) : addsFailures (setFailed m) [SetFailed m].
Proof. intro tr. reflexivity. Qed.

Lemma addsFailures_callSearch (o : octokit) (q : string) : addsFailures (callSearch o q) [].
Proof. intro tr. reflexivity. Qed.

Lemma addsFailures_callCreate (o : octokit) (d : IssueData.t) :
  addsFailures (callCreate o d) [].
Proof. intro tr. reflexivity. Qed.

Ltac no_failures :=
  repeat match goal with
         | |- addsFailures (bind _ _) _ => apply addsFailures_bind; [| intro]
         | |- addsFailures (ret _) _ => apply addsFailures_ret
         | |- addsFailures (info _) _ => apply addsFailures_info
         | |- addsFailures (warning _) _ => apply addsFailures_warning
         | |- addsFailures (setOutput _ _) _ => apply addsFailures_setOutput
         | |- addsFailures (callSearch _ _) _ => apply addsFailures_callSearch
         | |- addsFailures (callCreate _ _) _ => apply addsFailures_callCreate
         end.

Lemma addsFailures_logDetails (todos : list todo) :
  forall index, addsFailures (logDetails index todos) [].
Proof.
  induction todos as [|t rest IH]; intro index; cbn [logDetails]; no_failures.
  apply IH.
Qed.

Lemma addsFailures_findExistingIssue (o : octokit) (context : Context.t) (t : todo) :
  addsFailures (findExistingIssue o context t) [].
Proof.
  unfold findExistingIssue. cbv zeta. no_failures.
  destruct a as [items|m]; no_failures.
  destruct (find _ items); cbv zeta; no_failures.
  destruct a as [items2|m]; no_failures.
Qed.

Lemma addsFailures_processLoop (o : octokit) (context : Context.t)
    (labels : list string) (todos : list todo) :
  forall created linked,
    addsFailures (processLoop o context labels todos created linked) [].
Proof.
  induction todos as [|t rest IH]; intros created linked; cbn [processLoop];
    unfold createIssueForTodo; cbv zeta;
    repeat (no_failures;
            try apply IH; try apply addsFailures_findExistingIssue;
            try match goal with
                | |- addsFailures (match ?x with _ => _ end) _ => destruct x
                end).
Qed.

Lemma addsFailures_processTodosForIssues (o : octokit) (context : Context.t)
    (todos : list todo) (issueLabels : string) :
  addsFailures (processTodosForIssues o context todos issueLabels) [].
Proof.
  unfold processTodosForIssues. cbv zeta. no_failures.
  apply addsFailures_processLoop.
Qed.

(** After the scan, [setFailed] is called exactly when the findings
    outnumber the threshold. *)
Lemma runAfterScan_failed (rt : runtime) (o : octokit) (context : Context.t)
    (threshold : Z) (createIssues : bool) (issueLabels : string)
    (todos : list todo) (tr : trace) :
  failed (snd (runAfterScan rt o context threshold createIssues issueLabels todos tr))
  = (threshold <? Z.of_nat (List.length todos))%Z || failed tr.
Proof.
  assert (H : exists m,
             addsFailures
               (runAfterScan rt o context threshold createIssues issueLabels todos)
               (if (threshold <? Z.of_nat (List.length todos))%Z
                then [SetFailed m] else [])).
  { eexists. unfold runAfterScan. cbv zeta. no_failures.
    - destruct (0 <? List.length todos); no_failures. apply addsFailures_logDetails.
    - destruct createIssues; no_failures.
      destruct (prContext context); no_failures.
      apply addsFailures_processTodosForIssues.
    - destruct (threshold <? Z.of_nat (List.length todos))%Z.
      + apply addsFailures_setFailed.
      + apply addsFailures_info. }
  destruct H as [m H]. rewrite !failed_filter, H.
  destruct (threshold <? Z.of_nat (List.length todos))%Z; reflexivity.
Qed.

Lemma scanForTodos_walk_events (rt : runtime) (o : octokit) (excludePatterns : list string)
    (fuel : nat) contents currentPath tr todos tr' :
  scanForTodos rt o fuel contents excludePatterns currentPath tr = Some (todos, tr') ->
  exists new, tr' = new ++ tr /\ Forall isWalkEvent new.
Proof.
  intro H.
  apply (scanForTodos_invariant rt o excludePatterns (fun _ => True) isWalkEvent
           (fun _ _ => True)) in H; simpl; auto.
  - destruct H as (ts & new & _ & _ & H & F). simpl in H. eauto.
  - rewrite Forall_forall. auto.
Qed.

Lemma walk_events_failed (new tr : trace) :
  Forall isWalkEvent new -> failed (new ++ tr) = failed tr.
Proof.
  induction 1 as [|e new He _ IH]; [reflexivity|].
  destruct e; simpl in He; try contradiction; exact IH.
Qed.

Lemma walk_events_tracker (new tr : trace) :
  Forall isWalkEvent new -> filter isTrackerCall (new ++ tr) = filter isTrackerCall tr.
Proof.
  induction 1 as [|e new He _ IH]; [reflexivity|].
  destruct e; simpl in He; try contradiction; exact IH.
Qed.

(** A run whose scan returns [todos] ends, and it is failed exactly when
    the findings outnumber the threshold read from the input. *)
Lemma run_failed_iff (rt : runtime) (o : octokit) (context : Context.t)
    (fuel : nat) (contents : list Item.t) (todos : list todo) (tr3 : trace) :
  getInput rt "token" <> "" ->
  getContent o "" = Listing contents ->
  scanForTodos rt o fuel contents (excludePatternsOf rt) "" traceAtScan
    = Some (todos, tr3) ->
  exists tr',
    run rt o context fuel [] = Some tr'
    /\ (failed tr' = true <-> (thresholdOf rt < Z.of_nat (List.length todos))%Z).
Proof.
  intros Htok Hroot Hscan. unfold run.
  destruct (Js.isEmpty (getInput rt "token")) eqn:E;
    [apply isEmpty_true in E; contradiction|].
  unfold info, emit, callGetContent. rewrite Hroot.
  fold traceAtScan. rewrite Hscan.
  eexists. split; [reflexivity|].
  rewrite runAfterScan_failed.
  apply scanForTodos_walk_events in Hscan as (new & -> & Hnew).
  rewrite walk_events_failed by assumption. simpl.
  rewrite orb_false_r. apply Z.ltb_lt.
Qed.

(** C1 at threshold 0.  With the threshold input ["0"] and the one finding
    of the sample repository, the run counts one finding, compares it with
    10 and is not reported as failed: [parseInt('0') || 10] is 10. *)
Theorem run_threshold_zero_one_finding_passes :
  thresholdOf (Sample.platform "0" "false") = 10%Z
  /\ exists tr,
       run (Sample.platform "0" "false") (Sample.tracker []) Sample.pushContext 3 []
         = Some tr
       /\ outputOf "todo-count" tr = Some "1"
       /\ failed tr = false.
Proof.
  split; [reflexivity|].
  eexists. split; [vm_compute; reflexivity|].
  split; reflexivity.
Qed.

(** ** Issue creation without a pull-request context *)

Lemma logDetails_infos (todos : list todo) :
  forall index tr,
    exists infos,
      snd (logDetails index todos tr) = infos ++ tr
      /\ filter isTrackerCall infos = [].
Proof.
  induction todos as [|t rest IH]; intros index tr; cbn [logDetails].
  - exists []. auto.
  - unfold bind, info, emit.
    destruct (IH (S index) (Info (Js.natToString (index + 1) +++ ". " +++ todoPlace t
                                   +++ " - " +++ Js.trim (content t)) :: tr))
      as (infos & E & F).
    exists (infos ++ [Info (Js.natToString (index + 1) +++ ". " +++ todoPlace t
                            +++ " - " +++ Js.trim (content t))]).
    rewrite E, <- app_assoc, filter_app, F. auto.
Qed.

Lemma outputOf_app (name value : string) (head rest : trace) :
  outputOf name head = Some value -> outputOf name (head ++ rest) = Some value.
Proof.
  induction head as [|e head IH]; simpl; [discriminate|].
  destruct e; auto. destruct (String.eqb name0 name); auto.
Qed.

Lemma runAfterScan_no_pr_context (rt : runtime) (o : octokit) (context : Context.t)
    (threshold : Z) (issueLabels : string) (todos : list todo) (tr : trace) :
  prContext context = false ->
  exists head mid,
    snd (runAfterScan rt o context threshold true issueLabels todos tr)
      = head ++ Warning noPrContextWarning :: mid ++ tr
    /\ outputOf "issues-created" head = Some "0"
    /\ outputOf "issues-linked" head = Some "0"
    /\ filter isTrackerCall head = []
    /\ filter isTrackerCall mid = [].
Proof.
  intro Hpr. unfold runAfterScan. cbv zeta. rewrite Hpr.
  unfold bind, setOutput, info, warning, emit, ret. cbv beta iota.
  fold noPrContextWarning.
  destruct (0 <? List.length todos).
  - match goal with
    | |- context [logDetails 0 todos ?t0] =>
        destruct (logDetails_infos todos 0 t0) as (infos & E & F);
        destruct (logDetails 0 todos t0) as [u tr2]
    end.
    simpl in E. subst tr2. cbv beta iota. cbn [fst snd].
    destruct (threshold <? Z.of_nat (List.length todos))%Z;
      (eexists [_; _; _; _; _], (_ :: _ :: _ :: _ :: infos ++ [_; _; _; _; _]);
       split; [cbn [app]; rewrite <- app_assoc; reflexivity|];
       split; [reflexivity|]; split; [reflexivity|]; split; [reflexivity|];
       cbn [filter isTrackerCall]; rewrite filter_app, F; reflexivity).
  - cbv beta iota. cbn [fst snd].
    destruct (threshold <? Z.of_nat (List.length todos))%Z;
      (eexists [_; _; _; _; _], [_; _; _; _; _; _; _; _];
       split; [reflexivity|];
       split; [reflexivity|]; split; [reflexivity|]; split; reflexivity).
Qed.

Lemma prContext_false_iff (context : Context.t) :
  prContext context = false <-> noPrIdentity context.
Proof.
  unfold prContext, noPrIdentity, payloadNumbers, prNumberOf, orNumber. cbv zeta.
  rewrite orb_false_iff, String.eqb_neq.
  destruct (Payload.pull_request (Context.payload context)) as [pr|];
    [destruct (PullRequest.number pr) as [[|n]|]|];
    (destruct (Payload.number (Context.payload context)) as [[|m]|]);
    (destruct (Payload.issue (Context.payload context)) as [i|];
     [destruct (IssueRef.number i) as [[|k]|]|]);
    cbn [truthyNumber];
    rewrite !Forall_cons_iff; cbn [truthyNumber];
    intuition (try congruence; try constructor).
Qed.

Lemma run_skips_reconciler (rt : runtime) (o : octokit) (context : Context.t)
    (fuel : nat) (contents : list Item.t) (todos : list todo) (tr3 : trace) :
  getInput rt "token" <> "" ->
  getInput rt "create-issues" = "true" ->
  prContext context = false ->
  getContent o "" = Listing contents ->
  scanForTodos rt o fuel contents (excludePatternsOf rt) "" traceAtScan
    = Some (todos, tr3) ->
  exists tr',
    run rt o context fuel [] = Some tr'
    /\ In (Warning noPrContextWarning) tr'
    /\ filter isTrackerCall tr' = []
    /\ outputOf "issues-created" tr' = Some "0"
    /\ outputOf "issues-linked" tr' = Some "0"
    /\ (failed tr' = true <-> (thresholdOf rt < Z.of_nat (List.length todos))%Z).
Proof.
  intros Htok Hcreate Hpr Hroot Hscan.
  destruct (run_failed_iff rt o context fuel contents todos tr3 Htok Hroot Hscan)
    as (tr' & Hrun & Hfail).
  exists tr'. split; [exact Hrun|].
  unfold run in Hrun.
  destruct (Js.isEmpty (getInput rt "token")) eqn:E;
    [apply isEmpty_true in E; contradiction|].
  unfold info, emit, callGetContent in Hrun. rewrite Hroot in Hrun.
  fold traceAtScan in Hrun. rewrite Hscan, Hcreate in Hrun.
  change (String.eqb "true" "true") with true in Hrun.
  destruct (runAfterScan_no_pr_context rt o context (thresholdOf rt)
              (if Js.isEmpty (getInput rt "issue-labels") then "todo,enhancement"
               else getInput rt "issue-labels") todos tr3 Hpr)
    as (head & mid & Htr & Hc & Hl & Fh & Fm).
  rewrite Htr in Hrun. inversion Hrun; subst tr'. clear Hrun.
  apply scanForTodos_walk_events in Hscan as (new & -> & Hnew).
  repeat split.
  - apply in_or_app. right. left. reflexivity.
  - rewrite filter_app, Fh. cbn [app filter isTrackerCall].
    rewrite filter_app, Fm. cbn [app].
    rewrite walk_events_tracker by assumption. reflexivity.
  - apply outputOf_app. exact Hc.
  - apply outputOf_app. exact Hl.
  - apply Hfail.
  - apply Hfail.
Qed.

(** The context of an event on issue 5 has no pull request and its event
    is not [pull_request], and the run takes the number of the issue for
    the number of a pull request: it calls the issue tracker three times,
    logs no warning and creates an issue. *)
Lemma issue_event_invokes_reconciler_counterexample :
  Payload.pull_request (Context.payload issueEventContext) = None
  /\ Context.eventName issueEventContext = "issues"
  /\ option_map
       (fun tr =>
          (List.length (filter isTrackerCall tr), existsb isWarning tr,
           outputOf "issues-created" tr, outputOf "issues-linked" tr))
       (run (Sample.platform "10" "true") (Sample.tracker []) issueEventContext 3 [])
     = Some (3, false, Some "1", Some "0").
Proof. vm_compute. repeat split; reflexivity. Qed.

(** C5, amended.  With issue creation enabled and a context in which none
    of [payload.pull_request.number], [payload.number] and
    [payload.issue.number] is a number other than 0 and whose event is not
    [pull_request], a run over a tree of bounded depth returns, makes no
    call to the issue tracker, logs the warning, sets both [issues-created]
    and [issues-linked] to 0, and is failed exactly when the findings of
    its scan outnumber the threshold. *)
Theorem run_without_pr_context (rt : runtime) (o : octokit) (context : Context.t)
    (d fuel : nat) (contents : list Item.t) :
  getInput rt "token" <> "" ->
  getInput rt "create-issues" = "true" ->
  noPrIdentity context ->
  getContent o "" = Listing contents ->
  depthWithin o (excludePatternsOf rt) d "" contents = true ->
  d < fuel ->
  exists todos tr3 tr',
    scanForTodos rt o fuel contents (excludePatternsOf rt) "" traceAtScan
      = Some (todos, tr3)
    /\ run rt o context fuel [] = Some tr'
    /\ In (Warning noPrContextWarning) tr'
    /\ filter isTrackerCall tr' = []
    /\ outputOf "issues-created" tr' = Some "0"
    /\ outputOf "issues-linked" tr' = Some "0"
    /\ (failed tr' = true <-> (thresholdOf rt < Z.of_nat (List.length todos))%Z).
Proof.
  intros Htok Hcreate Hpr Hroot Hd Hfuel.
  apply prContext_false_iff in Hpr.
  destruct (scanForTodos rt o (S d) contents (excludePatternsOf rt) "" traceAtScan)
    as [[todos tr3]|] eqn:E;
    [|exfalso; exact (scanForTodos_total rt o (excludePatternsOf rt) d _ _ _ Hd E)].
  apply (scanForTodos_fuel_le rt o (excludePatternsOf rt) (S d) fuel) in E; [|lia].
  destruct (run_skips_reconciler rt o context fuel contents todos tr3
              Htok Hcreate Hpr Hroot E) as (tr' & H).
  exists todos, tr3, tr'. split; [exact E | exact H].
Qed.

(** The statement at the sample repository on a push: one finding, the
    default threshold, no failure. *)
Lemma run_without_pr_context_witness :
  exists todos tr3 tr',
    scanForTodos (Sample.platform "10" "true") (Sample.tracker [Sample.quoting]) 3
      Sample.rootListing (excludePatternsOf (Sample.platform "10" "true")) ""
      traceAtScan = Some (todos, tr3)
    /\ run (Sample.platform "10" "true") (Sample.tracker [Sample.quoting])
         Sample.pushContext 3 [] = Some tr'
    /\ In (Warning noPrContextWarning) tr'
    /\ filter isTrackerCall tr' = []
    /\ outputOf "issues-created" tr' = Some "0"
    /\ outputOf "issues-linked" tr' = Some "0"
    /\ (failed tr' = true
        <-> (thresholdOf (Sample.platform "10" "true")
             < Z.of_nat (List.length todos))%Z).
Proof.
  apply (run_without_pr_context (Sample.platform "10" "true")
           (Sample.tracker [Sample.quoting]) Sample.pushContext 1 3
           Sample.rootListing).
  - discriminate.
  - reflexivity.
  - split; [repeat constructor | discriminate].
  - reflexivity.
  - reflexivity.
  - lia.
Defined.

(** ** The match heuristic *)

Lemma matchesContentSearch_spec (t : todo) (issue : Issue.t) :
  matchesContentSearch t issue = true <->
  exists body,
    Issue.body issue = Some body /\ body <> ""
    /\ (Js.includes body (file t) = true
        \/ Js.includes body (Js.trim (content t)) = true
        \/ Js.includes (Js.toLowerCase (Issue.title issue)) "todo" = true
        \/ Js.includes (Js.toLowerCase (Issue.title issue)) "fixme" = true
        \/ Js.includes (Js.toLowerCase (Issue.title issue)) "hack" = true).
Proof.
  unfold matchesContentSearch. destruct (Issue.body issue) as [body|].
  - rewrite andb_true_iff, negb_true_iff, !orb_true_iff. split.
    + intros [Hne H]. exists body. split; [reflexivity|]. split; [|tauto].
      intro E. subst. discriminate.
    + intros (b & Hb & Hne & H). inversion Hb; subst b. split; [|tauto].
      destruct body; [now elim Hne | reflexivity].
  - split; [discriminate|]. intros (b & Hb & _). discriminate.
Qed.

Lemma matches_need_body (t : todo) (issue : Issue.t) :
  Js.truthy (Issue.body issue) = false ->
  matchesContentSearch t issue = false /\ matchesFileSearch t issue = false.
Proof.
  unfold matchesContentSearch, matchesFileSearch, Js.truthy.
  destruct (Issue.body issue) as [body|]; [|auto].
  intro H. rewrite H. auto.
Qed.

Lemma findExistingIssue_accepted (o : octokit) (context : Context.t) (t : todo)
    (tr : trace) (issue : Issue.t) :
  fst (findExistingIssue o context t tr) = Some issue ->
  matchesContentSearch t issue = true \/ matchesFileSearch t issue = true.
Proof.
  unfold findExistingIssue, bind, callSearch, warning, emit, ret. cbv zeta.
  destruct (searchIssues o tr _) as [items|m]; [|discriminate].
  destruct (find (matchesContentSearch t) items) as [i|] eqn:E.
  - simpl. intro H. inversion H; subst. left. exact (proj2 (find_some _ _ E)).
  - destruct (searchIssues o _ _) as [items2|m]; [|discriminate].
    simpl. intro H. right. exact (proj2 (find_some _ _ H)).
Qed.

(** C9.  An issue whose body is empty or absent passes neither test of the
    match heuristic, whatever its title, and is never the issue that
    [findExistingIssue] returns. *)
Theorem empty_body_never_matches (o : octokit) (context : Context.t) (t : todo)
    (tr : trace) :
  (forall issue,
      Js.truthy (Issue.body issue) = false ->
      matchesContentSearch t issue = false /\ matchesFileSearch t issue = false)
  /\ (forall issue,
        fst (findExistingIssue o context t tr) = Some issue ->
        Js.truthy (Issue.body issue) = true).
Proof.
  split; [intro issue; apply matches_need_body|].
  intros issue H. apply findExistingIssue_accepted in H.
  destruct (Js.truthy (Issue.body issue)) eqn:E; [reflexivity|].
  destruct (matches_need_body t issue E) as [E1 E2].
  destruct H; congruence.
Qed.

(** The statement at a tracker that lists an issue titled "TODO list" with
    no body before an issue that quotes the finding. *)
Lemma empty_body_never_matches_witness :
  matchesContentSearch Sample.finding Sample.titleOnly = false
  /\ fst (findExistingIssue (Sample.tracker [Sample.titleOnly; Sample.quoting])
            Sample.prEventContext Sample.finding []) = Some Sample.quoting
  /\ Js.truthy (Issue.body Sample.quoting) = true.
Proof.
  split.
  - exact (proj1 (proj1 (empty_body_never_matches (Sample.tracker [])
                           Sample.prEventContext Sample.finding [])
                    Sample.titleOnly eq_refl)).
  - split; [reflexivity|].
    exact (proj2 (empty_body_never_matches
                    (Sample.tracker [Sample.titleOnly; Sample.quoting])
                    Sample.prEventContext Sample.finding [])
             Sample.quoting eq_refl).
Defined.

(** Two trackers at which the code departs from the specification.  At
    the first, the acceptance test of the specification accepts an issue on
    its title alone; the code does not when the body is absent, and goes on
    to create an issue.  At the second, the first issue whose body contains
    the raw text of the finding is number 9; the code accepts number 3,
    listed before it, on its title, and links the finding to it. *)
Lemma content_search_acceptance_counterexample :
  (find (acceptsAsSpecified Sample.finding) [Sample.titleOnly] = Some Sample.titleOnly
   /\ fst (findExistingIssue (Sample.tracker [Sample.titleOnly]) Sample.prEventContext
             Sample.finding []) = None
   /\ fst (processTodosForIssues (Sample.tracker [Sample.titleOnly])
             Sample.prEventContext [Sample.finding] "todo,enhancement" []) = (1, 0))
  /\ (find (quotesRawText Sample.finding) [housekeeping; Sample.quoting]
      = Some Sample.quoting
      /\ quotesRawText Sample.finding housekeeping = false
      /\ fst (findExistingIssue (Sample.tracker [housekeeping; Sample.quoting])
                Sample.prEventContext Sample.finding []) = Some housekeeping
      /\ fst (processTodosForIssues (Sample.tracker [housekeeping; Sample.quoting])
                Sample.prEventContext [Sample.finding] "todo,enhancement" []) = (0, 1)).
Proof. vm_compute. repeat split; reflexivity. Qed.

Lemma includes_nonempty (body sub : string) :
  sub <> "" -> Js.includes body sub = true -> body <> "".
Proof.
  intros Hne H E. subst body. simpl in H. rewrite orb_false_r in H.
  apply prefix_of_empty in H. contradiction.
Qed.

(** C6, amended.  The content search accepts the first issue it returns
    that has a non-empty body and whose body contains the file path or the
    trimmed raw text or whose lower-cased title contains "todo", "fixme" or
    "hack".  When the non-empty trimmed raw text of a finding is contained
    in the body of one of the issues returned, an issue is accepted, and the
    loop counts the finding as linked and goes on without creating an
    issue. *)
Theorem content_match_links (o : octokit) (context : Context.t) (t : todo)
    (tr : trace) (items : list Issue.t) :
  searchIssues o (Info (processingMessage t) :: tr)
    (searchQueryOf context (Js.trim (content t))) = SearchOk items ->
  (forall issue,
      matchesContentSearch t issue = true <->
      exists body,
        Issue.body issue = Some body /\ body <> ""
        /\ (Js.includes body (file t) = true
            \/ Js.includes body (Js.trim (content t)) = true
            \/ Js.includes (Js.toLowerCase (Issue.title issue)) "todo" = true
            \/ Js.includes (Js.toLowerCase (Issue.title issue)) "fixme" = true
            \/ Js.includes (Js.toLowerCase (Issue.title issue)) "hack" = true))
  /\ (forall issue,
        find (matchesContentSearch t) items = Some issue ->
        fst (findExistingIssue o context t (Info (processingMessage t) :: tr))
        = Some issue)
  /\ (Js.trim (content t) <> "" ->
      (exists issue body,
          In issue items /\ Issue.body issue = Some body
          /\ Js.includes body (Js.trim (content t)) = true) ->
      exists accepted,
        find (matchesContentSearch t) items = Some accepted
        /\ forall labels rest created linked,
             processLoop o context labels (t :: rest) created linked tr =
             processLoop o context labels rest created (linked + 1)
               (Info (linkedMessage t accepted)
                :: SearchIssues (searchQueryOf context (Js.trim (content t)))
                :: Info (processingMessage t) :: tr)).
Proof.
  intro Hs. split; [apply matchesContentSearch_spec|].
  assert (A : forall issue,
             find (matchesContentSearch t) items = Some issue ->
             findExistingIssue o context t (Info (processingMessage t) :: tr)
             = (Some issue,
                SearchIssues (searchQueryOf context (Js.trim (content t)))
                :: Info (processingMessage t) :: tr)).
  { intros issue Hf.
    unfold findExistingIssue, bind, callSearch. cbv zeta. rewrite Hs, Hf.
    reflexivity. }
  split; [intros issue Hf; rewrite (A issue Hf); reflexivity|].
  intros Hne (issue & body & Hin & Hb & Hinc).
  destruct (find (matchesContentSearch t) items) as [accepted|] eqn:Hf.
  - exists accepted. split; [reflexivity|].
    intros labels rest created linked. cbn [processLoop].
    unfold bind at 1. unfold info at 1, emit. fold (processingMessage t).
    unfold bind at 1. rewrite (A accepted eq_refl).
    unfold bind at 1. unfold info at 1, emit. fold (linkedMessage t accepted).
    reflexivity.
  - exfalso. apply (find_none _ _ Hf) in Hin.
    assert (M : matchesContentSearch t issue = true).
    { apply matchesContentSearch_spec. exists body. split; [assumption|].
      split; [exact (includes_nonempty body _ Hne Hinc) | auto]. }
    congruence.
Qed.

(** The statement at a tracker whose search returns the issue that quotes
    the finding: one finding linked, none created. *)
Lemma content_match_links_witness :
  fst (processTodosForIssues (Sample.tracker [Sample.quoting]) Sample.prEventContext
         [Sample.finding] "todo,enhancement" []) = (0, 1).
Proof.
  destruct (content_match_links (Sample.tracker [Sample.quoting])
              Sample.prEventContext Sample.finding
              [Info "🔍 Processing 1 TODOs for issue creation..."]
              [Sample.quoting] eq_refl) as (_ & _ & H).
  destruct (H ltac:(discriminate)
              (ex_intro _ Sample.quoting
                 (ex_intro _ "see `// TODO: fix` in the parser"
                    (conj (or_introl eq_refl) (conj eq_refl eq_refl)))))
    as (accepted & Hf & Hloop).
  unfold processTodosForIssues. cbv zeta. unfold bind at 1. unfold info at 1, emit.
  unfold bind at 1.
  change (Js.natToString (Datatypes.length [Sample.finding])) with "1".
  cbn [String.append].
  rewrite Hloop. reflexivity.
Defined.

(** ** The title of a new issue *)

Lemma substring0_short (n : nat) (s : string) :
  String.length s <= n -> Js.substring0 n s = s.
Proof.
  unfold Js.substring0. revert n. induction s as [|c s IH]; intros n H.
  - destruct n; reflexivity.
  - destruct n as [|n]; simpl in *; [lia|]. rewrite IH by lia. reflexivity.
Qed.

Lemma substring0_length (n : nat) (s : string) :
  n <= String.length s -> String.length (Js.substring0 n s) = n.
Proof.
  unfold Js.substring0. revert n. induction s as [|c s IH]; intros n H.
  - destruct n; simpl in *; [reflexivity | lia].
  - destruct n as [|n]; simpl in *; [reflexivity|]. rewrite IH by lia. reflexivity.
Qed.

Lemma append_empty_r (s : string) : s +++ "" = s.
Proof. induction s as [|c s IH]; simpl; [|rewrite IH]; reflexivity. Qed.

Lemma titleOf_short (c : string) :
  String.length c <= 50 -> titleOf c = prefixedText c.
Proof.
  intro H. unfold titleOf, prefixedText.
  assert (E : (50 <? String.length c) = false) by (apply Nat.ltb_ge; exact H).
  rewrite E, substring0_short, append_empty_r by exact H. reflexivity.
Qed.

Lemma titleOf_long (c : string) :
  50 < String.length c ->
  titleOf c = (if todoPrefixes c then "" else "TODO: ") +++ Js.substring0 50 c +++ "...".
Proof.
  intro H. unfold titleOf.
  assert (E : (50 <? String.length c) = true) by (apply Nat.ltb_lt; exact H).
  rewrite E. destruct (todoPrefixes c); reflexivity.
Qed.

(** A finding whose cleaned text has 46 characters and no marker prefix:
    the prefixed text has 52, and the title is the whole of it with no
    ellipsis, where the specification cuts it after 50 and adds one. *)
Lemma title_of_prefixed_text_counterexample :
  cleanContentOf Sample.unprefixed = "TODO refactor the parser module before release"
  /\ 50 < String.length (prefixedText (cleanContentOf Sample.unprefixed))
  /\ titleOf (cleanContentOf Sample.unprefixed)
     = prefixedText (cleanContentOf Sample.unprefixed)
  /\ titleAsSpecified (cleanContentOf Sample.unprefixed)
     = Js.substring0 50 (prefixedText (cleanContentOf Sample.unprefixed)) +++ "..."
  /\ titleOf (cleanContentOf Sample.unprefixed)
     <> titleAsSpecified (cleanContentOf Sample.unprefixed).
Proof. vm_compute. repeat split; try reflexivity; try lia. discriminate. Qed.

(** C4, amended.  The issue that is created has the title built from the
    cleaned content: when the cleaned content, before any prefix is added,
    has at most 50 characters, the title is the cleaned content, after
    "TODO: " when it has no marker prefix, and carries no ellipsis; when it
    has more than 50, the title is the first 50 characters of the cleaned
    content, after "TODO: " when it has no marker prefix, followed by
    "...". *)
Theorem issue_title_truncation (o : octokit) (context : Context.t) (t : todo)
    (labels : list string) (tr : trace) :
  exists d,
    snd (createIssueForTodo o context t labels tr) = CreateIssue d :: tr
    /\ (String.length (cleanContentOf t) <= 50 ->
        IssueData.title d = prefixedText (cleanContentOf t))
    /\ (50 < String.length (cleanContentOf t) ->
        IssueData.title d =
          (if todoPrefixes (cleanContentOf t) then "" else "TODO: ")
          +++ Js.substring0 50 (cleanContentOf t) +++ "..."
        /\ String.length (Js.substring0 50 (cleanContentOf t)) = 50).
Proof.
  unfold createIssueForTodo, callCreate. cbv zeta. cbn [snd].
  eexists. split; [reflexivity|]. cbn [IssueData.title]. split.
  - apply titleOf_short.
  - intro H. split; [apply titleOf_long; exact H|].
    apply substring0_length. lia.
Qed.

(** The statement at a finding of 33 cleaned characters and at one of 61
    with a marker prefix. *)
Lemma issue_title_truncation_witness :
  (exists d,
      snd (createIssueForTodo (Sample.tracker []) Sample.prEventContext
             (mkTodo "a.js" 1 "/* FIXME:   close the   handle  */" "FIXME") [] [])
        = [CreateIssue d]
      /\ IssueData.title d = "FIXME: close the handle")
  /\ (exists d,
        snd (createIssueForTodo (Sample.tracker []) Sample.prEventContext
               (mkTodo "a.js" 2
                  "# todo: replace the retry loop with exponential backoff and jitter"
                  "TODO") [] [])
          = [CreateIssue d]
        /\ IssueData.title d
           = "todo: replace the retry loop with exponential back...").
Proof.
  split.
  - destruct (issue_title_truncation (Sample.tracker []) Sample.prEventContext
                (mkTodo "a.js" 1 "/* FIXME:   close the   handle  */" "FIXME") [] [])
      as (d & Hd & Hshort & _).
    exists d. split; [exact Hd|].
    rewrite Hshort; [reflexivity | vm_compute; lia].
  - destruct (issue_title_truncation (Sample.tracker []) Sample.prEventContext
                (mkTodo "a.js" 2
                   "# todo: replace the retry loop with exponential backoff and jitter"
                   "TODO") [] [])
      as (d & Hd & _ & Hlong).
    exists d. split; [exact Hd|].
    destruct Hlong as [Ht _]; [vm_compute; lia|].
    rewrite Ht. reflexivity.
Defined.

(** ** The threshold input *)

Lemma parseDigits_uint (d : Decimal.uint) :
  forall a,
    parseDigits 10 (NilEmpty.string_of_uint d) (Some (Z.of_nat a))
    = Some (Z.of_nat (Nat.of_uint_acc d a)).
Proof.
  induction d; intro a; cbn [NilEmpty.string_of_uint parseDigits Nat.of_uint_acc];
    [reflexivity | ..];
    match goal with
    | |- context [digitValue ?c] =>
        let v := eval vm_compute in (digitValue c) in
        change (digitValue c) with v
    end;
    cbv beta iota;
    match goal with
    | |- context [?k <? 10] => change (k <? 10) with true
    end;
    cbv beta iota; rewrite <- IHd; do 2 f_equal;
    rewrite Nat.tail_mul_spec; lia.
Qed.

Lemma parseInt_uint (d : Decimal.uint) :
  parseInt (NilZero.string_of_uint d) = Some (Z.of_nat (Nat.of_uint d)).
Proof.
  assert (P : forall k rest,
             (k < 10)%nat ->
             parseDigits 10 (NilEmpty.string_of_uint rest) (Some (Z.of_nat k))
             = Some (Z.of_nat (Nat.of_uint_acc rest k)))
    by (intros; apply parseDigits_uint).
  destruct d as [|d|d|d|d|d|d|d|d|d|d]; [reflexivity | ..].
  1: destruct d as [|d|d|d|d|d|d|d|d|d|d]; [reflexivity | ..].
  all: unfold NilZero.string_of_uint, parseInt;
    cbn [NilEmpty.string_of_uint Js.trimStart];
    match goal with
    | |- context [Js.isWhiteSpace ?c] =>
        change (Js.isWhiteSpace c) with false
    end;
    cbv beta iota;
    cbn [parseDigits];
    repeat match goal with
           | |- context [digitValue ?c] =>
               let v := eval vm_compute in (digitValue c) in
               change (digitValue c) with v
           end;
    cbv beta iota;
    repeat match goal with
           | |- context [?k <? 10] => change (k <? 10) with true
           end;
    cbv beta iota;
    match goal with
    | |- context [parseDigits 10 (NilEmpty.string_of_uint ?rest) (Some ?z)] =>
        let k := eval vm_compute in (Z.to_nat z) in
        change z with (Z.of_nat k); rewrite (P k rest) by lia
    end;
    reflexivity.
Qed.

(** The integer read from a decimal input is the number written; within
    2^53 it is the number the language reads. *)
Lemma parseInt_natToString (n : nat) : parseInt (Js.natToString n) = Some (Z.of_nat n).
Proof.
  unfold Js.natToString. rewrite parseInt_uint, DecimalNat.Unsigned.of_to. reflexivity.
Qed.

(** The threshold of the run, as an integer, for the decimal input of
    [t]: [t] itself, except that 0 gives the default 10. *)
Lemma thresholdOf_decimal (rt : runtime) (t : nat) :
  getInput rt "threshold" = Js.natToString t ->
  thresholdOf rt = if t =? 0 then 10%Z else Z.of_nat t.
Proof.
  intro H. unfold thresholdOf. rewrite H, parseInt_natToString.
  destruct t; [reflexivity|]. simpl. reflexivity.
Qed.

Lemma thresholdOf_absent (rt : runtime) :
  getInput rt "threshold" = "" -> thresholdOf rt = 10%Z.
Proof. intro H. unfold thresholdOf. rewrite H. reflexivity. Qed.

(** For a threshold input of 1 or more the run is failed exactly when the
    findings outnumber it; for the input 0 it is failed exactly when they
    outnumber 10. *)
Lemma run_failed_iff_decimal (rt : runtime) (o : octokit) (context : Context.t)
    (fuel : nat) (contents : list Item.t) (todos : list todo) (tr3 : trace) (t : nat) :
  getInput rt "token" <> "" ->
  getInput rt "threshold" = Js.natToString t ->
  getContent o "" = Listing contents ->
  scanForTodos rt o fuel contents (excludePatternsOf rt) "" traceAtScan
    = Some (todos, tr3) ->
  exists tr',
    run rt o context fuel [] = Some tr'
    /\ (failed tr' = true <->
        (if t =? 0 then 10 else t) < List.length todos).
Proof.
  intros Htok Ht Hroot Hscan.
  destruct (run_failed_iff rt o context fuel contents todos tr3 Htok Hroot Hscan)
    as (tr' & Hrun & Hfail).
  exists tr'. split; [exact Hrun|].
  rewrite Hfail, (thresholdOf_decimal rt t Ht).
  destruct t; simpl Nat.eqb; cbv iota; lia.
Qed.

(** ** A finding has text *)

Lemma isWhiteSpace_lowerChar (c : ascii) :
  Js.isWhiteSpace (Js.lowerChar c) = Js.isWhiteSpace c.
Proof. destruct c as [[] [] [] [] [] [] [] []]; reflexivity. Qed.

Lemma matchHere_not_blank (c : ascii) (r : list Regex.atom) (s : string) :
  Js.isWhiteSpace (Js.lowerChar c) = false ->
  Regex.matchHere (Regex.Lit c :: r) s = true ->
  allChars Js.isWhiteSpace s = false.
Proof.
  intros Hc H. destruct s as [|d s]; simpl in H; [discriminate|].
  apply andb_prop in H as [H _]. unfold Regex.eqbIgnoreCase in H.
  apply Ascii.eqb_eq in H. simpl.
  rewrite <- (isWhiteSpace_lowerChar d), <- H, Hc. reflexivity.
Qed.

Lemma search_not_blank (c : ascii) (r : list Regex.atom) (s : string) :
  Js.isWhiteSpace (Js.lowerChar c) = false ->
  Regex.search (Regex.Lit c :: r) s = true ->
  allChars Js.isWhiteSpace s = false.
Proof.
  intros Hc. induction s as [|d s IH]; intro H.
  - simpl in H. discriminate.
  - cbn [Regex.search] in H. apply orb_prop in H as [H|H].
    + exact (matchHere_not_blank c r _ Hc H).
    + simpl. rewrite (IH H). apply andb_false_r.
Qed.

Lemma allChars_trimStart (s : string) :
  allChars Js.isWhiteSpace (Js.trimStart s) = allChars Js.isWhiteSpace s.
Proof.
  induction s as [|c s IH]; [reflexivity|]. simpl.
  destruct (Js.isWhiteSpace c) eqn:E; [exact IH|]. simpl. rewrite E. reflexivity.
Qed.

Lemma allChars_trimEnd (s : string) :
  allChars Js.isWhiteSpace (Js.trimEnd s) = allChars Js.isWhiteSpace s.
Proof.
  induction s as [|c s IH]; [reflexivity|]. simpl.
  destruct (Js.isWhiteSpace c) eqn:E; simpl.
  - destruct (Js.trimEnd s) eqn:T; simpl in *; [auto|].
    rewrite E. exact IH.
  - rewrite E. reflexivity.
Qed.

Lemma allChars_trim (s : string) :
  allChars Js.isWhiteSpace (Js.trim s) = allChars Js.isWhiteSpace s.
Proof. unfold Js.trim. rewrite allChars_trimEnd. apply allChars_trimStart. Qed.

Lemma test_not_blank (p : Regex.regexp) (ln : string) :
  In p todoPatterns -> Regex.test p ln = true -> allChars Js.isWhiteSpace ln = false.
Proof.
  intros Hin H. unfold Regex.test in H. unfold todoPatterns in Hin. simpl in Hin.
  repeat (destruct Hin as [<-|Hin];
          [ revert H; apply search_not_blank; reflexivity | ]).
  contradiction.
Qed.

(** The trimmed text of a finding of the scanner is not empty. *)
Lemma scanLines_content (filePath : string) (lines : list string) :
  forall index t,
    In t (scanLines filePath index lines) -> Js.trim (content t) <> "".
Proof.
  induction lines as [|ln rest IH]; simpl; intros index t H; [contradiction|].
  apply in_app_or in H as [H|H]; [|eauto].
  unfold scanLine in H. rewrite scanLinePatterns_find in H.
  destruct (find _ todoPatterns) as [p|] eqn:E; simpl in H; [|contradiction].
  destruct H as [<-|[]]. simpl.
  apply find_some in E as [Hin Ht].
  apply (test_not_blank p ln Hin) in Ht.
  intro Hc.
  assert (A : allChars Js.isWhiteSpace (Js.trim (Js.trim ln)) = false)
    by (rewrite !allChars_trim; exact Ht).
  rewrite Hc in A. discriminate.
Qed.

(** * Further properties of the pipeline *)

(** ** Findings of a file *)

Lemma trimEnd_idempotent (s : string) : Js.trimEnd (Js.trimEnd s) = Js.trimEnd s.
Proof.
  induction s as [|c r IH]; [reflexivity|]. cbn [Js.trimEnd].
  destruct (Js.isWhiteSpace c && Js.isEmpty (Js.trimEnd r)) eqn:E; [reflexivity|].
  cbn [Js.trimEnd]. rewrite IH, E. reflexivity.
Qed.

Lemma trimStart_head (s : string) :
  Js.trimStart s = ""
  \/ exists c r, Js.trimStart s = String c r /\ Js.isWhiteSpace c = false.
Proof.
  induction s as [|c r IH]; [left; reflexivity|]. simpl.
  destruct (Js.isWhiteSpace c) eqn:E; [exact IH|]. right. eauto.
Qed.

Lemma trim_idempotent (s : string) : Js.trim (Js.trim s) = Js.trim s.
Proof.
  unfold Js.trim.
  destruct (trimStart_head s) as [E | (c & r & E & Hc)]; rewrite E; [reflexivity|].
  cbn [Js.trimEnd]. rewrite Hc. cbn [andb Js.trimStart]. rewrite Hc.
  cbn [Js.trimEnd]. rewrite trimEnd_idempotent, Hc. reflexivity.
Qed.

Lemma patternType_kinds (p : Regex.regexp) : In (patternType p) ["TODO"; "FIXME"; "HACK"].
Proof.
  unfold patternType.
  destruct (Js.includes _ "TODO"); [simpl; auto|].
  destruct (Js.includes _ "FIXME"); simpl; auto.
Qed.

Lemma scanLines_from (filePath : string) (lines : list string) :
  forall k t,
    In t (scanLines filePath k lines) <->
    exists i ln p,
      nth_error lines i = Some ln
      /\ find (fun p => Regex.test p ln) todoPatterns = Some p
      /\ t = mkTodo filePath (k + i + 1) (Js.trim ln) (patternType p).
Proof.
  induction lines as [|l rest IH]; intros k t; cbn [scanLines].
  - split; [contradiction|]. intros (i & ln & p & H & _). destruct i; discriminate.
  - rewrite in_app_iff, IH. unfold scanLine. rewrite scanLinePatterns_find. split.
    + intros [H | (i & ln & p & Hn & Hf & ->)].
      * destruct (find _ todoPatterns) as [p|] eqn:E; simpl in H; [|contradiction].
        destruct H as [<-|[]]. exists 0, l, p. rewrite Nat.add_0_r. auto.
      * exists (S i), ln, p. repeat split; auto. f_equal. lia.
    + intros (i & ln & p & Hn & Hf & ->). destruct i as [|i]; simpl in Hn.
      * inversion Hn; subst. left. rewrite Hf, Nat.add_0_r. left. reflexivity.
      * right. exists i, ln, p. repeat split; auto. f_equal. lia.
Qed.

Lemma scanLines_length (filePath : string) (lines : list string) :
  forall k,
    List.length (scanLines filePath k lines) =
    List.length (filter (fun ln => existsb (fun p => Regex.test p ln) todoPatterns) lines).
Proof.
  induction lines as [|l rest IH]; intro k; cbn [scanLines filter]; [reflexivity|].
  rewrite length_app, IH. unfold scanLine. rewrite scanLinePatterns_find.
  destruct (existsb _ todoPatterns) eqn:E.
  - destruct (find_existsb _ _ E) as [p Hp]. rewrite Hp. reflexivity.
  - rewrite (find_none_existsb _ _ E). reflexivity.
Qed.

(** X1.  The findings of the lines of a file are exactly the lines that
    match a pattern: a finding stands for the line at position [line - 1],
    carries that line trimmed and the kind of its first matching pattern,
    and every matching line has its finding; there are as many findings as
    matching lines. *)
Theorem scanLines_sound_complete (filePath : string) (lines : list string) :
  (forall t,
      In t (scanLines filePath 0 lines) <->
      exists i ln p,
        nth_error lines i = Some ln
        /\ find (fun p => Regex.test p ln) todoPatterns = Some p
        /\ t = mkTodo filePath (i + 1) (Js.trim ln) (patternType p))
  /\ List.length (scanLines filePath 0 lines)
     = List.length
         (filter (fun ln => existsb (fun p => Regex.test p ln) todoPatterns) lines).
Proof.
  split; [|apply scanLines_length].
  intro t. rewrite scanLines_from. reflexivity.
Qed.

Lemma scanLines_wellformed (filePath : string) (lines : list string) (k : nat) (t : todo) :
  In t (scanLines filePath k lines) ->
  In (type t) ["TODO"; "FIXME"; "HACK"]
  /\ 1 <= line t
  /\ content t <> ""
  /\ Js.trim (content t) = content t.
Proof.
  intro H. pose proof (scanLines_content _ _ _ _ H) as Hne.
  apply scanLines_from in H as (i & ln & p & _ & _ & ->). cbn [type line content] in *.
  split; [apply patternType_kinds|]. split; [lia|].
  rewrite trim_idempotent in *. auto.
Qed.

Lemma scanFileForTodos_wellformed (rt : runtime) (o : octokit) (f : Item.t)
    (tr : trace) (t : todo) :
  In t (fst (scanFileForTodos rt o f tr)) ->
  In (type t) ["TODO"; "FIXME"; "HACK"]
  /\ 1 <= line t
  /\ content t <> ""
  /\ Js.trim (content t) = content t.
Proof.
  unfold scanFileForTodos.
  destruct (negb (arrayIncludes codeExtensions _)); [simpl; contradiction|].
  unfold bind, callGetContent, warning, emit, ret.
  destruct (getContent o (Item.path f)) as [l|fc|m]; simpl; try contradiction.
  destruct (String.eqb (FileContent.type fc) "file" && _); simpl; [|contradiction].
  apply scanLines_wellformed.
Qed.

Section WalkFindings.

Variable rt : runtime.
Variable o : octokit.
Variable excludePatterns : list string.
Variable Q : todo -> Prop.
Hypothesis Q_file : forall f tr t, In t (fst (scanFileForTodos rt o f tr)) -> Q t.

Lemma scanItems_findings
    (recur : list Item.t -> string -> trace -> scanResult) (currentPath : string) :
  (forall l p tr ts tr', recur l p tr = Some (ts, tr') -> Forall Q ts) ->
  forall contents todos tr ts tr',
    Forall Q todos ->
    scanItems rt o recur excludePatterns currentPath contents todos tr = Some (ts, tr') ->
    Forall Q ts.
Proof.
  intros Hrec. induction contents as [|item rest IH]; intros todos tr ts tr' Ht H.
  - inversion H; subst. exact Ht.
  - cbn [scanItems] in H.
    destruct (excluded excludePatterns _); [eauto|].
    destruct (String.eqb (Item.type item) "dir").
    + unfold callGetContent, warning, emit in H.
      destruct (getContent o _) as [l|fc|m]; try solve [eauto].
      destruct (recur l _ _) as [[sub tr2]|] eqn:E; [|discriminate].
      refine (IH _ _ _ _ _ H). apply Forall_app. split; [exact Ht|].
      exact (Hrec _ _ _ _ _ E).
    + destruct (String.eqb (Item.type item) "file"); [|eauto].
      destruct (scanFileForTodos rt o item tr) as [ft tr1] eqn:E.
      refine (IH _ _ _ _ _ H). apply Forall_app. split; [exact Ht|].
      rewrite Forall_forall. intros t Hin. apply (Q_file item tr t).
      rewrite E. exact Hin.
Qed.

Lemma scanForTodos_findings (fuel : nat) :
  forall contents currentPath tr ts tr',
    scanForTodos rt o fuel contents excludePatterns currentPath tr = Some (ts, tr') ->
    Forall Q ts.
Proof.
  induction fuel as [|fuel IH]; intros contents currentPath tr ts tr' H;
    [discriminate|].
  cbn [scanForTodos] in H. revert H.
  apply scanItems_findings; [|constructor].
  intros l p tr0 ts0 tr0'. apply IH.
Qed.

End WalkFindings.

(** X2.  Every finding a walk returns is well formed: its kind is TODO,
    FIXME or HACK, its line number is at least 1, and its content is not
    empty and is already trimmed. *)
Theorem scanForTodos_findings_wellformed (rt : runtime) (o : octokit)
    (excludePatterns : list string) (fuel : nat) (contents : list Item.t)
    (currentPath : string) (tr : trace) (todos : list todo) (tr' : trace) (t : todo) :
  scanForTodos rt o fuel contents excludePatterns currentPath tr = Some (todos, tr') ->
  In t todos ->
  In (type t) ["TODO"; "FIXME"; "HACK"]
  /\ 1 <= line t
  /\ content t <> ""
  /\ Js.trim (content t) = content t.
Proof.
  intros H Hin.
  pose proof (scanForTodos_findings rt o excludePatterns _
                (scanFileForTodos_wellformed rt o) fuel _ _ _ _ _ H) as F.
  rewrite Forall_forall in F. exact (F t Hin).
Qed.

Lemma scanForTodos_findings_wellformed_witness :
  In (type Sample.finding) ["TODO"; "FIXME"; "HACK"]
  /\ 1 <= line Sample.finding
  /\ content Sample.finding <> ""
  /\ Js.trim (content Sample.finding) = content Sample.finding.
Proof.
  destruct (scanForTodos (Sample.platform "10" "false") (Sample.tracker []) 3
              Sample.rootListing ["node_modules"] "" []) as [[todos tr']|] eqn:E;
    [|vm_compute in E; discriminate].
  apply (scanForTodos_findings_wellformed _ _ _ _ _ _ _ todos tr' Sample.finding E).
  vm_compute in E. inversion E. left. reflexivity.
Defined.

(** ** What a walk does and does not do *)

Lemma walkTrace_app (a b : trace) : walkTrace a -> walkTrace b -> walkTrace (a ++ b).
Proof. induction 1; intro Hb; simpl; try constructor; auto. Qed.

Lemma walkTrace_facts (new : trace) :
  walkTrace new ->
  Forall isWalkEvent new
  /\ List.length (filter isWarning new) <= List.length (filter isFetch new)
  /\ filter isTrackerCall new = []
  /\ filter isOutput new = []
  /\ filter isFailure new = [].
Proof.
  induction 1 as [|p tr _ IH|m p tr _ IH]; simpl.
  - repeat split; auto.
  - destruct IH as (F & L & T & O & E).
    split; [constructor; [exact I | exact F]|].
    split; [lia|]. auto.
  - destruct IH as (F & L & T & O & E).
    split; [repeat (constructor; [exact I|]); exact F|].
    split; [lia|]. auto.
Qed.

Section WalkShape.

Variable rt : runtime.
Variable o : octokit.
Variable excludePatterns : list string.

Lemma scanFileForTodos_walkTrace (f : Item.t) :
  walkTrace (snd (scanFileForTodos rt o f [])).
Proof.
  destruct (scanFileForTodos_events rt o f) as [E|[E|[m E]]];
    cbv zeta in E; rewrite E; repeat constructor.
Qed.

Lemma scanItems_walkTrace
    (recur : list Item.t -> string -> trace -> scanResult) (currentPath : string) :
  (forall l p tr ts tr',
      recur l p tr = Some (ts, tr') -> exists new, tr' = new ++ tr /\ walkTrace new) ->
  forall contents todos tr ts tr',
    scanItems rt o recur excludePatterns currentPath contents todos tr = Some (ts, tr') ->
    exists new, tr' = new ++ tr /\ walkTrace new.
Proof.
  intros Hrec. induction contents as [|item rest IH]; intros todos tr ts tr' H.
  - inversion H; subst. exists []. split; [reflexivity | constructor].
  - cbn [scanItems] in H.
    destruct (excluded excludePatterns _); [eauto|].
    destruct (String.eqb (Item.type item) "dir").
    + unfold callGetContent, warning, emit in H.
      destruct (getContent o _) as [l|fc|m].
      * destruct (recur l _ _) as [[sub tr2]|] eqn:E; [|discriminate].
        apply Hrec in E as (n1 & -> & W1).
        apply IH in H as (n2 & -> & W2).
        exists (n2 ++ n1 ++ [GetContent (joinPath currentPath (Item.name item))]).
        rewrite <- !app_assoc. split; [reflexivity|].
        repeat apply walkTrace_app; auto. repeat constructor.
      * apply IH in H as (n2 & -> & W2).
        eexists (n2 ++ [Warning _; GetContent _]).
        rewrite <- app_assoc. split; [reflexivity|].
        apply walkTrace_app; auto. repeat constructor.
      * apply IH in H as (n2 & -> & W2).
        eexists (n2 ++ [Warning _; GetContent _]).
        rewrite <- app_assoc. split; [reflexivity|].
        apply walkTrace_app; auto. repeat constructor.
    + destruct (String.eqb (Item.type item) "file"); [|eauto].
      rewrite (scanFileForTodos_frame rt o item tr) in H.
      apply IH in H as (n2 & -> & W2).
      exists (n2 ++ snd (scanFileForTodos rt o item [])).
      rewrite <- app_assoc. split; [reflexivity|].
      apply walkTrace_app; auto. apply scanFileForTodos_walkTrace.
Qed.

Lemma scanForTodos_walkTrace (fuel : nat) :
  forall contents currentPath tr ts tr',
    scanForTodos rt o fuel contents excludePatterns currentPath tr = Some (ts, tr') ->
    exists new, tr' = new ++ tr /\ walkTrace new.
Proof.
  induction fuel as [|fuel IH]; intros contents currentPath tr ts tr' H;
    [discriminate|].
  cbn [scanForTodos] in H. revert H. apply scanItems_walkTrace.
  intros l p tr0 ts0 tr0'. apply IH.
Qed.

(** X3.  A walk only fetches and warns: what it adds to the trace are
    fetches of the repository, each warning coming right after a fetch, so
    there are at most as many warnings as fetches; it calls neither the
    issue tracker, nor [setOutput], nor [setFailed]. *)
Theorem scanForTodos_only_fetches_and_warns (fuel : nat) (contents : list Item.t)
    (currentPath : string) (tr : trace) (todos : list todo) (tr' : trace) :
  scanForTodos rt o fuel contents excludePatterns currentPath tr = Some (todos, tr') ->
  exists new,
    tr' = new ++ tr
    /\ walkTrace new
    /\ List.length (filter isWarning new) <= List.length (filter isFetch new)
    /\ filter isTrackerCall new = []
    /\ filter isOutput new = []
    /\ filter isFailure new = [].
Proof.
  intro H. apply scanForTodos_walkTrace in H as (new & -> & W).
  exists new. split; [reflexivity|]. split; [exact W|].
  apply walkTrace_facts in W. tauto.
Qed.

(** An entry that is neither a directory nor a file is passed over. *)
Lemma scanItems_skips_other
    (recur : list Item.t -> string -> trace -> scanResult) (currentPath : string)
    (pre : list Item.t) (item : Item.t) (post : list Item.t) todos tr :
  String.eqb (Item.type item) "dir" = false ->
  String.eqb (Item.type item) "file" = false ->
  scanItems rt o recur excludePatterns currentPath (pre ++ item :: post) todos tr =
  scanItems rt o recur excludePatterns currentPath (pre ++ post) todos tr.
Proof.
  intros Ed Ef. rewrite !scanItems_app.
  destruct (scanItems _ _ _ _ _ pre todos tr) as [[t1 tr1]|]; [|reflexivity].
  cbn [scanItems]. rewrite Ed, Ef. destruct (excluded excludePatterns _); reflexivity.
Qed.

(** X4.  An entry whose type is neither ['dir'] nor ['file'] (a symlink, a
    submodule) is ignored: the scan of the listing is the scan of the
    listing without it, in findings and in trace. *)
Theorem scanForTodos_ignores_other_types (fuel : nat) (currentPath : string)
    (pre : list Item.t) (item : Item.t) (post : list Item.t) (tr : trace) :
  Item.type item <> "dir" ->
  Item.type item <> "file" ->
  scanForTodos rt o fuel (pre ++ item :: post) excludePatterns currentPath tr =
  scanForTodos rt o fuel (pre ++ post) excludePatterns currentPath tr.
Proof.
  intros Hd Hf. destruct fuel as [|fuel]; [reflexivity|].
  cbn [scanForTodos]. apply scanItems_skips_other; apply String.eqb_neq; assumption.
Qed.


(** X6.  A file gives findings only when its extension is a code
    extension and the fetch of its path answers with an object of type
    ['file'] and a non-empty content; the findings are then those of the
    lines of the decoded content.  A rejected fetch gives no finding and one
    warning. *)
Theorem scanFileForTodos_cases (f : Item.t) (tr : trace) :
  (fst (scanFileForTodos rt o f tr) <> [] ->
   arrayIncludes codeExtensions (Js.toLowerCase (extname rt (Item.name f))) = true
   /\ exists c,
        getContent o (Item.path f) = FileData (FileContent.mk "file" (Some c))
        /\ c <> ""
        /\ scanFileForTodos rt o f tr
           = (scanLines (Item.path f) 0
                (Js.split (ascii_of_nat 10) (base64ToUtf8 rt c)),
              GetContent (Item.path f) :: tr))
  /\ (forall m,
        arrayIncludes codeExtensions (Js.toLowerCase (extname rt (Item.name f))) = true ->
        getContent o (Item.path f) = ContentError m ->
        scanFileForTodos rt o f tr
        = ([], Warning ("Failed to scan file " +++ Item.path f +++ ": " +++ m)
               :: GetContent (Item.path f) :: tr)).
Proof.
  unfold scanFileForTodos, bind, callGetContent, warning, emit, ret. split.
  - destruct (arrayIncludes codeExtensions _); simpl; [|intro H; now elim H].
    destruct (getContent o (Item.path f)) as [l|[ty [c|]]|m]; simpl;
      try (intro H; now elim H).
    + destruct (String.eqb_spec ty "file"); simpl; [|intro H; now elim H].
      destruct c as [|a c]; simpl; [intro H; now elim H|].
      intros _. split; [reflexivity|]. subst ty. eexists. split; [reflexivity|].
      split; [discriminate | reflexivity].
    + rewrite andb_false_r. intro H. now elim H.
  - intros m Hx Hg. rewrite Hx, Hg. reflexivity.
Qed.

End WalkShape.

Lemma scanForTodos_only_fetches_and_warns_witness :
  exists todos new,
    scanForTodos (Sample.platform "10" "false") (Sample.tracker []) 3
      (Item.mk "ghost" "ghost" "dir" :: Sample.rootListing) ["node_modules"] ""
      [Info "start"] = Some (todos, new ++ [Info "start"])
    /\ List.length (filter isWarning new) <= List.length (filter isFetch new)
    /\ filter isTrackerCall new = [].
Proof.
  destruct (scanForTodos (Sample.platform "10" "false") (Sample.tracker []) 3
              (Item.mk "ghost" "ghost" "dir" :: Sample.rootListing)
              ["node_modules"] "" [Info "start"]) as [[todos tr']|] eqn:E;
    [|vm_compute in E; discriminate].
  destruct (scanForTodos_only_fetches_and_warns _ _ _ _ _ _ _ _ _ E)
    as (new & -> & _ & L & T & _).
  exists todos, new. auto.
Defined.

Lemma scanForTodos_ignores_other_types_witness :
  scanForTodos (Sample.platform "10" "false") (Sample.tracker []) 3
    ([Item.mk "src" "src" "dir"] ++ Item.mk "vendor" "vendor" "submodule"
       :: [Item.mk "logo.png" "logo.png" "file"]) [] "" []
  = scanForTodos (Sample.platform "10" "false") (Sample.tracker []) 3
      ([Item.mk "src" "src" "dir"] ++ [Item.mk "logo.png" "logo.png" "file"]) [] "" [].
Proof.
  apply (scanForTodos_ignores_other_types (Sample.platform "10" "false")
           (Sample.tracker []) [] 3 "" [Item.mk "src" "src" "dir"]
           (Item.mk "vendor" "vendor" "submodule")
           [Item.mk "logo.png" "logo.png" "file"] []);
    discriminate.
Defined.


Lemma scanFileForTodos_cases_witness :
  scanFileForTodos (Sample.platform "10" "false") (Sample.tracker [])
    (Item.mk "a.js" "src/a.js" "file") []
  = ([Sample.finding], [GetContent "src/a.js"]).
Proof.
  destruct (proj1 (scanFileForTodos_cases (Sample.platform "10" "false")
                     (Sample.tracker []) (Item.mk "a.js" "src/a.js" "file") []))
    as (_ & c & Hc & _ & H).
  - vm_compute. discriminate.
  - rewrite H. vm_compute in Hc. inversion Hc; subst c. vm_compute. reflexivity.
Defined.

(** ** More exclusion patterns, fewer findings *)







Section MoreExclusions.

Variable rt : runtime.
Variable o : octokit.
Variable excl1 excl2 : list string.
Hypothesis stricter : forall p, excluded excl1 p = true -> excluded excl2 p = true.




End MoreExclusions.



(** ** The cleaned content and the title *)

Lemma length_append (a b : string) :
  String.length (a +++ b) = String.length a + String.length b.
Proof. induction a as [|c a IH]; simpl; [|rewrite IH]; reflexivity. Qed.

Lemma trimStart_length (s : string) : String.length (Js.trimStart s) <= String.length s.
Proof.
  induction s as [|c r IH]; simpl; [lia|].
  destruct (Js.isWhiteSpace c); simpl; lia.
Qed.

Lemma trimEnd_length (s : string) : String.length (Js.trimEnd s) <= String.length s.
Proof.
  induction s as [|c r IH]; simpl; [lia|].
  destruct (Js.isWhiteSpace c && _); simpl; lia.
Qed.

Lemma trim_length (s : string) : String.length (Js.trim s) <= String.length s.
Proof.
  unfold Js.trim. pose proof (trimEnd_length (Js.trimStart s)).
  pose proof (trimStart_length s). lia.
Qed.

Lemma substring_length_le (n m : nat) (s : string) :
  String.length (String.substring n m s) <= String.length s.
Proof.
  revert n m. induction s as [|c r IH]; intros n m.
  - destruct n, m; simpl; lia.
  - destruct n as [|n].
    + destruct m as [|m]; simpl; [lia|]. specialize (IH 0 m). lia.
    + simpl. specialize (IH n m). lia.
Qed.

Lemma stripLeading_length (opener s : string) :
  String.length (stripLeading opener s) <= String.length s.
Proof.
  unfold stripLeading. destruct (Js.startsWith s opener); [|lia].
  pose proof (trimStart_length
                (String.substring (String.length opener) (String.length s) s)).
  pose proof (substring_length_le (String.length opener) (String.length s) s). lia.
Qed.

Lemma stripTrailing_length (closer s : string) :
  String.length (stripTrailing closer s) <= String.length s.
Proof.
  unfold stripTrailing, Js.substring0. destruct (endsWith s closer); [|lia].
  pose proof (trimEnd_length
                (String.substring 0 (String.length s - String.length closer) s)).
  pose proof (substring_length_le 0 (String.length s - String.length closer) s). lia.
Qed.

Lemma collapseFrom_length (s : string) :
  forall b, String.length (collapseFrom b s) <= String.length s.
Proof.
  induction s as [|c r IH]; intro b; simpl; [lia|].
  destruct (Js.isWhiteSpace c); [destruct b|]; simpl;
    [specialize (IH true) | specialize (IH true) | specialize (IH false)]; lia.
Qed.

Lemma singleSpaced_weaken (s : string) :
  singleSpaced true s = true -> singleSpaced false s = true.
Proof.
  destruct s as [|c r]; simpl; [trivial|].
  destruct (Js.isWhiteSpace c); [|trivial].
  rewrite andb_false_r. discriminate.
Qed.

Lemma singleSpaced_collapse (s : string) :
  forall b, singleSpaced b (collapseFrom b s) = true.
Proof.
  induction s as [|c r IH]; intro b; simpl; [reflexivity|].
  destruct (Js.isWhiteSpace c) eqn:E.
  - destruct b; [apply IH|].
    cbn [singleSpaced]. change (Js.isWhiteSpace " ") with true. cbv iota.
    rewrite IH. reflexivity.
  - cbn [singleSpaced]. rewrite E. apply IH.
Qed.

Lemma singleSpaced_trimStart (s : string) :
  forall b, singleSpaced b s = true -> singleSpaced false (Js.trimStart s) = true.
Proof.
  induction s as [|c r IH]; intros b H; simpl in *; [reflexivity|].
  destruct (Js.isWhiteSpace c) eqn:E.
  - apply andb_prop in H as [_ H]. exact (IH true H).
  - cbn [singleSpaced]. rewrite E. exact H.
Qed.

Lemma singleSpaced_trimEnd (s : string) :
  forall b, singleSpaced b s = true -> singleSpaced b (Js.trimEnd s) = true.
Proof.
  induction s as [|c r IH]; intros b H; simpl in *; [reflexivity|].
  destruct (Js.isWhiteSpace c) eqn:E; cbn [andb].
  - apply andb_prop in H as [H1 H2].
    destruct (Js.isEmpty (Js.trimEnd r)); [reflexivity|].
    cbn [singleSpaced]. rewrite E, H1. exact (IH true H2).
  - cbn [singleSpaced]. rewrite E. exact (IH false H).
Qed.

(** X8.  The cleaned content of a finding is in a normal form: it has no
    white space at either end, its white space is single spaces only (no
    tab, no line break, no two spaces in a row), and it is never longer than
    the content of the finding. *)
Theorem cleanContentOf_normal_form (t : todo) :
  Js.trim (cleanContentOf t) = cleanContentOf t
  /\ singleSpaced false (cleanContentOf t) = true
  /\ String.length (cleanContentOf t) <= String.length (content t).
Proof.
  unfold cleanContentOf. cbv zeta. split; [apply trim_idempotent|]. split.
  - unfold Js.trim. apply singleSpaced_trimEnd.
    apply (singleSpaced_trimStart _ false). apply singleSpaced_collapse.
  - repeat match goal with
           | |- context [Js.trim ?x] =>
               lazymatch goal with
               | _ : String.length (Js.trim x) <= _ |- _ => fail
               | _ => pose proof (trim_length x)
               end
           | |- context [stripLeading ?a ?x] =>
               lazymatch goal with
               | _ : String.length (stripLeading a x) <= _ |- _ => fail
               | _ => pose proof (stripLeading_length a x)
               end
           | |- context [stripTrailing ?a ?x] =>
               lazymatch goal with
               | _ : String.length (stripTrailing a x) <= _ |- _ => fail
               | _ => pose proof (stripTrailing_length a x)
               end
           end.
    pose proof (collapseFrom_length
                  (stripTrailing "-->"
                     (stripTrailing "*/"
                        (stripLeading "<!--"
                           (stripLeading "/*"
                              (stripLeading "#"
                                 (stripLeading "//" (Js.trim (content t))))))))
                  false).
    unfold collapseWhiteSpace in *. lia.
Qed.

Lemma toLowerCase_length (s : string) :
  String.length (Js.toLowerCase s) = String.length s.
Proof. induction s as [|c r IH]; simpl; [|rewrite IH]; reflexivity. Qed.

Lemma substring0_app (n : nat) (m s : string) :
  String.length m <= n ->
  Js.substring0 n (m +++ s) = m +++ Js.substring0 (n - String.length m) s.
Proof.
  unfold Js.substring0. revert n. induction m as [|c m IH]; intros n H; simpl in *.
  - rewrite Nat.sub_0_r. reflexivity.
  - destruct n as [|n]; [lia|]. simpl. rewrite IH by lia. reflexivity.
Qed.

Lemma append_assoc (a b c : string) : (a +++ b) +++ c = a +++ (b +++ c).
Proof. induction a as [|x a IH]; simpl; [|rewrite IH]; reflexivity. Qed.

Lemma matchHere_lits_cut (k c e : string) :
  String.length k <= 50 ->
  Regex.matchHere (litsOf k) c = true ->
  Regex.matchHere (litsOf k) (Js.substring0 50 c +++ e) = true.
Proof.
  intros Hk H. rewrite <- (app_nil_r (litsOf k)) in *.
  apply matchHere_lits in H as (m & s' & -> & Hm & _).
  assert (Lm : String.length m = String.length k).
  { rewrite <- (toLowerCase_length m), <- (toLowerCase_length k), Hm. reflexivity. }
  apply matchHere_lits. exists m, (Js.substring0 (50 - String.length m) s' +++ e).
  split; [|split; [exact Hm | reflexivity]].
  rewrite substring0_app by lia. apply append_assoc.
Qed.

Lemma substring0_length_le (n : nat) (s : string) :
  String.length (Js.substring0 n s) <= n.
Proof.
  unfold Js.substring0. revert n. induction s as [|c r IH]; intro n.
  - destruct n; simpl; lia.
  - destruct n as [|n]; simpl; [lia|]. specialize (IH n). lia.
Qed.

Lemma titleOf_shape_both (cleanContent : string) :
  todoPrefixes (titleOf cleanContent) = true
  /\ String.length (titleOf cleanContent) <= 59.
Proof.
  unfold titleOf. destruct (todoPrefixes cleanContent) eqn:P.
  - split.
    + unfold todoPrefixes in *.
      apply orb_prop in P as [P|P]; [apply orb_prop in P as [P|P]|].
      * change (Regex.parseSource "TODO:") with (litsOf "TODO:") in *.
        rewrite (matchHere_lits_cut "TODO:" _ _ ltac:(simpl; lia) P). reflexivity.
      * change (Regex.parseSource "FIXME:") with (litsOf "FIXME:") in *.
        rewrite (matchHere_lits_cut "FIXME:" _ _ ltac:(simpl; lia) P).
        rewrite orb_true_r. reflexivity.
      * change (Regex.parseSource "HACK:") with (litsOf "HACK:") in *.
        rewrite (matchHere_lits_cut "HACK:" _ _ ltac:(simpl; lia) P).
        apply orb_true_r.
    + rewrite length_append. pose proof (substring0_length_le 50 cleanContent).
      destruct (50 <? String.length cleanContent); simpl; lia.
  - split; [reflexivity|].
    rewrite !length_append. pose proof (substring0_length_le 50 cleanContent).
    destruct (50 <? String.length cleanContent); simpl; lia.
Qed.

Lemma titleOf_shape_prefix (cleanContent : string) :
  todoPrefixes (titleOf cleanContent) = true.
Proof. apply titleOf_shape_both. Qed.

(** X9.  Every title begins with a marker and a colon, in either case of
    the letters ([TODO:], [FIXME:] or [HACK:]), and has at most 59
    characters: 6 of the prefix, 50 of the content and 3 of the ellipsis. *)
Theorem titleOf_shape (cleanContent : string) :
  todoPrefixes (titleOf cleanContent) = true
  /\ String.length (titleOf cleanContent) <= 59.
Proof. apply titleOf_shape_both. Qed.

(** ** The reconciler *)

Lemma isReconcilerEvent_more (context : Context.t) (labels : list string)
    (t : todo) (todos : list todo) (new : trace) :
  Forall (isReconcilerEvent context labels todos) new ->
  Forall (isReconcilerEvent context labels (t :: todos)) new.
Proof.
  apply Forall_impl. intros e. destruct e; simpl; auto.
  intros (t0 & Hin & E). exists t0. auto.
Qed.

Lemma findExistingIssue_shape (o : octokit) (context : Context.t)
    (labels : list string) (todos : list todo) (t : todo) (tr : trace) :
  exists new,
    snd (findExistingIssue o context t tr) = new ++ tr
    /\ Forall (isReconcilerEvent context labels todos) new
    /\ 1 <= List.length (filter isSearchCall new) <= 2
    /\ filter isCreateCall new = [].
Proof.
  unfold findExistingIssue, bind, callSearch, warning, emit, ret. cbv zeta.
  destruct (searchIssues o tr _) as [items|m];
    [destruct (find (matchesContentSearch t) items);
       [eexists [_]
       |destruct (searchIssues o _ _) as [items2|m];
          [eexists [_; _] | eexists [_; _; _]]]
    |eexists [_; _]];
    (split; [reflexivity|];
     split; [repeat (constructor; [exact I|]); constructor|];
     split; [simpl; lia | reflexivity]).
Qed.

Ltac assoc_lists :=
  repeat first [rewrite <- app_assoc | progress cbn [app]]; reflexivity.

Lemma processLoop_shape (o : octokit) (context : Context.t) (labels : list string)
    (todos : list todo) :
  forall created linked tr,
    exists new c l,
      processLoop o context labels todos created linked tr
        = ((created + c, linked + l), new ++ tr)
      /\ Forall (isReconcilerEvent context labels todos) new
      /\ c + l <= List.length todos
      /\ List.length (filter isCreateCall new) = List.length todos - l
      /\ c <= List.length (filter isCreateCall new)
      /\ List.length todos <= List.length (filter isSearchCall new)
         <= 2 * List.length todos.
Proof.
  induction todos as [|t rest IH]; intros created linked tr.
  - exists [], 0, 0. simpl. rewrite !Nat.add_0_r. repeat split; auto.
  - cbn [processLoop]. unfold bind at 1. unfold info at 1, emit. unfold bind at 1.
    fold (processingMessage t).
    destruct (findExistingIssue_shape o context labels (t :: rest) t
                (Info (processingMessage t) :: tr))
      as (n1 & E1 & F1 & S1 & C1).
    destruct (findExistingIssue o context t (Info (processingMessage t) :: tr))
      as [existing tr1]. simpl in E1. subst tr1.
    destruct existing as [issue|].
    + unfold bind at 1. unfold info at 1, emit.
      match goal with
      | |- context [processLoop o context labels rest created (linked + 1) ?t0] =>
          destruct (IH created (linked + 1) t0) as (n2 & c & l & E2 & F2 & L2 & K2 & M2 & S2)
      end.
      rewrite E2.
      eexists (n2 ++ Info _ :: n1 ++ [Info (processingMessage t)]), c, (S l).
      split; [f_equal; [f_equal; lia | assoc_lists]|].
      split.
      { apply Forall_app. split; [apply isReconcilerEvent_more; exact F2|].
        constructor; [exact I|]. apply Forall_app. split; [exact F1|].
        repeat constructor. }
      rewrite !filter_app, !length_app. cbn [filter isCreateCall isSearchCall].
      rewrite !filter_app, !length_app, C1. cbn [filter isCreateCall isSearchCall length].
      repeat split; lia.
    + unfold bind at 1. unfold info at 1, emit. unfold bind at 1.
      change (createIssueForTodo o context t labels)
        with (callCreate o (issueDataOf context labels t)).
      unfold callCreate.
      destruct (createIssue o _ (issueDataOf context labels t)) as [issue|m].
      * unfold bind at 1. unfold info at 1, emit.
        match goal with
        | |- context [processLoop o context labels rest (created + 1) linked ?t0] =>
            destruct (IH (created + 1) linked t0)
              as (n2 & c & l & E2 & F2 & L2 & K2 & M2 & S2)
        end.
        rewrite E2.
        eexists (n2 ++ Info _ :: CreateIssue (issueDataOf context labels t)
                     :: Info _ :: n1 ++ [Info (processingMessage t)]), (S c), l.
        split; [f_equal; [f_equal; lia | assoc_lists]|].
        split.
        { apply Forall_app. split; [apply isReconcilerEvent_more; exact F2|].
          constructor; [exact I|].
          constructor; [exists t; split; [left; reflexivity | reflexivity]|].
          constructor; [exact I|].
          apply Forall_app. split; [exact F1|]. repeat constructor. }
        rewrite !filter_app, !length_app. cbn [filter isCreateCall isSearchCall length].
        rewrite !filter_app, !length_app, C1. cbn [filter isCreateCall isSearchCall length].
        repeat split; lia.
      * unfold bind at 1. unfold warning at 1, emit.
        match goal with
        | |- context [processLoop o context labels rest created linked ?t0] =>
            destruct (IH created linked t0)
              as (n2 & c & l & E2 & F2 & L2 & K2 & M2 & S2)
        end.
        rewrite E2.
        eexists (n2 ++ Warning _ :: CreateIssue (issueDataOf context labels t)
                     :: Info _ :: n1 ++ [Info (processingMessage t)]), c, l.
        split; [f_equal; assoc_lists|].
        split.
        { apply Forall_app. split; [apply isReconcilerEvent_more; exact F2|].
          constructor; [exact I|].
          constructor; [exists t; split; [left; reflexivity | reflexivity]|].
          constructor; [exact I|].
          apply Forall_app. split; [exact F1|]. repeat constructor. }
        rewrite !filter_app, !length_app. cbn [filter isCreateCall isSearchCall length].
        rewrite !filter_app, !length_app, C1. cbn [filter isCreateCall isSearchCall length].
        repeat split; lia.
Qed.

Lemma reconciler_events_kinds (context : Context.t) (labels : list string)
    (todos : list todo) (new : trace) :
  Forall (isReconcilerEvent context labels todos) new ->
  filter isFetch new = [] /\ filter isOutput new = [] /\ filter isFailure new = [].
Proof.
  induction 1 as [|e new He _ IH]; [auto|].
  destruct e; simpl in He; try contradiction; simpl; exact IH.
Qed.

Lemma processTodosForIssues_shape (o : octokit) (context : Context.t)
    (todos : list todo) (issueLabels : string) (tr : trace) :
  exists new created linked,
    processTodosForIssues o context todos issueLabels tr = ((created, linked), new ++ tr)
    /\ created + linked <= List.length todos
    /\ List.length (filter isCreateCall new) = List.length todos - linked
    /\ created <= List.length (filter isCreateCall new)
    /\ List.length todos <= List.length (filter isSearchCall new)
       <= 2 * List.length todos
    /\ filter isFetch new = []
    /\ filter isOutput new = []
    /\ filter isFailure new = [].
Proof.
  unfold processTodosForIssues. cbv zeta.
  unfold bind at 1. unfold info at 1, emit. unfold bind at 1.
  match goal with
  | |- context [processLoop o context ?labels todos 0 0 ?t0] =>
      destruct (processLoop_shape o context labels todos 0 0 t0)
        as (n & c & l & E & F & L & K & M & S)
  end.
  rewrite E. unfold bind, info, emit, ret. cbn [fst snd Nat.add].
  eexists (Info _ :: n ++ [Info _]), c, l.
  split; [f_equal; assoc_lists|].
  cbn [filter isCreateCall isSearchCall isFetch isOutput isFailure].
  rewrite !filter_app, !length_app.
  cbn [filter isCreateCall isSearchCall isFetch isOutput isFailure length app].
  destruct (reconciler_events_kinds _ _ _ _ F) as (A & B & C).
  rewrite A, B, C. repeat split; try lia; reflexivity.
Qed.


(** X11.  Every issue the reconciler asks to create is the issue of one of
    the findings: its title is the title of the cleaned content, its labels
    are the trimmed entries of the label input, empty entries included, its
    owner and repository are those of the context; it names assignees only
    when there is one, and none when the context has no pull-request
    number. *)
Theorem processTodosForIssues_issue_data (o : octokit) (context : Context.t)
    (todos : list todo) (issueLabels : string) (tr : trace) :
  exists new,
    snd (processTodosForIssues o context todos issueLabels tr) = new ++ tr
    /\ forall d,
         In (CreateIssue d) new ->
         (exists t,
             In t todos
             /\ IssueData.title d = titleOf (cleanContentOf t)
             /\ IssueData.body d = issueBodyOf context t)
         /\ IssueData.labels d = map Js.trim (Js.split "," issueLabels)
         /\ IssueData.owner d = Context.owner context
         /\ IssueData.repo d = Context.repo context
         /\ IssueData.assignees d <> Some []
         /\ (truthyNumber (prNumberOf context) = false -> IssueData.assignees d = None).
Proof.
  unfold processTodosForIssues. cbv zeta.
  unfold bind at 1. unfold info at 1, emit. unfold bind at 1.
  match goal with
  | |- context [processLoop o context ?labels todos 0 0 ?t0] =>
      destruct (processLoop_shape o context labels todos 0 0 t0)
        as (n & c & l & E & F & _)
  end.
  rewrite E. unfold bind, info, emit, ret. cbn [fst snd].
  eexists (Info _ :: n ++ [Info _]). split; [assoc_lists|].
  intros d Hin. destruct Hin as [Hin|Hin]; [discriminate|].
  apply in_app_or in Hin as [Hin|[Hin|[]]]; [|discriminate].
  rewrite Forall_forall in F. specialize (F _ Hin). simpl in F.
  destruct F as (t & Ht & ->). unfold issueDataOf. cbn.
  split; [exists t; auto|]. repeat split.
  - destruct (assigneesOf context); simpl; discriminate.
  - intro Hpr. unfold assigneesOf. rewrite Hpr. reflexivity.
Qed.

Lemma processTodosForIssues_issue_data_witness :
  exists d,
    In (CreateIssue d)
      (snd (processTodosForIssues (Sample.tracker []) Sample.prEventContext
              [Sample.finding] " todo ,, enhancement" []))
    /\ IssueData.title d = "TODO: fix"
    /\ IssueData.labels d = ["todo"; ""; "enhancement"]
    /\ IssueData.assignees d = Some ["dev"].
Proof.
  destruct (processTodosForIssues_issue_data (Sample.tracker []) Sample.prEventContext
              [Sample.finding] " todo ,, enhancement" []) as (new & E & H).
  rewrite app_nil_r in E. subst new.
  eexists. split; [vm_compute; right; right; left; reflexivity|].
  repeat split.
Defined.

(** X12.  A search that is rejected is taken for "no issue found": the
    finding gets one search only, a warning, and then a creation call for
    its issue, whose answer decides between [created + 1] and a second
    warning. *)
Theorem search_failure_fails_open (o : octokit) (context : Context.t)
    (labels : list string) (t : todo) (rest : list todo) (created linked : nat)
    (tr : trace) (m : string) :
  searchIssues o (Info (processingMessage t) :: tr)
    (searchQueryOf context (Js.trim (content t))) = SearchError m ->
  let tr1 :=
    Info ("📝 Creating new issue for TODO in " +++ todoPlace t)
    :: Warning ("Failed to search for existing issues: " +++ m)
    :: SearchIssues (searchQueryOf context (Js.trim (content t)))
    :: Info (processingMessage t) :: tr in
  findExistingIssue o context t (Info (processingMessage t) :: tr)
    = (None, tl tr1)
  /\ processLoop o context labels (t :: rest) created linked tr =
     match createIssue o tr1 (issueDataOf context labels t) with
     | Created issue =>
         processLoop o context labels rest (created + 1) linked
           (Info ("✅ Created issue #" +++ Js.natToString (Issue.number issue)
                  +++ " for TODO in " +++ todoPlace t)
            :: CreateIssue (issueDataOf context labels t) :: tr1)
     | CreateError m' =>
         processLoop o context labels rest created linked
           (Warning ("Failed to process TODO in " +++ todoPlace t +++ ": " +++ m')
            :: CreateIssue (issueDataOf context labels t) :: tr1)
     end.
Proof.
  intros Hs tr1. subst tr1. cbn [tl].
  assert (A : findExistingIssue o context t (Info (processingMessage t) :: tr)
              = (None,
                 Warning ("Failed to search for existing issues: " +++ m)
                 :: SearchIssues (searchQueryOf context (Js.trim (content t)))
                 :: Info (processingMessage t) :: tr)).
  { unfold findExistingIssue, bind, callSearch, warning, emit, ret. cbv zeta.
    rewrite Hs. reflexivity. }
  split; [exact A|].
  cbn [processLoop]. unfold bind at 1. unfold info at 1, emit. unfold bind at 1.
  fold (processingMessage t). rewrite A.
  unfold bind at 1. unfold info at 1, emit. unfold bind at 1.
  change (createIssueForTodo o context t labels)
    with (callCreate o (issueDataOf context labels t)).
  unfold callCreate.
  destruct (createIssue o _ (issueDataOf context labels t)); reflexivity.
Qed.

Lemma search_failure_fails_open_witness :
  fst (processTodosForIssues
         (mkOctokit Sample.tree (fun _ _ => SearchError "rate limit")
            (fun _ d => Created (Issue.mk 5 (IssueData.title d) None)))
         Sample.prEventContext [Sample.finding] "todo" []) = (1, 0).
Proof.
  unfold processTodosForIssues. cbv zeta.
  unfold bind at 1. unfold info at 1, emit. unfold bind at 1.
  rewrite (proj2 (search_failure_fails_open
                    (mkOctokit Sample.tree (fun _ _ => SearchError "rate limit")
                       (fun _ d => Created (Issue.mk 5 (IssueData.title d) None)))
                    Sample.prEventContext (map Js.trim (Js.split "," "todo"))
                    Sample.finding [] 0 0 _ "rate limit" eq_refl)).
  reflexivity.
Defined.

(** X13.  When the content search returns no acceptable issue, the search
    by file path decides: the finding is matched to the first issue of that
    search whose non-empty body contains the trimmed raw text, and to none
    if there is no such issue; a title alone or the file path alone does not
    suffice here. *)
Theorem file_search_fallback (o : octokit) (context : Context.t) (t : todo)
    (tr : trace) (items fileItems : list Issue.t) :
  searchIssues o tr (searchQueryOf context (Js.trim (content t))) = SearchOk items ->
  find (matchesContentSearch t) items = None ->
  searchIssues o (SearchIssues (searchQueryOf context (Js.trim (content t))) :: tr)
    (searchQueryOf context (file t)) = SearchOk fileItems ->
  findExistingIssue o context t tr
    = (find (matchesFileSearch t) fileItems,
       SearchIssues (searchQueryOf context (file t))
       :: SearchIssues (searchQueryOf context (Js.trim (content t))) :: tr)
  /\ (forall issue,
        fst (findExistingIssue o context t tr) = Some issue ->
        exists body,
          Issue.body issue = Some body /\ body <> ""
          /\ Js.includes body (Js.trim (content t)) = true)
  /\ ((forall issue body,
          In issue fileItems -> Issue.body issue = Some body ->
          Js.includes body (Js.trim (content t)) = false) ->
      fst (findExistingIssue o context t tr) = None).
Proof.
  intros H1 Hf H2.
  assert (A : findExistingIssue o context t tr
              = (find (matchesFileSearch t) fileItems,
                 SearchIssues (searchQueryOf context (file t))
                 :: SearchIssues (searchQueryOf context (Js.trim (content t))) :: tr)).
  { unfold findExistingIssue, bind, callSearch, warning, emit, ret. cbv zeta.
    rewrite H1, Hf, H2. reflexivity. }
  split; [exact A|]. rewrite A. cbn [fst]. split.
  - intros issue Hi. apply find_some in Hi as [_ Hm].
    unfold matchesFileSearch in Hm.
    destruct (Issue.body issue) as [body|]; [|discriminate].
    apply andb_prop in Hm as [Hne Hinc]. exists body.
    split; [reflexivity|]. split; [|exact Hinc].
    intro E. subst. discriminate.
  - intro Hno. destruct (find (matchesFileSearch t) fileItems) as [issue|] eqn:E;
      [|reflexivity].
    apply find_some in E as [Hin Hm]. unfold matchesFileSearch in Hm.
    destruct (Issue.body issue) as [body|] eqn:Eb; [|discriminate].
    apply andb_prop in Hm as [_ Hinc].
    rewrite (Hno issue body Hin Eb) in Hinc. discriminate.
Qed.

Lemma file_search_fallback_witness :
  findExistingIssue
    (mkOctokit Sample.tree
       (fun tr _ => match tr with
                    | [] => SearchOk [Sample.titleOnly]
                    | _ => SearchOk [Sample.titleOnly; Sample.quoting]
                    end)
       (fun _ _ => CreateError "no"))
    Sample.prEventContext Sample.finding []
  = (Some Sample.quoting,
     [SearchIssues (searchQueryOf Sample.prEventContext "src/a.js");
      SearchIssues (searchQueryOf Sample.prEventContext "// TODO: fix")]).
Proof.
  exact (proj1 (file_search_fallback
                  (mkOctokit Sample.tree
                     (fun tr _ => match tr with
                                  | [] => SearchOk [Sample.titleOnly]
                                  | _ => SearchOk [Sample.titleOnly; Sample.quoting]
                                  end)
                     (fun _ _ => CreateError "no"))
                  Sample.prEventContext Sample.finding []
                  [Sample.titleOnly] [Sample.titleOnly; Sample.quoting]
                  eq_refl eq_refl eq_refl)).
Defined.

(** ** An issue of the action is found again *)

Lemma toLowerCase_append (a b : string) :
  Js.toLowerCase (a +++ b) = Js.toLowerCase a +++ Js.toLowerCase b.
Proof. induction a as [|c a IH]; simpl; [|rewrite IH]; reflexivity. Qed.

Lemma includes_startsWith (s sub : string) :
  Js.startsWith s sub = true -> Js.includes s sub = true.
Proof. intro H. destruct s; cbn [Js.includes]; rewrite H; reflexivity. Qed.

Lemma prefix_self_append (s b : string) : String.prefix s (s +++ b) = true.
Proof.
  induction s as [|c s IH]; simpl; [destruct b; reflexivity|].
  destruct (Ascii.ascii_dec c c); [exact IH | congruence].
Qed.

Lemma includes_head (s b : string) : Js.includes (s +++ b) s = true.
Proof. apply includes_startsWith. apply prefix_self_append. Qed.

Lemma includes_after (a s sub : string) :
  Js.includes s sub = true -> Js.includes (a +++ s) sub = true.
Proof.
  intro H. induction a as [|c a IH]; simpl; [exact H|].
  rewrite IH. apply orb_true_r.
Qed.

Lemma marker_prefix_in_lower (k s : string) :
  Regex.matchHere (litsOf k) s = true ->
  exists rest, Js.toLowerCase s = Js.toLowerCase k +++ rest.
Proof.
  intro H. rewrite <- (app_nil_r (litsOf k)) in H.
  apply matchHere_lits in H as (m & s' & -> & Hm & _).
  exists (Js.toLowerCase s'). rewrite toLowerCase_append, Hm. reflexivity.
Qed.

Lemma todoPrefixes_title_word (s : string) :
  todoPrefixes s = true ->
  Js.includes (Js.toLowerCase s) "todo" = true
  \/ Js.includes (Js.toLowerCase s) "fixme" = true
  \/ Js.includes (Js.toLowerCase s) "hack" = true.
Proof.
  unfold todoPrefixes. intro P.
  apply orb_prop in P as [P|P]; [apply orb_prop in P as [P|P]|].
  - left. change (Regex.parseSource "TODO:") with (litsOf "TODO:") in P.
    apply marker_prefix_in_lower in P as [rest ->]. reflexivity.
  - right. left. change (Regex.parseSource "FIXME:") with (litsOf "FIXME:") in P.
    apply marker_prefix_in_lower in P as [rest ->]. reflexivity.
  - right. right. change (Regex.parseSource "HACK:") with (litsOf "HACK:") in P.
    apply marker_prefix_in_lower in P as [rest ->]. reflexivity.
Qed.

Lemma issueBodyOf_includes_content (context : Context.t) (t : todo) :
  Js.includes (issueBodyOf context t) (Js.trim (content t)) = true.
Proof.
  unfold issueBodyOf.
  repeat first [apply includes_head | apply includes_after].
Qed.

Lemma issueBodyOf_includes_file (context : Context.t) (t : todo) :
  Js.includes (issueBodyOf context t) (file t) = true.
Proof.
  unfold issueBodyOf.
  repeat first [apply includes_head | apply includes_after].
Qed.

Lemma find_some_of_In {A : Type} (f : A -> bool) (l : list A) (x : A) :
  In x l -> f x = true -> exists y, find f l = Some y.
Proof.
  intros Hin Hf. destruct (find f l) as [y|] eqn:E; [eauto|].
  rewrite (find_none _ _ E x Hin) in Hf. discriminate.
Qed.

(** X14.  An issue the action has created is found again, and not only by
    its own finding: its title begins with a marker, so with its non-empty
    body it passes the test of the content search for every finding, and
    its body quotes the file path and the raw text of its own finding, so it
    passes the test of the file search for that finding.  Whenever the
    content search returns such an issue, the finding searched for is taken
    to have an issue. *)
Theorem created_issue_matches_every_finding (context : Context.t) (t t' : todo)
    (issue : Issue.t) :
  Issue.title issue = titleOf (cleanContentOf t) ->
  Issue.body issue = Some (issueBodyOf context t) ->
  matchesContentSearch t' issue = true
  /\ matchesFileSearch t issue = true
  /\ forall (o : octokit) (context' : Context.t) (tr : trace) (items : list Issue.t),
       searchIssues o tr (searchQueryOf context' (Js.trim (content t')))
         = SearchOk items ->
       In issue items ->
       exists accepted, fst (findExistingIssue o context' t' tr) = Some accepted.
Proof.
  intros Ht Hb.
  assert (M : matchesContentSearch t' issue = true).
  { apply matchesContentSearch_spec. exists (issueBodyOf context t).
    split; [exact Hb|]. split; [discriminate|].
    rewrite Ht. right. right.
    apply todoPrefixes_title_word. apply titleOf_shape_prefix. }
  split; [exact M|]. split.
  - unfold matchesFileSearch. rewrite Hb.
    rewrite issueBodyOf_includes_content. reflexivity.
  - intros o context' tr items Hs Hin.
    destruct (find_some_of_In _ _ _ Hin M) as [y Hy]. exists y.
    unfold findExistingIssue, bind, callSearch. cbv zeta. rewrite Hs, Hy.
    reflexivity.
Qed.

Lemma created_issue_matches_every_finding_witness :
  matchesContentSearch Sample.unprefixed
    (Issue.mk 100 (titleOf (cleanContentOf Sample.finding))
       (Some (issueBodyOf Sample.prEventContext Sample.finding))) = true.
Proof.
  exact (proj1 (created_issue_matches_every_finding Sample.prEventContext
                  Sample.finding Sample.unprefixed
                  (Issue.mk 100 (titleOf (cleanContentOf Sample.finding))
                     (Some (issueBodyOf Sample.prEventContext Sample.finding)))
                  eq_refl eq_refl)).
Defined.

(** ** The outputs of a run *)

Lemma outputOf_skip (name : string) (l tr : trace) :
  filter isOutput l = [] -> outputOf name (l ++ tr) = outputOf name tr.
Proof.
  induction l as [|e l IH]; [reflexivity|].
  destruct e; simpl; try exact IH. discriminate.
Qed.

Lemma logDetails_quiet (todos : list todo) :
  forall index tr,
    exists infos,
      logDetails index todos tr = (tt, infos ++ tr)
      /\ filter isOutput infos = []
      /\ filter isTrackerCall infos = [].
Proof.
  induction todos as [|t rest IH]; intros index tr; cbn [logDetails].
  - exists []. auto.
  - unfold bind, info, emit.
    match goal with
    | |- context [logDetails (S index) rest ?t0] =>
        destruct (IH (S index) t0) as (infos & E & F & G)
    end.
    rewrite E. eexists (infos ++ [Info _]).
    split; [f_equal; assoc_lists|].
    rewrite !filter_app, F, G. auto.
Qed.

Lemma nodup_length_le (l : list string) :
  List.length (nodup string_dec l) <= List.length l.
Proof.
  induction l as [|x l IH]; simpl; [lia|].
  destruct (in_dec string_dec x l); simpl; lia.
Qed.

Lemma todoFilesOf_facts (todos : list todo) :
  todoFilesOf todos <= List.length todos
  /\ (todoFilesOf todos = 0 <-> todos = [])
  /\ NoDup (nodup string_dec (map file todos))
  /\ (forall f, In f (nodup string_dec (map file todos)) <->
                exists t, In t todos /\ file t = f).
Proof.
  unfold todoFilesOf. split; [|split; [|split]].
  - pose proof (nodup_length_le (map file todos)). rewrite length_map in H. exact H.
  - split.
    + intro H. destruct todos as [|t rest]; [reflexivity|].
      assert (I0 : In (file t) (nodup string_dec (map file (t :: rest))))
        by (apply nodup_In; left; reflexivity).
      destruct (nodup string_dec (map file (t :: rest))); [contradiction | discriminate].
    + intros ->. reflexivity.
  - apply NoDup_nodup.
  - intro f. rewrite nodup_In, in_map_iff. split; intros (t & A & B); eauto.
Qed.

Lemma processTodosForIssues_result (o : octokit) (context : Context.t)
    (todos : list todo) (issueLabels : string) (tr : trace) :
  exists new created linked,
    processTodosForIssues o context todos issueLabels tr = ((created, linked), new ++ tr)
    /\ created + linked <= List.length todos
    /\ filter isOutput new = [].
Proof.
  destruct (processTodosForIssues_shape o context todos issueLabels tr)
    as (new & c & l & E & L & _ & _ & _ & _ & O & _).
  exists new, c, l. auto.
Qed.

Lemma runAfterScan_outputs (rt : runtime) (o : octokit) (context : Context.t)
    (threshold : Z) (createIssues : bool) (issueLabels : string)
    (todos : list todo) (tr : trace) :
  exists created linked,
    outputOf "todo-count"
      (snd (runAfterScan rt o context threshold createIssues issueLabels todos tr))
      = Some (Js.natToString (List.length todos))
    /\ outputOf "todo-files"
         (snd (runAfterScan rt o context threshold createIssues issueLabels todos tr))
       = Some (Js.natToString (todoFilesOf todos))
    /\ outputOf "todo-details"
         (snd (runAfterScan rt o context threshold createIssues issueLabels todos tr))
       = Some (JSON_stringify rt todos)
    /\ outputOf "issues-created"
         (snd (runAfterScan rt o context threshold createIssues issueLabels todos tr))
       = Some (Js.natToString created)
    /\ outputOf "issues-linked"
         (snd (runAfterScan rt o context threshold createIssues issueLabels todos tr))
       = Some (Js.natToString linked)
    /\ created + linked <= List.length todos
    /\ (createIssues && prContext context = false ->
        created = 0 /\ linked = 0
        /\ filter isTrackerCall
             (snd (runAfterScan rt o context threshold createIssues issueLabels todos tr))
           = filter isTrackerCall tr).
Proof.
  unfold runAfterScan. cbv zeta.
  unfold bind, setOutput, info, warning, emit, ret. cbv beta iota.
  destruct (0 <? List.length todos); cbv beta iota.
  1: match goal with
     | |- context [logDetails 0 todos ?t0] => pose (T := t0)
     end;
     destruct (logDetails_quiet todos 0 T) as (infos & E & F & G);
     subst T; rewrite E; cbv beta iota.
  all: destruct createIssues; cbn [andb]; cbv beta iota;
    [destruct (prContext context); cbv beta iota;
       [match goal with
        | |- context [processTodosForIssues _ _ _ _ ?t0] => pose (T := t0)
        end;
        destruct (processTodosForIssues_result o context todos issueLabels T)
          as (new & c & l & E' & L & O);
        subst T; rewrite E'; cbv beta iota; cbn [fst snd]; exists c, l
       |exists 0, 0]
    |exists 0, 0];
    destruct (threshold <? Z.of_nat (List.length todos))%Z;
    cbn [snd fst]; cbn;
    rewrite ?filter_app;
    repeat match goal with
           | H : filter isOutput ?x = [] |- _ =>
               rewrite !(outputOf_skip _ x) by exact H; cbn
           end;
    repeat match goal with
           | H : filter isTrackerCall ?x = [] |- _ => rewrite H
           end;
    repeat split; auto; try lia; try discriminate.
Qed.

(** X15.  A run whose scan returns sets all five outputs: [todo-count] is
    the number of findings, [todo-files] the number of distinct files among
    them (at most the count, and 0 only without findings), [todo-details]
    the serialized findings, and [issues-created] and [issues-linked] two
    counts whose sum is at most the number of findings.  Unless issue
    creation is enabled in a pull-request context both counts are 0 and the
    issue tracker is not called. *)
Theorem run_sets_outputs (rt : runtime) (o : octokit) (context : Context.t)
    (fuel : nat) (contents : list Item.t) (todos : list todo) (tr3 : trace) :
  getInput rt "token" <> "" ->
  getContent o "" = Listing contents ->
  scanForTodos rt o fuel contents (excludePatternsOf rt) "" traceAtScan
    = Some (todos, tr3) ->
  exists tr' created linked files,
    run rt o context fuel [] = Some tr'
    /\ outputOf "todo-count" tr' = Some (Js.natToString (List.length todos))
    /\ outputOf "todo-files" tr' = Some (Js.natToString (List.length files))
    /\ NoDup files
    /\ (forall f, In f files <-> exists t, In t todos /\ file t = f)
    /\ List.length files <= List.length todos
    /\ (List.length files = 0 <-> todos = [])
    /\ outputOf "todo-details" tr' = Some (JSON_stringify rt todos)
    /\ outputOf "issues-created" tr' = Some (Js.natToString created)
    /\ outputOf "issues-linked" tr' = Some (Js.natToString linked)
    /\ created + linked <= List.length todos
    /\ (getInput rt "create-issues" = "true" /\ prContext context = true
        \/ (created = 0 /\ linked = 0 /\ filter isTrackerCall tr' = [])).
Proof.
  intros Htok Hroot Hscan. unfold run.
  destruct (Js.isEmpty (getInput rt "token")) eqn:E;
    [apply isEmpty_true in E; contradiction|].
  unfold info, emit, callGetContent. rewrite Hroot.
  fold traceAtScan. rewrite Hscan.
  match goal with
  | |- context [runAfterScan rt o context ?th ?ci ?lb todos tr3] =>
      destruct (runAfterScan_outputs rt o context th ci lb todos tr3)
        as (c & l & O1 & O2 & O3 & O4 & O5 & L & Z0)
  end.
  destruct (todoFilesOf_facts todos) as (T1 & T2 & T3 & T4).
  eexists _, c, l, (nodup string_dec (map file todos)).
  split; [reflexivity|].
  repeat (split; [assumption|]).
  destruct (String.eqb (getInput rt "create-issues") "true") eqn:Ec.
  - destruct (prContext context) eqn:Ep.
    + left. split; [apply String.eqb_eq; exact Ec | reflexivity].
    + right. destruct (Z0 eq_refl) as (-> & -> & Ht). repeat split.
      rewrite Ht. apply scanForTodos_walkTrace in Hscan as (new & -> & W).
      apply walkTrace_facts in W as (_ & _ & Tk & _).
      rewrite filter_app, Tk. reflexivity.
  - right. destruct (Z0 eq_refl) as (-> & -> & Ht). repeat split.
    rewrite Ht. apply scanForTodos_walkTrace in Hscan as (new & -> & W).
    apply walkTrace_facts in W as (_ & _ & Tk & _).
    rewrite filter_app, Tk. reflexivity.
Qed.

Lemma run_sets_outputs_witness :
  exists tr',
    run (Sample.platform "10" "true") (Sample.tracker [Sample.quoting])
      Sample.prEventContext 3 [] = Some tr'
    /\ outputOf "todo-count" tr' = Some "1"
    /\ outputOf "issues-linked" tr' = Some "1".
Proof.
  destruct (scanForTodos (Sample.platform "10" "true") (Sample.tracker [Sample.quoting]) 3
              Sample.rootListing (excludePatternsOf (Sample.platform "10" "true"))
              "" traceAtScan) as [[todos tr3]|] eqn:E;
    [|vm_compute in E; discriminate].
  destruct (run_sets_outputs (Sample.platform "10" "true")
              (Sample.tracker [Sample.quoting]) Sample.prEventContext 3
              Sample.rootListing todos tr3 ltac:(discriminate) eq_refl E)
    as (tr' & c & l & files & Hrun & _).
  exists tr'. split; [exact Hrun|].
  vm_compute in Hrun. inversion Hrun. split; reflexivity.
Defined.

(** X16.  A run that cannot start its scan fails and reports nothing: with
    no token it calls [setFailed] before any fetch, and with a root fetch
    that does not answer with a listing it calls [setFailed] after that one
    fetch; in both cases no output is set, the issue tracker is not called,
    and this does not depend on the fuel. *)
Theorem run_aborts_without_scan (rt : runtime) (o : octokit) (context : Context.t)
    (fuel : nat) :
  (getInput rt "token" = "" ->
   exists m, run rt o context fuel [] = Some [SetFailed m])
  /\ (getInput rt "token" <> "" ->
      (forall l, getContent o "" <> Listing l) ->
      exists m,
        run rt o context fuel []
        = Some [SetFailed m; GetContent ""; Info "🔍 Starting TODO scan..."]).
Proof.
  unfold run. split.
  - intros ->. eexists. reflexivity.
  - intros Htok Hno.
    destruct (Js.isEmpty (getInput rt "token")) eqn:E;
      [apply isEmpty_true in E; contradiction|].
    unfold info, emit, callGetContent, setFailed.
    destruct (getContent o "") as [l|fc|m] eqn:Eg.
    + now elim (Hno l).
    + eexists. reflexivity.
    + eexists. reflexivity.
Qed.

Lemma run_aborts_without_scan_witness :
  exists m,
    run (mkRuntime Posix.extname (fun s => s) (fun _ => "") (fun _ => ""))
      (Sample.tracker []) Sample.pushContext 0 [] = Some [SetFailed m].
Proof.
  exact (proj1 (run_aborts_without_scan
                  (mkRuntime Posix.extname (fun s => s) (fun _ => "") (fun _ => ""))
                  (Sample.tracker []) Sample.pushContext 0) eq_refl).
Defined.

(** X17.  The threshold of a run is never 0.  A decimal input from 1 to
    2^53, the range in which the number read is the number written, is read
    as its number; the input 0, an empty input and an input [parseInt]
    cannot read give 10.  With a negative threshold every run whose scan
    returns is failed, even without a finding. *)
Theorem threshold_never_zero (rt : runtime) :
  thresholdOf rt <> 0%Z
  /\ (forall t,
        (Z.of_nat t <= 2 ^ 53)%Z ->
        getInput rt "threshold" = Js.natToString t ->
        thresholdOf rt = if t =? 0 then 10%Z else Z.of_nat t)
  /\ (parseInt (getInput rt "threshold") = None -> thresholdOf rt = 10%Z)
  /\ (forall o context fuel contents todos tr3,
        (thresholdOf rt < 0)%Z ->
        getInput rt "token" <> "" ->
        getContent o "" = Listing contents ->
        scanForTodos rt o fuel contents (excludePatternsOf rt) "" traceAtScan
          = Some (todos, tr3) ->
        exists tr', run rt o context fuel [] = Some tr' /\ failed tr' = true).
Proof.
  split; [|split; [|split]].
  - unfold thresholdOf, numberOr.
    destruct (parseInt _) as [[|p|p]|]; discriminate.
  - intros t _. apply thresholdOf_decimal.
  - unfold thresholdOf. intros ->. reflexivity.
  - intros o context fuel contents todos tr3 Hneg Htok Hroot Hscan.
    destruct (run_failed_iff rt o context fuel contents todos tr3 Htok Hroot Hscan)
      as (tr' & Hrun & Hf).
    exists tr'. split; [exact Hrun|]. apply Hf. lia.
Qed.

Lemma threshold_never_zero_witness :
  thresholdOf (Sample.platform "25" "false") = 25%Z
  /\ thresholdOf (Sample.platform "many" "false") = 10%Z
  /\ exists tr',
       run (Sample.platform "-1" "false")
         (mkOctokit (fun _ => Listing []) (fun _ _ => SearchOk [])
            (fun _ _ => CreateError "no"))
         Sample.pushContext 1 [] = Some tr'
       /\ failed tr' = true.
Proof.
  split; [exact (proj1 (proj2 (threshold_never_zero (Sample.platform "25" "false")))
                   25 ltac:(discriminate) eq_refl)|].
  split; [exact (proj1 (proj2 (proj2 (threshold_never_zero
                                        (Sample.platform "many" "false"))))
                   eq_refl)|].
  exact (proj2 (proj2 (proj2 (threshold_never_zero (Sample.platform "-1" "false"))))
           (mkOctokit (fun _ => Listing []) (fun _ _ => SearchOk [])
              (fun _ _ => CreateError "no"))
           Sample.pushContext 1 [] [] traceAtScan
           eq_refl ltac:(discriminate) eq_refl eq_refl).
Defined.

(** ** The first issue synthesis *)

Example legacy_test_script_issue :
  option_map (fun d => (Legacy.title d, Legacy.labels d, Legacy.assignees d))
    (Legacy.createIssueForTodo
       (mkTodo "src/utils.js" 15 "// TODO: Implement error handling" "TODO")
       (Context.mk "testuser" "testrepo" "" "" "pull_request"
          (Payload.mk (Some (PullRequest.mk (Some 123) (Some (User.mk (Some "testuser")))))
             None None None))
       ["todo"; "enhancement"])
  = Some ("TODO: // TODO: Implement error handling", ["todo"; "enhancement"],
          [Some "testuser"]).
Proof. reflexivity. Qed.

(** X18.  The first synthesis always puts "TODO: " in front of the trimmed
    content, comment markers included, and keeps at most its first 50
    characters, so a title has at most 59.  It decides on the ellipsis by
    the length of the content before trimming: a content of at most 50
    characters gives the trimmed content whole, a trimmed content of more
    than 50 is cut and gets the ellipsis, and a content that only trimming
    brings down to 50 or fewer gets the ellipsis although nothing is cut. *)
Theorem legacy_title (t : todo) :
  Js.startsWith (Legacy.titleOf t) "TODO: " = true
  /\ String.length (Legacy.titleOf t) <= 59
  /\ (String.length (content t) <= 50 ->
      Legacy.titleOf t = "TODO: " +++ Js.trim (content t))
  /\ (50 < String.length (Js.trim (content t)) ->
      Legacy.titleOf t = "TODO: " +++ Js.substring0 50 (Js.trim (content t)) +++ "...")
  /\ (String.length (Js.trim (content t)) <= 50 < String.length (content t) ->
      Legacy.titleOf t = "TODO: " +++ Js.trim (content t) +++ "...").
Proof.
  unfold Legacy.titleOf. pose proof (trim_length (content t)) as Ht.
  pose proof (substring0_length_le 50 (Js.trim (content t))) as Hs.
  split; [apply prefix_self_append|]. split.
  { rewrite !length_append. destruct (50 <? String.length (content t)); simpl; lia. }
  split; [|split].
  - intro H. assert (E : (50 <? String.length (content t)) = false)
      by (apply Nat.ltb_ge; exact H).
    rewrite E, append_empty_r, substring0_short by lia. reflexivity.
  - intro H. assert (E : (50 <? String.length (content t)) = true)
      by (apply Nat.ltb_lt; lia).
    rewrite E. reflexivity.
  - intros [H1 H2]. assert (E : (50 <? String.length (content t)) = true)
      by (apply Nat.ltb_lt; exact H2).
    rewrite E, substring0_short by exact H1. reflexivity.
Qed.

Lemma legacy_title_witness :
  Legacy.titleOf (mkTodo "a.js" 1 "// TODO: fix" "TODO") = "TODO: // TODO: fix"
  /\ Legacy.titleOf
       (mkTodo "a.js" 1
          "   // TODO: keep the cache warm between requests            " "TODO")
     = "TODO: // TODO: keep the cache warm between requests...".
Proof.
  split.
  - rewrite (proj1 (proj2 (proj2 (legacy_title (mkTodo "a.js" 1 "// TODO: fix" "TODO")))))
      by (simpl; lia).
    reflexivity.
  - rewrite (proj2 (proj2 (proj2 (proj2
               (legacy_title
                  (mkTodo "a.js" 1
                     "   // TODO: keep the cache warm between requests            "
                     "TODO"))))))
      by (vm_compute; split; lia).
    reflexivity.
Defined.

(** X19.  The first synthesis gives no issue data exactly when the payload
    has no pull request or the pull request has no user; otherwise the data
    carry the labels as given and exactly one assignee, the login of the
    user of the pull request, and the body quotes the file path and the
    trimmed content. *)
Theorem legacy_createIssueForTodo_data (t : todo) (context : Context.t)
    (labels : list string) :
  (Legacy.createIssueForTodo t context labels = None <->
   Payload.pull_request (Context.payload context) = None
   \/ exists pr,
        Payload.pull_request (Context.payload context) = Some pr
        /\ PullRequest.user pr = None)
  /\ (forall d,
        Legacy.createIssueForTodo t context labels = Some d ->
        Legacy.title d = Legacy.titleOf t
        /\ Legacy.labels d = labels
        /\ (exists pr user,
               Payload.pull_request (Context.payload context) = Some pr
               /\ PullRequest.user pr = Some user
               /\ Legacy.assignees d = [User.login user])
        /\ Js.includes (Legacy.body d) (file t) = true
        /\ Js.includes (Legacy.body d) (Js.trim (content t)) = true).
Proof.
  unfold Legacy.createIssueForTodo. cbv zeta.
  destruct (Payload.pull_request (Context.payload context)) as [pr|].
  - destruct (PullRequest.user pr) as [user|] eqn:Eu.
    + split.
      * split; [discriminate|]. intros [H | (pr' & H & H')]; [discriminate|].
        inversion H; subst. congruence.
      * intros d H. inversion H; subst d.
        cbn [Legacy.title Legacy.labels Legacy.assignees Legacy.body].
        split; [reflexivity|]. split; [reflexivity|].
        split; [exists pr, user; auto|].
        split; unfold Legacy.bodyOf;
          repeat first [apply includes_head | apply includes_after].
    + split; [|discriminate]. split; [|reflexivity].
      intros _. right. exists pr. auto.
  - split; [|discriminate]. split; auto.
Qed.

Lemma legacy_createIssueForTodo_data_witness :
  Legacy.createIssueForTodo Sample.finding Sample.pushContext ["todo"] = None
  /\ option_map Legacy.assignees
       (Legacy.createIssueForTodo Sample.finding Sample.prEventContext ["todo"])
     = Some [Some "dev"].
Proof.
  split.
  - apply (proj1 (legacy_createIssueForTodo_data Sample.finding Sample.pushContext
                    ["todo"])).
    left. reflexivity.
  - destruct (Legacy.createIssueForTodo Sample.finding Sample.prEventContext ["todo"])
      as [d|] eqn:E; [|vm_compute in E; discriminate].
    destruct (proj2 (legacy_createIssueForTodo_data Sample.finding
                       Sample.prEventContext ["todo"]) d E)
      as (_ & _ & (pr & user & Hp & Hu & Ha) & _).
    simpl. rewrite Ha. vm_compute in Hp. inversion Hp; subst pr.
    vm_compute in Hu. inversion Hu; subst user. reflexivity.
Defined.

(** ** What a marker line is *)

Ltac marker_case opener keyword ln :=
  let H := fresh "H" in
  split; [reflexivity|]; split;
  [ intro H; unfold Regex.test;
    exact (proj2 (marker_pattern_search opener keyword ln) H)
  | intros _ H; unfold Regex.test in H;
    exact (proj1 (marker_pattern_search opener keyword ln) H) ].

(** X20.  The twelve patterns are the four comment openers, each before
    any run of white space and each of the three keywords, and the kind of
    a pattern is its keyword.  A line that holds, somewhere, the opener,
    then any run of TAB, LF, VT, FF, CR and SP, then the keyword, the
    letters in either case, matches the pattern; nothing is asked of what
    comes before or after, so the keyword may go on ("TODOS") and the
    opener may sit inside code or a string.  An ASCII line matches the
    pattern only if it is such a line. *)
Theorem marker_pattern_meaning :
  todoPatterns
  = flat_map
      (fun keyword =>
         map (fun opener => markerPattern opener keyword) ["//"; "/*"; "#"; "<!--"])
      ["TODO"; "FIXME"; "HACK"]
  /\ forall opener keyword ln,
       In opener ["//"; "/*"; "#"; "<!--"] ->
       In keyword ["TODO"; "FIXME"; "HACK"] ->
       patternType (markerPattern opener keyword) = keyword
       /\ ((exists before o' w k' after,
               ln = before +++ o' +++ w +++ k' +++ after
               /\ sameIgnoringCase o' opener
               /\ allChars Js.isWhiteSpace w = true
               /\ sameIgnoringCase k' keyword) ->
           Regex.test (markerPattern opener keyword) ln = true)
       /\ (allChars isAscii ln = true ->
           Regex.test (markerPattern opener keyword) ln = true ->
           exists before o' w k' after,
             ln = before +++ o' +++ w +++ k' +++ after
             /\ sameIgnoringCase o' opener
             /\ allChars Js.isWhiteSpace w = true
             /\ sameIgnoringCase k' keyword).
Proof.
  split; [reflexivity|].
  intros opener keyword ln Ho Hk. cbn [In] in Ho, Hk.
  destruct Ho as [<-|[<-|[<-|[<-|[]]]]]; destruct Hk as [<-|[<-|[<-|[]]]].
  - marker_case "//" "TODO" ln.
  - marker_case "//" "FIXME" ln.
  - marker_case "//" "HACK" ln.
  - marker_case "/*" "TODO" ln.
  - marker_case "/*" "FIXME" ln.
  - marker_case "/*" "HACK" ln.
  - marker_case "#" "TODO" ln.
  - marker_case "#" "FIXME" ln.
  - marker_case "#" "HACK" ln.
  - marker_case "<!--" "TODO" ln.
  - marker_case "<!--" "FIXME" ln.
  - marker_case "<!--" "HACK" ln.
Qed.

(** The statement at the line [x = 1  #  fixme later], in both
    directions. *)
Lemma marker_pattern_meaning_witness :
  Regex.test (markerPattern "#" "FIXME") "x = 1  #  fixme later" = true
  /\ exists before o' w k' after,
       "x = 1  #  fixme later" = before +++ o' +++ w +++ k' +++ after
       /\ sameIgnoringCase o' "#"
       /\ allChars Js.isWhiteSpace w = true
       /\ sameIgnoringCase k' "FIXME".
Proof.
  destruct (proj2 marker_pattern_meaning "#" "FIXME" "x = 1  #  fixme later"
              ltac:(simpl; tauto) ltac:(simpl; tauto)) as (_ & Hif & Honly).
  assert (M : Regex.test (markerPattern "#" "FIXME") "x = 1  #  fixme later" = true).
  { apply Hif. exists "x = 1  ", "#", "  ", "fixme", " later".
    repeat split; reflexivity. }
  split; [exact M | exact (Honly eq_refl M)].
Defined.
